(** * tsdata: header parsing, metadata validation and line validation

    A shallow embedding of [tsdata.go] (package [tsdata]) and the proofs of
    the properties its specification states.

    Go strings are byte sequences and are modelled by [string] (a list of
    [ascii], one per byte).  The receiver [t *Tsdata] that the methods mutate
    is passed in and returned explicitly.  The Go standard library functions
    the package calls ([strings.Split], [strings.Join], [strings.TrimSpace],
    [strings.TrimRight], [strings.TrimSuffix], [time.Parse] with the layout
    [time.RFC3339], [strconv.ParseInt]) are modelled in the modules
    [GoStrings], [GoTime] and [GoStrconv]; [strconv.ParseFloat] is a
    parameter of the development. *)

From Stdlib Require Import Bool Arith ZArith List Ascii String Lia.
From Stdlib Require Import Numbers.DecimalString.
Import ListNotations.
Open Scope string_scope.

(* ------------------------------------------------------------------ *)
(** ** Bytes *)

Definition byte (n : nat) : ascii := ascii_of_nat n.

(** The bytes written [\t], [\n] and [\r] in the Go source. *)
Definition TAB : ascii := byte 9.
Definition LF : ascii := byte 10.
Definition CR : ascii := byte 13.
Definition SP : ascii := byte 32.

(* ------------------------------------------------------------------ *)
(** ** Package [strings] *)

Module GoStrings.

(** [rev s]: the bytes of [s] in reverse order. *)
Definition rev (s : string) : string :=
  string_of_list_ascii (List.rev (list_ascii_of_string s)).

(** [contains s c]: byte [c] occurs in [s]. *)
Fixpoint contains (s : string) (c : ascii) : bool :=
  match s with
  | EmptyString => false
  | String a r => Ascii.eqb a c || contains r c
  end.

(** [strings.Split(s, sep)] for a one-byte separator, the only kind the
    package passes ([Delim] and [\n]): the substrings between the
    occurrences of [sep]; always at least one element. *)
Fixpoint Split (s : string) (sep : ascii) : list string :=
  match s with
  | EmptyString => [EmptyString]
  | String c r =>
      if Ascii.eqb c sep then EmptyString :: Split r sep
      else match Split r sep with
           | [] => [String c EmptyString]
           | f :: fs => String c f :: fs
           end
  end.

(** [strings.Join(elems, sep)] for a one-byte separator. *)
Fixpoint Join (elems : list string) (sep : ascii) : string :=
  match elems with
  | [] => EmptyString
  | e :: rest =>
      match rest with
      | [] => e
      | _ :: _ => e ++ String sep (Join rest sep)
      end
  end.

(** [strings.TrimSuffix(s, suffix)]: [s] without the trailing [suffix], or
    [s] itself when it does not end with [suffix]. *)
Fixpoint TrimSuffix (s suffix : string) : string :=
  if String.eqb s suffix then EmptyString
  else match s with
       | EmptyString => EmptyString
       | String c r => String c (TrimSuffix r suffix)
       end.

(** [strings.TrimRight(s, cutset)] for a cutset of ASCII bytes: drops the
    longest suffix of [s] made of bytes of [cutset]. *)
Fixpoint TrimRight (s cutset : string) : string :=
  match s with
  | EmptyString => EmptyString
  | String c r =>
      match TrimRight r cutset with
      | EmptyString => if contains cutset c then EmptyString else String c EmptyString
      | String _ _ as r' => String c r'
      end
  end.

(** White space as [unicode.IsSpace] sees it, on the UTF-8 encoding:
    the six ASCII bytes of [asciiSpace], *)
Definition asciiSpace (c : ascii) : bool :=
  match nat_of_ascii c with
  | 9 | 10 | 11 | 12 | 13 | 32 => true
  | _ => false
  end.

(** U+0085 and U+00A0, encoded as [C2 85] and [C2 A0], *)
Definition space2 (a b : ascii) : bool :=
  Nat.eqb (nat_of_ascii a) 194 &&
  (Nat.eqb (nat_of_ascii b) 133 || Nat.eqb (nat_of_ascii b) 160).

(** and U+1680, U+2000..U+200A, U+2028, U+2029, U+202F, U+205F and U+3000,
    encoded on three bytes. *)
Definition space3 (a b c : ascii) : bool :=
  match nat_of_ascii a, nat_of_ascii b with
  | 225, 154 => Nat.eqb (nat_of_ascii c) 128
  | 226, 128 =>
      let n := nat_of_ascii c in
      (Nat.leb 128 n && Nat.leb n 138) || Nat.eqb n 168 || Nat.eqb n 169 || Nat.eqb n 175
  | 226, 129 => Nat.eqb (nat_of_ascii c) 159
  | 227, 128 => Nat.eqb (nat_of_ascii c) 128
  | _, _ => false
  end.

(** [strings.TrimLeftFunc(s, unicode.IsSpace)]: drops the leading white
    space runes. *)
Fixpoint trimLeftSpace (s : string) : string :=
  match s with
  | EmptyString => EmptyString
  | String a r1 =>
      if asciiSpace a then trimLeftSpace r1
      else match r1 with
           | String b r2 =>
               if space2 a b then trimLeftSpace r2
               else match r2 with
                    | String c r3 => if space3 a b c then trimLeftSpace r3 else s
                    | EmptyString => s
                    end
           | EmptyString => s
           end
  end.

(** The same scan from the end of the string, on the reversed bytes: the
    last rune is read backwards, as [utf8.DecodeLastRuneInString] does. *)
Fixpoint trimLeftSpaceRev (s : string) : string :=
  match s with
  | EmptyString => EmptyString
  | String a r1 =>
      if asciiSpace a then trimLeftSpaceRev r1
      else match r1 with
           | String b r2 =>
               if space2 b a then trimLeftSpaceRev r2
               else match r2 with
                    | String c r3 => if space3 c b a then trimLeftSpaceRev r3 else s
                    | EmptyString => s
                    end
           | EmptyString => s
           end
  end.

(** [strings.TrimRightFunc(s, unicode.IsSpace)]. *)
Definition trimRightSpace (s : string) : string := rev (trimLeftSpaceRev (rev s)).

(** [strings.TrimSpace(s)]: [s] without leading and trailing white space. *)
Definition TrimSpace (s : string) : string := trimRightSpace (trimLeftSpace s).

End GoStrings.

(* ------------------------------------------------------------------ *)
(** ** Package [time]: [time.Parse(time.RFC3339, value)] *)

Module GoTime.

(** A [time.Time] as [time.Parse] builds it: the civil date and clock
    fields read from the text and the offset of its zone, in seconds east
    of UTC. *)
Record Time : Set := mkTime {
  year : Z; month : Z; day : Z;
  hour : Z; minute : Z; second : Z; nanosecond : Z;
  zoneOffset : Z
}.

(** The zero value [time.Time{}]: January 1, year 1, 00:00:00 UTC. *)
Definition zero : Time := mkTime 1 1 1 0 0 0 0 0.

Definition isDigit (c : ascii) : bool :=
  Nat.leb 48 (nat_of_ascii c) && Nat.leb (nat_of_ascii c) 57.

Definition digit (c : ascii) : Z := Z.of_nat (nat_of_ascii c - 48).

(** [getnum(s, fixed)]: one or two leading digits; two are demanded when
    [fixed]. *)
Definition getnum (s : string) (fixed : bool) : option (Z * string) :=
  match s with
  | String a r =>
      if isDigit a then
        match r with
        | String b r' =>
            if isDigit b then Some (digit a * 10 + digit b, r')%Z
            else if fixed then None else Some (digit a, r)
        | EmptyString => if fixed then None else Some (digit a, r)
        end
      else None
  | EmptyString => None
  end.

(** [stdLongYear]: four digits. *)
Definition longYear (value : string) : option (Z * string) :=
  match value with
  | String a (String b (String c (String d r))) =>
      if isDigit a && isDigit b && isDigit c && isDigit d
      then Some (digit a * 1000 + digit b * 100 + digit c * 10 + digit d, r)%Z
      else None
  | _ => None
  end.

(** [skip(value, prefix)] for the one-byte literal prefixes of the layout
    ([-], [T] and [:]). *)
Definition skip (value : string) (prefix : ascii) : option string :=
  match value with
  | String a r => if Ascii.eqb a prefix then Some r else None
  | EmptyString => None
  end.

Definition isLeap (y : Z) : bool :=
  ((y mod 4 =? 0) && (negb (y mod 100 =? 0) || (y mod 400 =? 0)))%Z.

Definition daysIn (m y : Z) : Z :=
  match m with
  | 2 => if isLeap y then 29 else 28
  | 4 | 6 | 9 | 11 => 30
  | _ => 31
  end%Z.

(** The leading run of digits of [s] and what follows it. *)
Fixpoint spanDigits (s : string) : string * string :=
  match s with
  | String a r =>
      if isDigit a then let (ds, rest) := spanDigits r in (String a ds, rest)
      else (EmptyString, s)
  | EmptyString => (EmptyString, EmptyString)
  end.

(** [parseNanoseconds]: the first nine digits of the fraction, scaled to
    nanoseconds; digits beyond the ninth are dropped. *)
Fixpoint nanoFrom (ds : string) (width : nat) (acc : Z) : Z :=
  match width with
  | O => acc
  | S w =>
      match ds with
      | String a r => nanoFrom r w (acc * 10 + digit a)%Z
      | EmptyString => nanoFrom EmptyString w (acc * 10)%Z
      end
  end.

Definition commaOrPeriod (c : ascii) : bool :=
  Ascii.eqb c "."%char || Ascii.eqb c ","%char.

(** The fractional second that may follow the seconds although the layout
    has none: a period or comma and at least one digit. *)
Definition fracSecond (value : string) : Z * string :=
  match value with
  | String p (String d r) =>
      if commaOrPeriod p && isDigit d then
        let (ds, rest) := spanDigits (String d r) in (nanoFrom ds 9 0%Z, rest)
      else (0%Z, value)
  | _ => (0%Z, value)
  end.

(** [stdISO8601ColonTZ] ([Z07:00]): the letter [Z], or a sign, two digits,
    a colon and two digits. *)
Definition zone (value : string) : option (Z * string) :=
  match value with
  | String z r =>
      if Ascii.eqb z "Z"%char then Some (0%Z, r)
      else
        match r with
        | String h1 (String h2 (String colon (String m1 (String m2 rest)))) =>
            if Ascii.eqb colon ":"%char
               && isDigit h1 && isDigit h2 && isDigit m1 && isDigit m2 then
              let hr := (digit h1 * 10 + digit h2)%Z in
              let mm := (digit m1 * 10 + digit m2)%Z in
              if ((24 <? hr) || (60 <? mm))%Z then None
              else
                let off := ((hr * 60 + mm) * 60)%Z in
                if Ascii.eqb z "+"%char then Some (off, rest)
                else if Ascii.eqb z "-"%char then Some ((- off)%Z, rest)
                else None
            else None
        | _ => None
        end
  | EmptyString => None
  end.

Notation "'do' x <- a ; b" :=
  (match a with Some x => b | None => None end)
  (at level 10, x pattern, a at level 100, b at level 200, only parsing).

(** [time.Parse(time.RFC3339, value)] with
    [RFC3339 = 2006-01-02T15:04:05Z07:00]; [None] stands for a non-nil
    error.  The elements of the layout are read in turn, as the standard
    library does: a year of four digits, a month and a day of two, an
    hour of one or two digits, minutes and seconds of two, the fraction
    of a second that may follow, and the zone; the literal bytes between
    them must be matched, nothing may remain, and the day must exist in
    its month.  (The comma as the mark of the fraction and the bounds on
    the zone offset are those of the Go releases since 1.20.) *)
Definition Parse (value : string) : option Time :=
  do (y, v) <- longYear value;
  do v <- skip v "-"%char;
  do (mo, v) <- getnum v true;
  if ((mo <=? 0) || (12 <? mo))%Z then None else
  do v <- skip v "-"%char;
  do (d, v) <- getnum v true;
  do v <- skip v "T"%char;
  do (h, v) <- getnum v false;
  if (24 <=? h)%Z then None else
  do v <- skip v ":"%char;
  do (mi, v) <- getnum v true;
  if (60 <=? mi)%Z then None else
  do v <- skip v ":"%char;
  do (s, v) <- getnum v true;
  if (60 <=? s)%Z then None else
  let (ns, v) := fracSecond v in
  do (off, v) <- zone v;
  match v with
  | String _ _ => None
  | EmptyString =>
      if ((d <? 1) || (daysIn mo y <? d))%Z then None
      else Some (mkTime y mo d h mi s ns off)
  end.

End GoTime.

(* ------------------------------------------------------------------ *)
(** ** Package [strconv]: [strconv.ParseInt(s, 10, 64)] *)

Module GoStrconv.

(** The value of a run of decimal digits; [None] on any other byte. *)
Fixpoint digits (s : string) (acc : Z) : option Z :=
  match s with
  | EmptyString => Some acc
  | String a r =>
      if GoTime.isDigit a then digits r (acc * 10 + GoTime.digit a)%Z else None
  end.

Definition unsigned (s : string) : option Z :=
  match s with
  | EmptyString => None
  | String _ _ => digits s 0%Z
  end.

(** [ParseInt(s, 10, 64)]: an optional sign and decimal digits, in the
    range of [int64]; [None] stands for a non-nil error. *)
Definition ParseInt (s : string) : option Z :=
  let cutoff := (2 ^ 63)%Z in
  match s with
  | EmptyString => None
  | String c r =>
      if Ascii.eqb c "+"%char then
        match unsigned r with
        | Some un => if (cutoff <=? un)%Z then None else Some un
        | None => None
        end
      else if Ascii.eqb c "-"%char then
        match unsigned r with
        | Some un => if (cutoff <? un)%Z then None else Some (- un)%Z
        | None => None
        end
      else
        match unsigned s with
        | Some un => if (cutoff <=? un)%Z then None else Some un
        | None => None
        end
  end.

End GoStrconv.

(* ------------------------------------------------------------------ *)
(** ** Package [tsdata]: constants, errors and data *)

Import GoStrings.

(** [Delim], the field separator: the one-byte string [\t]. *)
Definition Delim : ascii := TAB.

(** [NA], the string used to represent missing data. *)
Definition NA : string := "NA".

(** [HeaderSize], the number of lines in a header section. *)
Definition HeaderSize : nat := 7.

(** The string [\n]. *)
Definition nl : string := String LF EmptyString.

(** The cutset [" \t\r"] of the trailing white space [ParseHeader] removes
    from each header line. *)
Definition lineCutset : string := String SP (String TAB (String CR EmptyString)).

(** The errors the package builds with [fmt.Errorf], one constructor for
    each call, named after the failure it reports and carrying the values
    that are formatted into the message. *)
Inductive error : Set :=
  | TooFewColumns (found : nat)
  | ColumnCountMismatch (found expected : nat)
  | InvalidTimestamp (value : string)
  | ColumnValidationError (column : nat) (value : string)
  | HeaderShapeError (expected found : nat)
  | MissingFileType
  | MissingProject
  | EmptyComment (column : nat)
  | MissingTypes
  | CommentCountMismatch
  | UnknownType (value : string) (column : nat)
  | MissingUnits
  | UnitCountMismatch
  | EmptyUnit (column : nat)
  | MissingHeaders
  | HeaderCountMismatch
  | FirstColumnNotTime
  | EmptyHeader (column : nat)
  | NoDataColumns.

(** [%v] of an [int] that is not negative. *)
Definition showInt (n : nat) : string := NilEmpty.string_of_uint (Nat.to_uint n).

(** [err.Error()]: the message of each error. *)
Definition Error (e : error) : string :=
  match e with
  | TooFewColumns n => "found " ++ showInt n ++ " columns, expected >= 2"
  | ColumnCountMismatch n m => "found " ++ showInt n ++ " columns, expected " ++ showInt m
  | InvalidTimestamp v => "first time column, bad value '" ++ v ++ "'"
  | ColumnValidationError c v => "column " ++ showInt c ++ ", bad value '" ++ v ++ "'"
  | HeaderShapeError n m => "expected " ++ showInt n ++ " lines in header, found " ++ showInt m
  | MissingFileType => "missing or empty FileType"
  | MissingProject => "missing or empty Project"
  | EmptyComment c => "empty comment in column " ++ showInt c
  | MissingTypes => "missing or empty Types"
  | CommentCountMismatch => "inconsistent Types column count"
  | UnknownType v c => "bad Types value '" ++ v ++ "' in column " ++ showInt c
  | MissingUnits => "missing or empty Units"
  | UnitCountMismatch => "inconsistent Units column count"
  | EmptyUnit c => "empty Units value in column " ++ showInt c
  | MissingHeaders => "missing or empty Headers"
  | HeaderCountMismatch => "inconsistent Headers column count"
  | FirstColumnNotTime => "first Headers column should be 'time'"
  | EmptyHeader c => "empty Headers value in column " ++ showInt c
  | NoDataColumns => "no data columns after time"
  end.

(** The kind of failure an error reports, without the formatted values. *)
Inductive errorClass : Set :=
  | KTooFewColumns | KColumnCountMismatch | KInvalidTimestamp
  | KColumnValidationError | KHeaderShapeError | KMissingFileType
  | KMissingProject | KEmptyComment | KMissingTypes | KCommentCountMismatch
  | KUnknownType | KMissingUnits | KUnitCountMismatch | KEmptyUnit
  | KMissingHeaders | KHeaderCountMismatch | KFirstColumnNotTime
  | KEmptyHeader | KNoDataColumns.

Definition classOf (e : error) : errorClass :=
  match e with
  | TooFewColumns _ => KTooFewColumns
  | ColumnCountMismatch _ _ => KColumnCountMismatch
  | InvalidTimestamp _ => KInvalidTimestamp
  | ColumnValidationError _ _ => KColumnValidationError
  | HeaderShapeError _ _ => KHeaderShapeError
  | MissingFileType => KMissingFileType
  | MissingProject => KMissingProject
  | EmptyComment _ => KEmptyComment
  | MissingTypes => KMissingTypes
  | CommentCountMismatch => KCommentCountMismatch
  | UnknownType _ _ => KUnknownType
  | MissingUnits => KMissingUnits
  | UnitCountMismatch => KUnitCountMismatch
  | EmptyUnit _ => KEmptyUnit
  | MissingHeaders => KMissingHeaders
  | HeaderCountMismatch => KHeaderCountMismatch
  | FirstColumnNotTime => KFirstColumnNotTime
  | EmptyHeader _ => KEmptyHeader
  | NoDataColumns => KNoDataColumns
  end.

(** The errors of the metadata phase: those of [ParseHeader] and
    [ValidateMetadata]. *)
Definition metadataPhase (e : error) : bool :=
  match e with
  | TooFewColumns _ | ColumnCountMismatch _ _ | InvalidTimestamp _
  | ColumnValidationError _ _ => false
  | _ => true
  end.

(** The six functions of the [typecheckers] table.  The field [checkers]
    is not exported and the package only ever stores these functions or
    [nil] in it, so a [func(string) bool] value is one of six names. *)
Inductive checker : Set :=
  | CheckTime | CheckFloat | CheckInteger | CheckText | CheckCategory | CheckBoolean.

(** The struct [Tsdata].  An entry [None] of [checkers] is a [nil]
    function. *)
Record Tsdata : Set := mkTsdata {
  checkers : list (option checker);
  lastTime : GoTime.Time;
  FileType : string;
  Project : string;
  FileDescription : string;
  Comments : list string;
  Types : list string;
  Units : list string;
  Headers : list string
}.

(** The zero value [Tsdata{}]. *)
Definition emptyTsdata : Tsdata :=
  mkTsdata [] GoTime.zero "" "" "" [] [] [] [].

(** The struct [Data]: the fields of one validated line and its time. *)
Record Data : Set := mkData {
  Fields : list string;
  Time : GoTime.Time
}.

(** What a call that may return an error or panic does: [Panic] stands
    for a run-time panic (an index out of range, a call of a [nil]
    function). *)
Inductive result (A : Type) : Type :=
  | Ok (a : A)
  | Err (e : error)
  | Panic.
Arguments Ok {A} a.
Arguments Err {A} e.
Arguments Panic {A}.

(** Assignments to the fields of the receiver. *)
Definition set_checkers (t : Tsdata) (v : list (option checker)) : Tsdata :=
  mkTsdata v (lastTime t) (FileType t) (Project t) (FileDescription t)
           (Comments t) (Types t) (Units t) (Headers t).
Definition set_lastTime (t : Tsdata) (v : GoTime.Time) : Tsdata :=
  mkTsdata (checkers t) v (FileType t) (Project t) (FileDescription t)
           (Comments t) (Types t) (Units t) (Headers t).
Definition set_FileType (t : Tsdata) (v : string) : Tsdata :=
  mkTsdata (checkers t) (lastTime t) v (Project t) (FileDescription t)
           (Comments t) (Types t) (Units t) (Headers t).
Definition set_Project (t : Tsdata) (v : string) : Tsdata :=
  mkTsdata (checkers t) (lastTime t) (FileType t) v (FileDescription t)
           (Comments t) (Types t) (Units t) (Headers t).
Definition set_FileDescription (t : Tsdata) (v : string) : Tsdata :=
  mkTsdata (checkers t) (lastTime t) (FileType t) (Project t) v
           (Comments t) (Types t) (Units t) (Headers t).
Definition set_Comments (t : Tsdata) (v : list string) : Tsdata :=
  mkTsdata (checkers t) (lastTime t) (FileType t) (Project t) (FileDescription t)
           v (Types t) (Units t) (Headers t).
Definition set_Types (t : Tsdata) (v : list string) : Tsdata :=
  mkTsdata (checkers t) (lastTime t) (FileType t) (Project t) (FileDescription t)
           (Comments t) v (Units t) (Headers t).
Definition set_Units (t : Tsdata) (v : list string) : Tsdata :=
  mkTsdata (checkers t) (lastTime t) (FileType t) (Project t) (FileDescription t)
           (Comments t) (Types t) v (Headers t).
Definition set_Headers (t : Tsdata) (v : list string) : Tsdata :=
  mkTsdata (checkers t) (lastTime t) (FileType t) (Project t) (FileDescription t)
           (Comments t) (Types t) (Units t) v.

(* ------------------------------------------------------------------ *)
(** ** Package [tsdata]: the type checkers *)

(** [checkTime]: the string parses as an RFC 3339 time, or is [NA]. *)
Definition checkTime (s : string) : bool :=
  match GoTime.Parse s with
  | None => String.eqb s NA
  | Some _ => true
  end.

(** [checkInteger]: the string parses as a 64-bit integer in base 10, or
    is [NA]. *)
Definition checkInteger (s : string) : bool :=
  match GoStrconv.ParseInt s with
  | None => String.eqb s NA
  | Some _ => true
  end.

Definition checkText (s : string) : bool := true.

Definition checkCategory (s : string) : bool := negb (String.eqb s "").

Definition checkBoolean (s : string) : bool :=
  String.eqb s "TRUE" || String.eqb s "FALSE" || String.eqb s NA.

(** The map [typecheckers]: a lookup that finds no key gives [None], the
    [nil] function that Go's map lookup returns for a missing key. *)
Definition typecheckers (ty : string) : option checker :=
  if String.eqb ty "time" then Some CheckTime
  else if String.eqb ty "float" then Some CheckFloat
  else if String.eqb ty "integer" then Some CheckInteger
  else if String.eqb ty "text" then Some CheckText
  else if String.eqb ty "category" then Some CheckCategory
  else if String.eqb ty "boolean" then Some CheckBoolean
  else None.

(** [nas(size)]: [size] times [NA], joined by [Delim]. *)
Definition nas (size : nat) : string := Join (repeat NA size) Delim.

(* ------------------------------------------------------------------ *)
(** ** [ValidateMetadata] *)

(** The loops [for i, x := range xs { if x == "" { ... i+1 ... } }]: the
    column (counted from [col] for the head) of the first empty entry. *)
Fixpoint firstEmpty (xs : list string) (col : nat) : option nat :=
  match xs with
  | [] => None
  | x :: rest => if String.eqb x "" then Some col else firstEmpty rest (S col)
  end.

(** The loop over [t.Types]: the first entry that is not a key of
    [typecheckers], with its column. *)
Fixpoint firstUnknown (xs : list string) (col : nat) : option (string * nat) :=
  match xs with
  | [] => None
  | x :: rest =>
      match typecheckers x with
      | None => Some (x, col)
      | Some _ => firstUnknown rest (S col)
      end
  end.

Definition ValidateMetadata (t : Tsdata) : option error :=
  (* FileType *)
  if String.eqb (FileType t) "" then Some MissingFileType else
  (* Project *)
  if String.eqb (Project t) "" then Some MissingProject else
  (* Comments *)
  let colCount := 0 in
  match (if Nat.ltb 0 (List.length (Comments t))
         then firstEmpty (Comments t) 1 else None) with
  | Some c => Some (EmptyComment c)
  | None =>
  let colCount :=
    if Nat.ltb 0 (List.length (Comments t)) then List.length (Comments t) else colCount in
  (* Types *)
  if Nat.eqb (List.length (Types t)) 0 then Some MissingTypes else
  if Nat.ltb 0 colCount && negb (Nat.eqb (List.length (Types t)) colCount)
  then Some CommentCountMismatch else
  match firstUnknown (Types t) 1 with
  | Some (v, c) => Some (UnknownType v c)
  | None =>
  let colCount := List.length (Types t) in
  (* Units *)
  if Nat.eqb (List.length (Units t)) 0 then Some MissingUnits else
  if negb (Nat.eqb (List.length (Units t)) colCount) then Some UnitCountMismatch else
  match firstEmpty (Units t) 1 with
  | Some c => Some (EmptyUnit c)
  | None =>
  (* Headers *)
  if Nat.eqb (List.length (Headers t)) 0 then Some MissingHeaders else
  if negb (Nat.eqb (List.length (Headers t)) colCount) then Some HeaderCountMismatch else
  if negb (String.eqb (nth 0 (Headers t) "") "time") then Some FirstColumnNotTime else
  match firstEmpty (Headers t) 1 with
  | Some c => Some (EmptyHeader c)
  | None =>
  (* Finally column count should be > 1 *)
  if Nat.ltb colCount 2 then Some NoDataColumns else None
  end end end end.

(* ------------------------------------------------------------------ *)
(** ** [ParseHeader] *)

(** [strings.Split(line, Delim)] followed by the loop that replaces each
    field by its [strings.TrimSpace]. *)
Definition splitTrim (line : string) : list string :=
  map TrimSpace (Split line Delim).

(** [strings.Split(line, Delim)[0]]; [Split] never returns an empty
    slice, so the index is in range. *)
Definition firstField (line : string) : string :=
  nth 0 (Split line Delim) "".

(** The header lines after the line count was checked: trailing white
    space removed from each. *)
Definition trimLines (headerLines : list string) : list string :=
  map (fun l => TrimRight l lineCutset) headerLines.

(** The assignments of [ParseHeader] from the seven trimmed lines. *)
Definition assignHeader (t : Tsdata) (headerLines : list string) : Tsdata :=
  let line i := nth i headerLines "" in
  let t := set_FileType t (firstField (line 0)) in
  let t := set_Project t (firstField (line 1)) in
  let t := set_FileDescription t (firstField (line 2)) in
  let t := if String.eqb (line 3) "" then t else set_Comments t (splitTrim (line 3)) in
  let t := if String.eqb (line 4) "" then t else set_Types t (splitTrim (line 4)) in
  let t := if String.eqb (line 5) "" then t else set_Units t (splitTrim (line 5)) in
  let t := if String.eqb (line 6) "" then t else set_Headers t (splitTrim (line 6)) in
  set_checkers t (map typecheckers (Types t)).

(** The lines [ParseHeader] counts. *)
Definition headerLinesOf (header : string) : list string :=
  Split (TrimSuffix header nl) LF.

(** [t.ParseHeader(header)]: the receiver after the call and the error
    returned ([None] for [nil]). *)
Definition ParseHeader (t : Tsdata) (header : string) : Tsdata * option error :=
  let headerLines := headerLinesOf header in
  if negb (Nat.eqb (List.length headerLines) HeaderSize)
  then (t, Some (HeaderShapeError HeaderSize (List.length headerLines)))
  else
    let t := assignHeader t (trimLines headerLines) in
    (t, ValidateMetadata t).

(* ------------------------------------------------------------------ *)
(** ** [Header] *)

Definition Header (t : Tsdata) : string :=
  let cols := List.length (Headers t) in
  let text := FileType t ++ nl in
  let text := text ++ Project t ++ nl in
  let text := text ++ FileDescription t ++ nl in
  let text :=
    if Nat.eqb (List.length (Comments t)) 0
    then text ++ nas cols ++ nl
    else text ++ Join (Comments t) Delim ++ nl in
  let text := text ++ Join (Types t) Delim ++ nl in
  let text := text ++ Join (Units t) Delim ++ nl in
  let text := text ++ Join (Headers t) Delim in
  text.

(* ------------------------------------------------------------------ *)
(** ** [ValidateLine] *)

Section Lines.

(** [strconv.ParseFloat(s, 64)] returns a [nil] error: the one library
    function left abstract. *)
Variable parseFloat : string -> bool.

(** [checkFloat]: the string parses as a 64-bit float, or is [NA]. *)
Definition checkFloat (s : string) : bool :=
  if parseFloat s then true else String.eqb s NA.

(** The call of a function of the table. *)
Definition call (c : checker) (s : string) : bool :=
  match c with
  | CheckTime => checkTime s
  | CheckFloat => checkFloat s
  | CheckInteger => checkInteger s
  | CheckText => checkText s
  | CheckCategory => checkCategory s
  | CheckBoolean => checkBoolean s
  end.

(** The loop [for i := 1; i < len(fields); i++] of [ValidateLine], on
    the fields from index [i] on: each is trimmed and given to
    [t.checkers[i]]; the trimmed fields are returned.  Indexing
    [checkers] out of range and calling a [nil] entry panic. *)
Fixpoint checkFields (chk : list (option checker)) (i : nat) (fields : list string)
  : result (list string) :=
  match fields with
  | [] => Ok []
  | f :: rest =>
      let f' := TrimSpace f in
      match nth_error chk i with
      | None => Panic
      | Some None => Panic
      | Some (Some c) =>
          if call c f' then
            match checkFields chk (S i) rest with
            | Ok fs => Ok (f' :: fs)
            | Err e => Err e
            | Panic => Panic
            end
          else Err (ColumnValidationError (S i) f')
      end
  end.

(** [t.ValidateLine(line)]: the receiver after the call and what the call
    returns. *)
Definition ValidateLine (t : Tsdata) (line : string) : Tsdata * result Data :=
  let fields := Split line Delim in
  if Nat.ltb (List.length fields) 2
  then (t, Err (TooFewColumns (List.length fields)))
  else if negb (Nat.eqb (List.length fields) (List.length (Headers t)))
  then (t, Err (ColumnCountMismatch (List.length fields) (List.length (Headers t))))
  else
    let f0 := TrimSpace (nth 0 fields "") in
    match GoTime.Parse f0 with
    | None => (t, Err (InvalidTimestamp f0))
    | Some tline =>
        match checkFields (checkers t) 1 (tl fields) with
        | Ok fs => (set_lastTime t tline, Ok (mkData (f0 :: fs) tline))
        | Err e => (t, Err e)
        | Panic => (t, Panic)
        end
    end.

End Lines.

(* ------------------------------------------------------------------ *)
(** ** The properties, stated on the model *)

(** The metadata invariants of the specification, as a proposition. *)
Definition MetadataValid (t : Tsdata) : Prop :=
  FileType t <> "" /\
  Project t <> "" /\
  Forall (fun c => c <> "") (Comments t) /\
  (Comments t <> [] -> List.length (Comments t) = List.length (Types t)) /\
  Forall (fun ty => typecheckers ty <> None) (Types t) /\
  List.length (Units t) = List.length (Types t) /\
  Forall (fun u => u <> "") (Units t) /\
  List.length (Headers t) = List.length (Types t) /\
  nth 0 (Headers t) "" = "time" /\
  Forall (fun h => h <> "") (Headers t) /\
  2 <= List.length (Types t).

(** The twelve checks as functions, in the order of the code: each gives
    the error it reports, or [None] when it passes.  This executable form
    stands between the code and the rules of the specification below. *)
Definition specChecks : list (Tsdata -> option error) :=
  [ (* 1 *) fun t => if String.eqb (FileType t) "" then Some MissingFileType else None;
    (* 2 *) fun t => if String.eqb (Project t) "" then Some MissingProject else None;
    (* 3 *) fun t => option_map EmptyComment (firstEmpty (Comments t) 1);
    (* 4 *) fun t => match Types t with [] => Some MissingTypes | _ :: _ => None end;
    (* 5 *) fun t => match Comments t with
                     | [] => None
                     | _ :: _ =>
                         if Nat.eqb (List.length (Comments t)) (List.length (Types t))
                         then None else Some CommentCountMismatch
                     end;
    (* 6 *) fun t => option_map (fun vc => UnknownType (fst vc) (snd vc))
                                (firstUnknown (Types t) 1);
    (* 7 *) fun t => match Units t with
                     | [] => Some MissingUnits
                     | _ :: _ =>
                         if Nat.eqb (List.length (Units t)) (List.length (Types t))
                         then None else Some UnitCountMismatch
                     end;
    (* 8 *) fun t => option_map EmptyUnit (firstEmpty (Units t) 1);
    (* 9 *) fun t => match Headers t with
                     | [] => Some MissingHeaders
                     | _ :: _ =>
                         if Nat.eqb (List.length (Headers t)) (List.length (Types t))
                         then None else Some HeaderCountMismatch
                     end;
    (* 10 *) fun t => match Headers t with
                      | h :: _ => if String.eqb h "time" then None else Some FirstColumnNotTime
                      | [] => Some FirstColumnNotTime
                      end;
    (* 11 *) fun t => option_map EmptyHeader (firstEmpty (Headers t) 1);
    (* 12 *) fun t => if Nat.leb 2 (List.length (Types t)) then None else Some NoDataColumns ].

(** The error of the first check of a list that fails. *)
Fixpoint firstFailure (checks : list (Tsdata -> option error)) (t : Tsdata) : option error :=
  match checks with
  | [] => None
  | c :: rest =>
      match c t with
      | Some e => Some e
      | None => firstFailure rest t
      end
  end.

(** The first failure of the twelve checks. *)
Definition ValidateMetadata_spec (t : Tsdata) : option error :=
  firstFailure specChecks t.

(** The type tags of the specification. *)
Definition recognizedTags : list string :=
  ["time"; "float"; "integer"; "text"; "category"; "boolean"].

Definition isEmpty (x : string) : Prop := x = "".

Definition unrecognized (x : string) : Prop := ~ In x recognizedTags.

(** Entry [i] (counted from 0) of [xs] is [v], [v] is [bad], and no entry
    before it is: the first offending entry, reported as column [i + 1]. *)
Definition firstOffender (bad : string -> Prop) (xs : list string)
           (i : nat) (v : string) : Prop :=
  nth_error xs i = Some v /\ bad v /\
  forall j x, j < i -> nth_error xs j = Some x -> ~ bad x.

(** The twelve rules of the specification, in the order it lists them,
    each as the relation between metadata that breaks the rule and the
    error that reports it.  They are written from the wording of the
    specification, not from the code. *)
Definition validationRules : list (Tsdata -> error -> Prop) :=
  [ (* 1 *) fun t e => FileType t = "" /\ e = MissingFileType;
    (* 2 *) fun t e => Project t = "" /\ e = MissingProject;
    (* 3 *) fun t e => exists i v, firstOffender isEmpty (Comments t) i v /\
                                   e = EmptyComment (S i);
    (* 4 *) fun t e => Types t = [] /\ e = MissingTypes;
    (* 5 *) fun t e => Comments t <> [] /\
                       List.length (Comments t) <> List.length (Types t) /\
                       e = CommentCountMismatch;
    (* 6 *) fun t e => exists i v, firstOffender unrecognized (Types t) i v /\
                                   e = UnknownType v (S i);
    (* 7 *) fun t e => (Units t = [] /\ e = MissingUnits) \/
                       (Units t <> [] /\
                        List.length (Units t) <> List.length (Types t) /\
                        e = UnitCountMismatch);
    (* 8 *) fun t e => exists i v, firstOffender isEmpty (Units t) i v /\
                                   e = EmptyUnit (S i);
    (* 9 *) fun t e => (Headers t = [] /\ e = MissingHeaders) \/
                       (Headers t <> [] /\
                        List.length (Headers t) <> List.length (Types t) /\
                        e = HeaderCountMismatch);
    (* 10 *) fun t e => nth_error (Headers t) 0 <> Some "time" /\
                        e = FirstColumnNotTime;
    (* 11 *) fun t e => exists i v, firstOffender isEmpty (Headers t) i v /\
                                    e = EmptyHeader (S i);
    (* 12 *) fun t e => List.length (Types t) < 2 /\ e = NoDataColumns ].

(** [r] is what applying [rules] in order, stopping at the first one that
    is broken, reports on [t]: the error of that rule, or [None] when
    every rule holds. *)
Fixpoint verdict (rules : list (Tsdata -> error -> Prop)) (t : Tsdata)
         (r : option error) : Prop :=
  match rules with
  | [] => r = None
  | rule :: rest =>
      (exists e, rule t e /\ r = Some e) \/
      ((forall e, ~ rule t e) /\ verdict rest t r)
  end.

(** The rule (counted from 0) that reports the errors of a class; the
    errors of no rule are given [12]. *)
Definition ruleOfClass (k : errorClass) : nat :=
  match k with
  | KMissingFileType => 0
  | KMissingProject => 1
  | KEmptyComment => 2
  | KMissingTypes => 3
  | KCommentCountMismatch => 4
  | KUnknownType => 5
  | KMissingUnits | KUnitCountMismatch => 6
  | KEmptyUnit => 7
  | KMissingHeaders | KHeaderCountMismatch => 8
  | KFirstColumnNotTime => 9
  | KEmptyHeader => 10
  | KNoDataColumns => 11
  | _ => 12
  end.









(** A header field that survives rendering and parsing: it holds no
    delimiter and no newline, and [ParseHeader] finds nothing to trim.
    The file type, project and description lose trailing white space
    only; the entries of the column lines lose white space on both
    sides. *)
Definition cleanScalar (s : string) : bool :=
  negb (contains s TAB) && negb (contains s LF)
  && String.eqb (TrimRight s lineCutset) s.

Definition cleanField (s : string) : bool :=
  negb (contains s TAB) && negb (contains s LF) && String.eqb (TrimSpace s) s.

Definition cleanMetadata (m : Tsdata) : bool :=
  cleanScalar (FileType m) && cleanScalar (Project m)
  && cleanScalar (FileDescription m)
  && forallb cleanField (Comments m)
  && forallb cleanField (Units m)
  && forallb cleanField (Headers m).

(** The comments that come back from the header of [m]: those of [m],
    or one [NA] for each column when [m] has none. *)
Definition reparsedComments (m : Tsdata) : list string :=
  match Comments m with
  | [] => repeat NA (List.length (Headers m))
  | _ :: _ => Comments m
  end.

(** Parsing the header of [m] into the receiver [t0] succeeds and gives
    the metadata of [m] back, but for the comments. *)
Definition roundTrips (t0 m : Tsdata) : Prop :=
  exists t,
    ParseHeader t0 (Header m) = (t, None) /\
    FileType t = FileType m /\
    Project t = Project m /\
    FileDescription t = FileDescription m /\
    Comments t = reparsedComments m /\
    Types t = Types m /\
    Units t = Units m /\
    Headers t = Headers m.

(** The invariant of [checkers] that [ValidateLine] relies on: one entry
    for each header, none of them [nil]. *)
Definition checkersSafe (t : Tsdata) : Prop :=
  List.length (checkers t) = List.length (Headers t) /\
  Forall (fun c => exists f : checker, c = Some f) (checkers t).

(** A field of a column line that comes back as it was. *)
Definition goodField (f : string) : Prop :=
  contains f TAB = false /\ contains f LF = false /\ TrimSpace f = f /\ f <> "".

(** A unit written with a leading space: the metadata passes validation
    and its header parses, but the unit comes back without the space. *)
Definition untrimmedUnit : Tsdata :=
  mkTsdata [] GoTime.zero "fileType" "project" "" []
           ["time"; "float"] ["NA"; " m/s"] ["time"; "speed"].

Section LineSpec.

Variable parseFloat : string -> bool.

(** The field count of [line] passes both count checks of
    [ValidateLine]. *)
Definition countsOk (t : Tsdata) (line : string) : Prop :=
  2 <= List.length (Split line Delim) /\
  List.length (Split line Delim) = List.length (Headers t).

(** The trimmed first field of [line]. *)
Definition firstColumn (line : string) : string :=
  TrimSpace (nth 0 (Split line Delim) "").

(** Column [j] (counted from 0) of [line] has a checker, and the checker
    accepts the trimmed field. *)
Definition columnPasses (t : Tsdata) (line : string) (j : nat) : Prop :=
  exists c, nth_error (checkers t) j = Some (Some c) /\
            call parseFloat c (TrimSpace (nth j (Split line Delim) "")) = true.

(** [line] passes all the checks of [ValidateLine], its first column
    being the time [tm]. *)
Definition linePasses (t : Tsdata) (line : string) (tm : GoTime.Time) : Prop :=
  countsOk t line /\
  GoTime.Parse (firstColumn line) = Some tm /\
  forall j, 1 <= j < List.length (Split line Delim) -> columnPasses t line j.

End LineSpec.

(* ------------------------------------------------------------------ *)
(** ** Example data *)

(** A stand-in for [strconv.ParseFloat] in the examples: it accepts the
    numerals [d...d] and [d...d.d...d] of at most 17 bytes, all of which
    [strconv.ParseFloat] accepts. *)
Definition decimalNumeral (s : string) : bool :=
  Nat.leb (String.length s) 17 &&
  let (whole, rest) := GoTime.spanDigits s in
  negb (String.eqb whole "") &&
  match rest with
  | EmptyString => true
  | String p frac =>
      Ascii.eqb p "."%char && negb (String.eqb frac "") &&
      String.eqb (snd (GoTime.spanDigits frac)) ""
  end.

(** The metadata of the examples of the specification: a time column and
    a column of the given type. *)
Definition twoColumns (ty : string) : Tsdata :=
  mkTsdata (map typecheckers ["time"; ty]) GoTime.zero
           "fileType" "project" "file description"
           ["ISO8601 timestamp"; "NA"] ["time"; ty] ["NA"; "NA"] ["time"; "col1"].

(** The metadata of the README. *)
Definition readmeMetadata : Tsdata :=
  mkTsdata
    [Some CheckTime; Some CheckFloat; Some CheckInteger; Some CheckText;
     Some CheckCategory; Some CheckBoolean]
    GoTime.zero "fileType" "project"
    "Some general comments about this file on a single line, not tab-delimited"
    ["ISO8601 timestamp"; "column2 notes"; "NA"; "column4 notes"; "column5 notes";
     "column6 notes"]
    ["time"; "float"; "integer"; "text"; "category"; "boolean"]
    ["NA"; "m/s"; "km"; "NA"; "NA"; "NA"]
    ["time"; "speed"; "distance"; "notes"; "color"; "hasTail"].

(** The time [2017-05-06T19:52:57.601Z]. *)
Definition exampleTime : GoTime.Time := GoTime.mkTime 2017 5 6 19 52 57 601000000 0.

(** A data line, from its fields. *)
Definition lineOf (fields : list string) : string := Join fields Delim.




(* ------------------------------------------------------------------ *)
(** ** The command line tool: [readHeader], [validate] and [csv]

    The commands of [cmd/tsdata/main.go] that call the package.  What the
    operating system and the buffered reader and writer do in a run is
    given to the commands as a [World]; the logger and the writer are
    the lists of the strings handed to them. *)

(** An error of the operating system or of package [bufio], as a value
    of its own: the commands pass it on and never look into it. *)
Definition ioError : Set := string.

(** A [bufio.Scanner] on the input, by what it does in the run.  [Scan]
    delivers the tokens in turn; each comes with what [Err] returns once
    it is delivered, since a scanner whose read has failed still
    delivers the lines it holds.  When the tokens are used up, [Scan]
    returns false, now and at every later call, and [Err] returns
    [atEnd]: [None] at the end of the input, an error after a failed
    read or a line too long for the buffer. *)
Record Scanner : Set := mkScanner {
  tokens : list (string * option ioError);
  atEnd : option ioError
}.

(** The run: the scanner on standard input; [os.Open] of a file followed
    by [bufio.NewScanner]; [os.Create]; the error of each call of
    [WriteString] on the buffered writer, counted from 0; and
    [outf.Close] of standard output.  [None] is a [nil] error. *)
Record World : Type := mkWorld {
  stdin : Scanner;
  open : string -> ioError + Scanner;
  create : string -> option ioError;
  writeString : nat -> option ioError;
  closeStdout : option ioError
}.

(** The loop of [readHeader]: up to [n] tokens are taken from the
    scanner.  When [Scan] returns false, the error of the scanner is
    returned if there is one; otherwise the loop ends and the entries
    left of [headerLines] stay empty. *)
Fixpoint scanHeaderLines (n : nat) (tokens : list (string * option ioError))
         (atEnd : option ioError)
  : ioError + list string * list (string * option ioError) :=
  match n with
  | 0 => inr ([], tokens)
  | S k =>
      match tokens with
      | [] =>
          match atEnd with
          | Some err => inl err
          | None => inr (repeat EmptyString (S k), [])
          end
      | (line, _) :: rest =>
          match scanHeaderLines k rest atEnd with
          | inl err => inl err
          | inr (headerLines, tokens') => inr (line :: headerLines, tokens')
          end
      end
  end.

(** [readHeader(scanner)]: the error, or the header text and the scanner
    after it. *)
Definition readHeader (scanner : Scanner) : ioError + string * Scanner :=
  match scanHeaderLines HeaderSize (tokens scanner) (atEnd scanner) with
  | inl err => inl err
  | inr (headerLines, tokens') =>
      inr (Join headerLines LF, mkScanner tokens' (atEnd scanner))
  end.

(** What [validate] and [csv] return: an error of the operating system
    or of the scanner, or an error of [ParseHeader], both passed on as
    they are; or the error [<infile> failed validation]. *)
Inductive commandError : Set :=
  | IOError (err : ioError)
  | HeaderError (e : error)
  | FailedValidation (infile : string).

(** A run of a command: the error returned ([None] for [nil]), what was
    handed to the logger and what the buffered writer took; or a
    panic. *)
Inductive run : Set :=
  | Returned (err : option commandError) (log : list string) (out : list string)
  | Crashed.

(** [logger.Printf("line %v, %v\n", i, err)] and [logger.Println(err)]. *)
Definition logLineError (i : nat) (e : error) : string :=
  "line " ++ showInt i ++ ", " ++ Error e ++ nl.

Definition logError (e : error) : string := Error e ++ nl.

(** The byte [,] that [csv] joins fields with. *)
Definition COMMA : ascii := ","%char.

(** [strings.Join(fields, ",") + "\n"]. *)
Definition csvRow (fields : list string) : string := Join fields COMMA ++ nl.

(** The first lines of [validate] and of [csv]: standard input for the
    file name [-], otherwise the file, which may fail to open. *)
Definition openInput (w : World) (infile : string) : ioError + Scanner :=
  if String.eqb infile "-" then inr (stdin w) else open w infile.

Section Commands.

Variable parseFloat : string -> bool.

(** The loop of [validate] over the data lines: [i] counts the lines
    read, [sawError] and the log are carried along.  The loop ends when
    [Scan] returns false, or, with [stringent], at the first line that
    fails; it gives what [scanner.Err()] returns then.  [None] is a
    panic of [ValidateLine]. *)
Fixpoint validateLoop (ts : Tsdata) (i : nat) (sawError : bool) (log : list string)
         (stringent : bool) (tokens : list (string * option ioError))
         (atEnd : option ioError)
  : option (bool * list string * option ioError) :=
  match tokens with
  | [] => Some (sawError, log, atEnd)
  | (line, err) :: rest =>
      let i := S i in
      match ValidateLine parseFloat ts line with
      | (ts, Ok _) => validateLoop ts i sawError log stringent rest atEnd
      | (ts, Err e) =>
          let sawError := true in
          let log := (log ++ [logLineError i e])%list in
          if stringent then Some (sawError, log, err)
          else validateLoop ts i sawError log stringent rest atEnd
      | (_, Panic) => None
      end
  end.

(** [validate(infile, stringent)].  The error of the scanner is looked
    at before [sawError]; the deferred [r.Close()] gives nothing the
    command looks at. *)
Definition validate (w : World) (infile : string) (stringent : bool) : run :=
  match openInput w infile with
  | inl err => Returned (Some (IOError err)) [] []
  | inr scanner =>
      let ts := emptyTsdata in
      match readHeader scanner with
      | inl err => Returned (Some (IOError err)) [] []
      | inr (header, scanner) =>
          match ParseHeader ts header with
          | (_, Some e) => Returned (Some (HeaderError e)) [] []
          | (ts, None) =>
              match validateLoop ts HeaderSize false [] stringent
                                 (tokens scanner) (atEnd scanner) with
              | None => Crashed
              | Some (sawError, log, Some err) =>
                  Returned (Some (IOError err)) log []
              | Some (sawError, log, None) =>
                  Returned (if sawError then Some (FailedValidation infile) else None)
                           log []
              end
          end
      end
  end.

(** The loop of [csv] over the data lines, [k] calls of [WriteString]
    having been made: a line that fails is logged and skipped, the
    fields of a valid one are written as a row, and an error of the
    write ends the loop and is returned.  The result is that error, if
    any, with the log and the rows written; [None] is a panic of
    [ValidateLine]. *)
Fixpoint csvLoop (w : World) (ts : Tsdata) (k : nat) (log out : list string)
         (tokens : list (string * option ioError))
  : option (option ioError * list string * list string) :=
  match tokens with
  | [] => Some (None, log, out)
  | (line, _) :: rest =>
      match ValidateLine parseFloat ts line with
      | (ts, Ok data) =>
          match writeString w k with
          | Some err => Some (Some err, log, out)
          | None => csvLoop w ts (S k) log (out ++ [csvRow (Fields data)])%list rest
          end
      | (ts, Err e) => csvLoop w ts k (log ++ [logError e])%list out rest
      | (_, Panic) => None
      end
  end.

(** [csv(infile, outfile)].  The error of [w.Flush()] is dropped, and
    the output is closed, with the error of [Close] returned, only when
    it is standard output. *)
Definition csv (w : World) (infile outfile : string) : run :=
  match openInput w infile with
  | inl err => Returned (Some (IOError err)) [] []
  | inr scanner =>
      let ts := emptyTsdata in
      match readHeader scanner with
      | inl err => Returned (Some (IOError err)) [] []
      | inr (header, scanner) =>
          match ParseHeader ts header with
          | (_, Some e) => Returned (Some (HeaderError e)) [] []
          | (ts, None) =>
              match (if String.eqb outfile "-" then None else create w outfile) with
              | Some err => Returned (Some (IOError err)) [] []
              | None =>
                  match writeString w 0 with
                  | Some err => Returned (Some (IOError err)) [] []
                  | None =>
                      match csvLoop w ts 1 [] [csvRow (Headers ts)] (tokens scanner) with
                      | None => Crashed
                      | Some (Some err, log, out) =>
                          Returned (Some (IOError err)) log out
                      | Some (None, log, out) =>
                          match atEnd scanner with
                          | Some err => Returned (Some (IOError err)) log out
                          | None =>
                              if String.eqb outfile "-" then
                                match closeStdout w with
                                | Some err => Returned (Some (IOError err)) log out
                                | None => Returned None log out
                                end
                              else Returned None log out
                          end
                      end
                  end
              end
          end
      end
  end.

End Commands.

(* ------------------------------------------------------------------ *)
(** ** Further notions for the properties *)

(** Every byte of [s] is a decimal digit. *)
Fixpoint allDigits (s : string) : bool :=
  match s with
  | EmptyString => true
  | String a r => GoTime.isDigit a && allDigits r
  end.

(** A decimal numeral: an optional sign and at least one digit, and
    nothing else. *)
Definition signedNumeral (s : string) : Prop :=
  exists sign ds,
    s = sign ++ ds /\ (sign = "" \/ sign = "+" \/ sign = "-") /\
    ds <> "" /\ allDigits ds = true.

(** No field of the metadata holds a newline. *)
Definition noNewlines (t : Tsdata) : bool :=
  negb (contains (FileType t) LF) && negb (contains (Project t) LF)
  && negb (contains (FileDescription t) LF)
  && forallb (fun f => negb (contains f LF)) (Comments t)
  && forallb (fun f => negb (contains f LF)) (Types t)
  && forallb (fun f => negb (contains f LF)) (Units t)
  && forallb (fun f => negb (contains f LF)) (Headers t).

(** The seven lines of the header of [t]. *)
Definition headerLines (t : Tsdata) : list string :=
  [FileType t; Project t; FileDescription t;
   Join (reparsedComments t) Delim;
   Join (Types t) Delim; Join (Units t) Delim; Join (Headers t) Delim].

(** The metadata fields of two values are the same; [checkers] and
    [lastTime] are left aside. *)
Definition sameMetadata (a b : Tsdata) : Prop :=
  FileType a = FileType b /\ Project a = Project b /\
  FileDescription a = FileDescription b /\ Comments a = Comments b /\
  Types a = Types b /\ Units a = Units b /\ Headers a = Headers b.

(** The metadata that comes back from the header of [m], in full. *)
Definition reparsed (t0 m : Tsdata) : Tsdata :=
  mkTsdata (map typecheckers (Types m)) (lastTime t0)
           (FileType m) (Project m) (FileDescription m)
           (reparsedComments m) (Types m) (Units m) (Headers m).

(** The column entries of a receiver are clean. *)
Definition columnsClean (t : Tsdata) : Prop :=
  forallb cleanField (Comments t) = true /\ forallb cleanField (Types t) = true /\
  forallb cleanField (Units t) = true /\ forallb cleanField (Headers t) = true.

(** Every byte of [w] is one of the bytes [ParseHeader] trims from the
    end of a header line. *)
Fixpoint trailingSpace (w : string) : bool :=
  match w with
  | EmptyString => true
  | String a r => contains lineCutset a && trailingSpace r
  end.

Section CommandSpec.

Variable parseFloat : string -> bool.

(** [ValidateLine] returns a record for [line]. *)
Definition accepts (ts : Tsdata) (line : string) : bool :=
  match snd (ValidateLine parseFloat ts line) with
  | Ok _ => true
  | _ => false
  end.

(** What [validate] logs when it goes through all the lines: an entry
    for each line that [ValidateLine] refuses, with the number of the
    line in the file, [i] lines having been read before. *)
Fixpoint failureLog (ts : Tsdata) (i : nat) (scanner : list string) : list string :=
  match scanner with
  | [] => []
  | line :: rest =>
      match snd (ValidateLine parseFloat ts line) with
      | Err e => logLineError (S i) e :: failureLog ts (S i) rest
      | _ => failureLog ts (S i) rest
      end
  end.

(** The errors of the lines that [ValidateLine] refuses, in order. *)
Fixpoint refusals (ts : Tsdata) (scanner : list string) : list error :=
  match scanner with
  | [] => []
  | line :: rest =>
      match snd (ValidateLine parseFloat ts line) with
      | Err e => e :: refusals ts rest
      | _ => refusals ts rest
      end
  end.

(** The rows [csv] writes for the lines that [ValidateLine] accepts:
    the trimmed fields of each, joined by commas. *)
Definition rowsOf (ts : Tsdata) (lines : list string) : list string :=
  map (fun line => csvRow (map TrimSpace (Split line Delim)))
      (filter (accepts ts) lines).

(** What [Err] returns after the first token that [ValidateLine]
    refuses, or at the end when there is none. *)
Fixpoint errAtStop (ts : Tsdata) (tokens : list (string * option ioError))
         (atEnd : option ioError) : option ioError :=
  match tokens with
  | [] => atEnd
  | (line, err) :: rest => if accepts ts line then errAtStop ts rest atEnd else err
  end.

End CommandSpec.

(** The lines a scanner delivers. *)
Definition linesOf (scanner : Scanner) : list string := map fst (tokens scanner).

(** The scanner reports no error in the run. *)
Definition noScanError (scanner : Scanner) : Prop :=
  atEnd scanner = None /\ Forall (fun tok => snd tok = None) (tokens scanner).

(** [a] is [b] but for the time it remembers. *)
Definition differsInTime (a b : Tsdata) : Prop :=
  exists tm, a = set_lastTime b tm.

(** A file of nine lines: the header of [twoColumns "float"] and two
    data lines, the second with a field that is no number. *)
Definition exampleFile : list string :=
  (headerLines (twoColumns "float")
   ++ [lineOf ["2017-05-06T19:52:57.601Z"; " 6.0 "];
       lineOf ["2017-05-06T19:52:58.601Z"; "6a.0"]])%list.

(** A scanner that delivers [lines] with no error, and reports [atEnd]
    after them. *)
Definition scannerOf (lines : list string) (atEnd : option ioError) : Scanner :=
  mkScanner (map (fun l => (l, None)) lines) atEnd.

(** A run in which standard input and every file hold [lines] and
    nothing fails. *)
Definition quietWorld (lines : list string) : World :=
  mkWorld (scannerOf lines None) (fun _ => inr (scannerOf lines None))
          (fun _ => None) (fun _ => None) None.

(** The error of a scanner that meets a line longer than its buffer. *)
Definition tooLong : ioError := "bufio.Scanner: token too long".

(** A run in which the lines on standard input are followed by a line
    that is too long, and no file can be opened. *)
Definition tooLongWorld (lines : list string) : World :=
  mkWorld (scannerOf lines (Some tooLong)) (fun _ => inl "open: no such file")
          (fun _ => None) (fun _ => None) None.

(** The lines of the header of [twoColumns "float"], each with a carriage
    return at its end. *)
Definition exampleCRLF : list string :=
  map (fun l => l ++ String CR EmptyString) (headerLines (twoColumns "float")).

(* ------------------------------------------------------------------ *)
(** * Properties *)

(** ** Facts about the string functions *)

Module StringFacts.

Lemma append_nil_r (s : string) : s ++ "" = s.
Proof. induction s as [|c s IH]; simpl; [reflexivity | now rewrite IH]. Qed.

Lemma append_assoc (a b c : string) : (a ++ b) ++ c = a ++ (b ++ c).
Proof. induction a as [|x a IH]; simpl; [reflexivity | now rewrite IH]. Qed.

Lemma append_length (a b : string) :
  String.length (a ++ b) = String.length a + String.length b.
Proof. induction a as [|x a IH]; simpl; [reflexivity | now rewrite IH]. Qed.

Lemma contains_append (a b : string) (c : ascii) :
  contains (a ++ b) c = contains a c || contains b c.
Proof.
  induction a as [|x a IH]; simpl; [reflexivity|].
  now rewrite IH, orb_assoc.
Qed.

(** *** [Split] and [Join] *)

Lemma Split_not_nil (s : string) (sep : ascii) : Split s sep <> [].
Proof.
  destruct s as [|c r]; simpl; [discriminate|].
  destruct (Ascii.eqb c sep); [discriminate|].
  destruct (Split r sep); discriminate.
Qed.

Lemma Split_length_pos (s : string) (sep : ascii) : 1 <= List.length (Split s sep).
Proof.
  pose proof (Split_not_nil s sep) as H.
  destruct (Split s sep); [congruence | simpl; lia].
Qed.

Lemma Split_no_sep (s : string) (sep : ascii) :
  contains s sep = false -> Split s sep = [s].
Proof.
  induction s as [|c r IH]; simpl; intros H; [reflexivity|].
  apply orb_false_iff in H as [Hc Hr].
  rewrite Hc, (IH Hr). reflexivity.
Qed.

Lemma Split_append_sep (a b : string) (sep : ascii) :
  contains a sep = false ->
  Split (a ++ String sep b) sep = a :: Split b sep.
Proof.
  induction a as [|c r IH]; simpl; intros H.
  - now rewrite Ascii.eqb_refl.
  - apply orb_false_iff in H as [Hc Hr].
    rewrite Hc, (IH Hr). reflexivity.
Qed.

Lemma Join_cons (e : string) (rest : list string) (sep : ascii) :
  rest <> [] -> Join (e :: rest) sep = e ++ String sep (Join rest sep).
Proof. destruct rest; [congruence | reflexivity]. Qed.

(** Splitting a joined list gives the list back, when no element holds
    the separator. *)
Lemma Split_Join (fs : list string) (sep : ascii) :
  fs <> [] ->
  Forall (fun f => contains f sep = false) fs ->
  Split (Join fs sep) sep = fs.
Proof.
  induction fs as [|e rest IH]; intros Hne Hall; [congruence|].
  inversion Hall as [|? ? He Hrest]; subst.
  destruct rest as [|e' rest'].
  - simpl. now apply Split_no_sep.
  - rewrite Join_cons by discriminate.
    rewrite Split_append_sep by assumption.
    rewrite IH; [reflexivity | discriminate | assumption].
Qed.

Lemma contains_Join (fs : list string) (sep c : ascii) :
  Ascii.eqb sep c = false ->
  Forall (fun f => contains f c = false) fs ->
  contains (Join fs sep) c = false.
Proof.
  intros Hsep. induction fs as [|e rest IH]; intros Hall; [reflexivity|].
  inversion Hall as [|? ? He Hrest]; subst.
  destruct rest as [|e' rest']; [exact He|].
  rewrite Join_cons by discriminate.
  rewrite contains_append. cbn [contains].
  rewrite He, Hsep, (IH Hrest). reflexivity.
Qed.

Lemma Join_not_empty (fs : list string) (sep : ascii) :
  fs <> [] -> Forall (fun f => f <> "") fs -> Join fs sep <> "".
Proof.
  destruct fs as [|e rest]; intros Hne Hall; [congruence|].
  inversion Hall as [|? ? He _]; subst.
  destruct rest as [|e' rest'].
  - exact He.
  - rewrite Join_cons by discriminate.
    destruct e; [congruence | discriminate].
Qed.

(** *** [TrimSuffix] *)

Lemma TrimSuffix_no_LF (s : string) :
  contains s LF = false -> TrimSuffix s nl = s.
Proof.
  induction s as [|c r IH]; intros H; [reflexivity|].
  simpl in H. apply orb_false_iff in H as [Hc Hr].
  cbn [TrimSuffix]. unfold nl at 1.
  cbn [String.eqb]. rewrite Hc. now rewrite (IH Hr).
Qed.

Lemma TrimSuffix_append (a s : string) :
  s <> "" -> TrimSuffix (a ++ s) nl = a ++ TrimSuffix s nl.
Proof.
  intros Hs. induction a as [|c a IH]; [reflexivity|].
  cbn [append TrimSuffix]. unfold nl at 1. cbn [String.eqb].
  destruct (Ascii.eqb c LF).
  - destruct (a ++ s) eqn:E.
    + destruct a; simpl in E; [congruence | discriminate].
    + now rewrite IH.
  - now rewrite IH.
Qed.

(** *** [TrimRight] *)

Lemma TrimRight_append (a b cut : string) :
  TrimRight b cut <> "" ->
  TrimRight (a ++ b) cut = a ++ TrimRight b cut.
Proof.
  intros Hb. induction a as [|c a IH]; [reflexivity|].
  cbn [append TrimRight]. rewrite IH.
  destruct (a ++ TrimRight b cut) eqn:E; [|reflexivity].
  destruct a; simpl in E; [congruence | discriminate].
Qed.

Lemma TrimRight_last (s cut : string) (a : ascii) :
  contains cut a = false ->
  TrimRight (s ++ String a "") cut = s ++ String a "".
Proof.
  intros Ha.
  assert (H1 : TrimRight (String a "") cut = String a "") by (simpl; now rewrite Ha).
  rewrite TrimRight_append; rewrite H1; [reflexivity | discriminate].
Qed.

(** *** [rev] *)

Lemma string_of_list_ascii_app (l1 l2 : list ascii) :
  string_of_list_ascii (l1 ++ l2)%list = string_of_list_ascii l1 ++ string_of_list_ascii l2.
Proof. induction l1 as [|a l1 IH]; simpl; [reflexivity | now rewrite IH]. Qed.

Lemma string_of_list_ascii_length (l : list ascii) :
  String.length (string_of_list_ascii l) = List.length l.
Proof. induction l as [|a l IH]; simpl; [reflexivity | now rewrite IH]. Qed.

Lemma list_ascii_of_string_length (s : string) :
  List.length (list_ascii_of_string s) = String.length s.
Proof. induction s as [|a s IH]; simpl; [reflexivity | now rewrite IH]. Qed.

Lemma rev_length (s : string) : String.length (rev s) = String.length s.
Proof.
  unfold rev.
  now rewrite string_of_list_ascii_length, List.length_rev, list_ascii_of_string_length.
Qed.

Lemma rev_involutive (s : string) : rev (rev s) = s.
Proof.
  unfold rev.
  rewrite list_ascii_of_string_of_list_ascii, List.rev_involutive.
  apply string_of_list_ascii_of_string.
Qed.

Lemma rev_cons (a : ascii) (r : string) : rev (String a r) = rev r ++ String a "".
Proof. unfold rev. simpl. now rewrite string_of_list_ascii_app. Qed.

(** *** [TrimSpace] *)

Lemma trimLeftSpace_le (n : nat) :
  forall s, String.length s <= n ->
            String.length (trimLeftSpace s) <= String.length s.
Proof.
  induction n as [|n IH]; intros s Hs.
  - destruct s; simpl in *; lia.
  - destruct s as [|a r1]; [simpl; lia|].
    cbn [trimLeftSpace]. cbn [String.length] in Hs.
    destruct (asciiSpace a).
    { specialize (IH r1). cbn [String.length]. lia. }
    destruct r1 as [|b r2]; [lia|].
    cbn [String.length] in Hs.
    destruct (space2 a b).
    { specialize (IH r2). cbn [String.length]. lia. }
    destruct r2 as [|c r3]; [lia|].
    cbn [String.length] in Hs.
    destruct (space3 a b c); [|lia].
    specialize (IH r3). cbn [String.length]. lia.
Qed.

Lemma trimLeftSpace_fixed (s : string) :
  String.length (trimLeftSpace s) = String.length s ->
  trimLeftSpace s = s /\ forall a r, s = String a r -> asciiSpace a = false.
Proof.
  destruct s as [|a r1]; [split; [reflexivity | discriminate]|].
  cbn [trimLeftSpace].
  destruct (asciiSpace a) eqn:Ea.
  { pose proof (trimLeftSpace_le _ r1 (le_n _)). cbn [String.length]. lia. }
  assert (Hhd : forall a0 r0, String a r1 = String a0 r0 -> asciiSpace a0 = false)
    by (intros ? ? [= <- _]; exact Ea).
  destruct r1 as [|b r2]; [now split|].
  destruct (space2 a b).
  { pose proof (trimLeftSpace_le _ r2 (le_n _)). cbn [String.length]. lia. }
  destruct r2 as [|c r3]; [now split|].
  destruct (space3 a b c); [|now split].
  pose proof (trimLeftSpace_le _ r3 (le_n _)). cbn [String.length]. lia.
Qed.

Lemma trimLeftSpaceRev_le (n : nat) :
  forall s, String.length s <= n ->
            String.length (trimLeftSpaceRev s) <= String.length s.
Proof.
  induction n as [|n IH]; intros s Hs.
  - destruct s; simpl in *; lia.
  - destruct s as [|a r1]; [simpl; lia|].
    cbn [trimLeftSpaceRev]. cbn [String.length] in Hs.
    destruct (asciiSpace a).
    { specialize (IH r1). cbn [String.length]. lia. }
    destruct r1 as [|b r2]; [lia|].
    cbn [String.length] in Hs.
    destruct (space2 b a).
    { specialize (IH r2). cbn [String.length]. lia. }
    destruct r2 as [|c r3]; [lia|].
    cbn [String.length] in Hs.
    destruct (space3 c b a); [|lia].
    specialize (IH r3). cbn [String.length]. lia.
Qed.

Lemma trimLeftSpaceRev_fixed (s : string) :
  String.length (trimLeftSpaceRev s) = String.length s ->
  forall a r, s = String a r -> asciiSpace a = false.
Proof.
  destruct s as [|a r1]; [discriminate|].
  cbn [trimLeftSpaceRev].
  destruct (asciiSpace a) eqn:Ea.
  { pose proof (trimLeftSpaceRev_le _ r1 (le_n _)). cbn [String.length]. lia. }
  intros _ ? ? [= <- _]. exact Ea.
Qed.

(** A string that [TrimSpace] leaves as it is starts with no white space
    byte, and ends with none. *)
Lemma TrimSpace_fixed_left (f : string) :
  TrimSpace f = f -> trimLeftSpace f = f.
Proof.
  intros H.
  pose proof (f_equal String.length H) as HL.
  unfold TrimSpace, trimRightSpace in HL. rewrite rev_length in HL.
  pose proof (trimLeftSpaceRev_le _ (rev (trimLeftSpace f)) (le_n _)) as H1.
  rewrite rev_length in H1.
  pose proof (trimLeftSpace_le _ f (le_n _)) as H2.
  apply trimLeftSpace_fixed. lia.
Qed.

Lemma TrimSpace_fixed_last (f : string) :
  TrimSpace f = f -> f <> "" ->
  exists s a, f = s ++ String a "" /\ asciiSpace a = false.
Proof.
  intros H Hne.
  pose proof (TrimSpace_fixed_left f H) as HLft.
  unfold TrimSpace, trimRightSpace in H. rewrite HLft in H.
  pose proof (f_equal String.length H) as HL. rewrite !rev_length in HL.
  destruct (rev f) as [|a r] eqn:E.
  - exfalso. apply Hne. rewrite <- (rev_involutive f), E. reflexivity.
  - exists (rev r), a. split.
    + rewrite <- (rev_involutive f), E. apply rev_cons.
    + rewrite <- (rev_length f), E in HL.
      exact (trimLeftSpaceRev_fixed _ HL a r eq_refl).
Qed.

Lemma lineCutset_asciiSpace (a : ascii) :
  asciiSpace a = false -> contains lineCutset a = false.
Proof.
  intros Ha. unfold lineCutset. cbn [contains].
  destruct (Ascii.eqb SP a) eqn:E1; [apply Ascii.eqb_eq in E1; subst; discriminate|].
  destruct (Ascii.eqb TAB a) eqn:E2; [apply Ascii.eqb_eq in E2; subst; discriminate|].
  destruct (Ascii.eqb CR a) eqn:E3; [apply Ascii.eqb_eq in E3; subst; discriminate|].
  reflexivity.
Qed.

(** Such a string, when not empty, is left as it is by the [TrimRight]
    of [ParseHeader]. *)
Lemma TrimRight_of_trimmed (f : string) :
  TrimSpace f = f -> f <> "" -> TrimRight f lineCutset = f.
Proof.
  intros H Hne.
  destruct (TrimSpace_fixed_last f H Hne) as (s & a & -> & Ha).
  apply TrimRight_last. now apply lineCutset_asciiSpace.
Qed.

End StringFacts.

(* ------------------------------------------------------------------ *)
(** ** Metadata validation *)

Module MetadataFacts.

Lemma firstEmpty_None (xs : list string) (col : nat) :
  firstEmpty xs col = None <-> Forall (fun x => x <> "") xs.
Proof.
  revert col. induction xs as [|x rest IH]; intros col; simpl.
  - split; [constructor | reflexivity].
  - destruct (String.eqb_spec x "") as [E|E].
    + split; [discriminate|]. intros H. inversion H; subst. congruence.
    + rewrite IH. split; intros H.
      * now constructor.
      * now inversion H.
Qed.

Lemma firstEmpty_Some (xs : list string) (col k : nat) :
  firstEmpty xs col = Some k ->
  col <= k /\ nth_error xs (k - col) = Some "" /\
  Forall (fun x => x <> "") (firstn (k - col) xs).
Proof.
  revert col. induction xs as [|x rest IH]; intros col; simpl; [discriminate|].
  destruct (String.eqb_spec x "") as [E|E].
  - intros [= <-]. rewrite Nat.sub_diag. subst.
    split; [lia|]. split; [reflexivity | constructor].
  - intros H. apply IH in H as (Hle & Hn & Hbefore). split; [lia|].
    replace (k - col) with (S (k - S col)) by lia.
    split; [exact Hn|]. now constructor.
Qed.

Lemma firstUnknown_None (xs : list string) (col : nat) :
  firstUnknown xs col = None <-> Forall (fun x => typecheckers x <> None) xs.
Proof.
  revert col. induction xs as [|x rest IH]; intros col; simpl.
  - split; [constructor | reflexivity].
  - destruct (typecheckers x) eqn:E.
    + rewrite IH. split; intros H.
      * constructor; [congruence | assumption].
      * now inversion H.
    + split; [discriminate|]. intros H. inversion H; subst. congruence.
Qed.

Lemma firstUnknown_Some (xs : list string) (col k : nat) (v : string) :
  firstUnknown xs col = Some (v, k) ->
  col <= k /\ nth_error xs (k - col) = Some v /\ typecheckers v = None /\
  Forall (fun x => typecheckers x <> None) (firstn (k - col) xs).
Proof.
  revert col. induction xs as [|x rest IH]; intros col; simpl; [discriminate|].
  destruct (typecheckers x) eqn:E.
  - intros H. apply IH in H as (Hle & Hn & Hv & Hbefore). split; [lia|].
    replace (k - col) with (S (k - S col)) by lia.
    split; [exact Hn|]. split; [exact Hv|].
    constructor; [congruence | exact Hbefore].
  - intros [= <- <-]. rewrite Nat.sub_diag. split; [lia|].
    split; [reflexivity|]. split; [exact E | constructor].
Qed.

(** The code applies the checks of the specification in its order. *)
Lemma ValidateMetadata_refines (t : Tsdata) :
  ValidateMetadata t = ValidateMetadata_spec t.
Proof.
  unfold ValidateMetadata, ValidateMetadata_spec, specChecks, firstFailure.
  destruct t as [chk lt ft pr fd cs ts us hs];
    cbn [FileType Project Comments Types Units Headers].
  destruct (String.eqb ft ""); [reflexivity|].
  destruct (String.eqb pr ""); [reflexivity|].
  destruct cs as [|c cs'].
  - cbn [List.length Nat.ltb Nat.leb firstEmpty option_map].
    destruct ts as [|ty ts']; [reflexivity|].
    cbn [List.length Nat.eqb andb].
    destruct (firstUnknown (ty :: ts') 1) as [[v k]|]; [reflexivity|].
    cbn [option_map].
    destruct us as [|u us']; [reflexivity|].
    cbn [List.length Nat.eqb].
    destruct (Nat.eqb (List.length us') (List.length ts')); [|reflexivity].
    cbn [negb].
    destruct (firstEmpty (u :: us') 1); [reflexivity|].
    cbn [option_map].
    destruct hs as [|h hs']; [reflexivity|].
    cbn [List.length Nat.eqb nth].
    destruct (Nat.eqb (List.length hs') (List.length ts')); [|reflexivity].
    cbn [negb].
    destruct (String.eqb h "time"); [|reflexivity].
    cbn [negb].
    destruct (firstEmpty (h :: hs') 1); [reflexivity|].
    cbn [option_map].
    destruct ts' as [|ty' ts'']; reflexivity.
  - change (Nat.ltb 0 (List.length (c :: cs'))) with true. cbv iota.
    destruct (firstEmpty (c :: cs') 1); [reflexivity|].
    cbn [option_map].
    destruct ts as [|ty ts']; [reflexivity|].
    change (Nat.eqb (List.length (ty :: ts')) 0) with false. cbv iota.
    change (Nat.ltb 0 (List.length (c :: cs'))) with true. cbn [andb].
    rewrite (Nat.eqb_sym (List.length (ty :: ts'))).
    destruct (Nat.eqb (List.length (c :: cs')) (List.length (ty :: ts'))); [|reflexivity].
    cbn [negb].
    destruct (firstUnknown (ty :: ts') 1) as [[v k]|]; [reflexivity|].
    cbn [option_map].
    destruct us as [|u us']; [reflexivity|].
    change (Nat.eqb (List.length (u :: us')) 0) with false. cbv iota.
    destruct (Nat.eqb (List.length (u :: us')) (List.length (ty :: ts'))); [|reflexivity].
    cbn [negb].
    destruct (firstEmpty (u :: us') 1); [reflexivity|].
    cbn [option_map].
    destruct hs as [|h hs']; [reflexivity|].
    change (Nat.eqb (List.length (h :: hs')) 0) with false. cbv iota.
    destruct (Nat.eqb (List.length (h :: hs')) (List.length (ty :: ts'))); [|reflexivity].
    cbn [negb nth].
    destruct (String.eqb h "time"); [|reflexivity].
    cbn [negb].
    destruct (firstEmpty (h :: hs') 1); [reflexivity|].
    cbn [option_map].
    destruct ts' as [|ty' ts'']; reflexivity.
Qed.

Lemma ValidateMetadata_None_iff (t : Tsdata) :
  ValidateMetadata t = None <-> MetadataValid t.
Proof.
  rewrite ValidateMetadata_refines.
  unfold ValidateMetadata_spec, specChecks, firstFailure, MetadataValid.
  destruct t as [chk lt ft pr fd cs ts us hs];
    cbn [FileType Project Comments Types Units Headers].
  destruct (String.eqb_spec ft "") as [Hft|Hft];
    [split; [discriminate | intros (H & _); congruence]|].
  destruct (String.eqb_spec pr "") as [Hpr|Hpr];
    [split; [discriminate | intros (_ & H & _); congruence]|].
  destruct (firstEmpty cs 1) as [k|] eqn:Hcs; cbn [option_map].
  { split; [discriminate|]. intros (_ & _ & H & _).
    apply (firstEmpty_None cs 1) in H. congruence. }
  apply firstEmpty_None in Hcs.
  destruct ts as [|ty ts'].
  { split; [discriminate|]. intros H. decompose [and] H. simpl in *. lia. }
  assert (Hcnt : match cs with
                 | [] => None
                 | _ :: _ =>
                     if Nat.eqb (List.length cs) (List.length (ty :: ts'))
                     then None else Some CommentCountMismatch
                 end = None <-> (cs <> [] -> List.length cs = List.length (ty :: ts'))).
  { destruct cs as [|c cs']; [split; [congruence | reflexivity]|].
    destruct (Nat.eqb_spec (List.length (c :: cs')) (List.length (ty :: ts'))) as [E|E].
    - split; [intros _ _; exact E | reflexivity].
    - split; [discriminate|]. intros H. exfalso. apply E, H. discriminate. }
  destruct (match cs with [] => None | _ :: _ => _ end) as [e|] eqn:Hc5.
  { assert (e = CommentCountMismatch) as ->
      by (destruct cs; [discriminate|];
          destruct (Nat.eqb _ _); [discriminate | congruence]).
    split; [discriminate|]. intros (_ & _ & _ & H & _).
    apply Hcnt in H. discriminate. }
  destruct Hcnt as [Hcnt _]. specialize (Hcnt eq_refl).
  destruct (firstUnknown (ty :: ts') 1) as [[v k]|] eqn:Hty; cbn [option_map].
  { split; [discriminate|]. intros (_ & _ & _ & _ & H & _).
    apply (firstUnknown_None _ 1) in H. congruence. }
  apply firstUnknown_None in Hty.
  destruct us as [|u us'].
  { split; [discriminate|]. intros H. decompose [and] H. simpl in *. lia. }
  destruct (Nat.eqb_spec (List.length (u :: us')) (List.length (ty :: ts'))) as [Hus|Hus];
    [|split; [discriminate | intros H; decompose [and] H; contradiction]].
  destruct (firstEmpty (u :: us') 1) as [k|] eqn:Hue; cbn [option_map].
  { split; [discriminate|]. intros H. decompose [and] H.
    match goal with H : Forall _ (u :: us') |- _ =>
      apply (firstEmpty_None _ 1) in H; congruence end. }
  apply firstEmpty_None in Hue.
  destruct hs as [|h hs'].
  { split; [discriminate|]. intros H. decompose [and] H. simpl in *. lia. }
  destruct (Nat.eqb_spec (List.length (h :: hs')) (List.length (ty :: ts'))) as [Hhs|Hhs];
    [|split; [discriminate | intros H; decompose [and] H; contradiction]].
  destruct (String.eqb_spec h "time") as [Hh|Hh];
    [|split; [discriminate | intros H; decompose [and] H; simpl in *; contradiction]].
  destruct (firstEmpty (h :: hs') 1) as [k|] eqn:Hhe; cbn [option_map].
  { split; [discriminate|]. intros H. decompose [and] H.
    match goal with H : Forall _ (h :: hs') |- _ =>
      apply (firstEmpty_None _ 1) in H; congruence end. }
  apply firstEmpty_None in Hhe.
  destruct (Nat.leb_spec 2 (List.length (ty :: ts'))) as [Hn|Hn].
  - split; [intros _ | reflexivity]. repeat split; assumption.
  - split; [discriminate|]. intros H. decompose [and] H. lia.
Qed.

(** [ValidateMetadata] only reports errors of the metadata phase, and
    never the error of a wrong line count. *)
Lemma ValidateMetadata_phase (t : Tsdata) (e : error) :
  ValidateMetadata t = Some e ->
  metadataPhase e = true /\ classOf e <> KHeaderShapeError.
Proof.
  rewrite ValidateMetadata_refines.
  unfold ValidateMetadata_spec, specChecks, firstFailure.
  repeat match goal with
  | |- context [if ?b then _ else _] => destruct b
  | |- context [option_map _ ?x] => destruct x as [?|]; cbn [option_map]
  | |- context [match ?l with [] => _ | _ :: _ => _ end] => destruct l
  | |- Some _ = Some _ -> _ => intros [= <-]; split; [reflexivity | discriminate]
  | |- None = Some _ -> _ => discriminate
  end.
Qed.


(** *** The rules of the specification *)

Lemma typecheckers_recognized (ty : string) :
  typecheckers ty = None <-> unrecognized ty.
Proof.
  unfold unrecognized, recognizedTags. split.
  - intros H Hin. cbn [In] in Hin.
    destruct Hin as [<- | [<- | [<- | [<- | [<- | [<- | []]]]]]];
      cbv in H; discriminate H.
  - intros H. unfold typecheckers.
    repeat match goal with
    | |- context [String.eqb ty ?s] =>
        destruct (String.eqb_spec ty s) as [-> | ?]
    end; try reflexivity; exfalso; apply H; cbn [In]; tauto.
Qed.

Lemma firstOffender_nil (bad : string -> Prop) (i : nat) (v : string) :
  ~ firstOffender bad [] i v.
Proof. intros (Hn & _). destruct i; discriminate Hn. Qed.

Lemma firstOffender_here (bad : string -> Prop) (x : string) (rest : list string)
      (i : nat) (v : string) :
  bad x -> (firstOffender bad (x :: rest) i v <-> i = 0 /\ v = x).
Proof.
  intros Hx. split.
  - intros (Hn & Hv & Hbefore). destruct i as [|i].
    + cbn in Hn. injection Hn as <-. now split.
    + exfalso. apply (Hbefore 0 x); [lia | reflexivity | exact Hx].
  - intros [-> ->]. split; [reflexivity|]. split; [exact Hx|].
    intros j y Hj. lia.
Qed.

Lemma firstOffender_later (bad : string -> Prop) (x : string) (rest : list string)
      (i : nat) (v : string) :
  ~ bad x ->
  (firstOffender bad (x :: rest) i v <->
   exists i', i = S i' /\ firstOffender bad rest i' v).
Proof.
  intros Hx. split.
  - intros (Hn & Hv & Hbefore). destruct i as [|i].
    + cbn in Hn. injection Hn as <-. contradiction.
    + exists i. split; [reflexivity|]. split; [exact Hn|]. split; [exact Hv|].
      intros j y Hj Hy. apply (Hbefore (S j) y); [lia | exact Hy].
  - intros (i' & -> & Hn & Hv & Hbefore).
    split; [exact Hn|]. split; [exact Hv|].
    intros [|j] y Hj Hy.
    + cbn in Hy. injection Hy as <-. exact Hx.
    + apply (Hbefore j y); [lia | exact Hy].
Qed.

(** The loops of the code find the first offending entry. *)
Lemma firstEmpty_iff (xs : list string) (col k : nat) :
  firstEmpty xs col = Some k <->
  exists i v, k = col + i /\ firstOffender isEmpty xs i v.
Proof.
  revert col. induction xs as [|x rest IH]; intros col; cbn [firstEmpty].
  - split; [discriminate|]. intros (i & v & _ & H).
    now apply firstOffender_nil in H.
  - destruct (String.eqb_spec x "") as [E|E].
    + split.
      * intros [= <-]. exists 0, x. split; [lia|]. now apply firstOffender_here.
      * intros (i & v & -> & H).
        apply firstOffender_here in H as [-> _]; [|exact E].
        now rewrite Nat.add_0_r.
    + rewrite IH. split.
      * intros (i & v & -> & H). exists (S i), v. split; [lia|].
        apply firstOffender_later; [exact E|]. now exists i.
      * intros (i & v & -> & H).
        apply firstOffender_later in H as (i' & -> & H); [|exact E].
        exists i', v. split; [lia | exact H].
Qed.

Lemma firstUnknown_iff (xs : list string) (col k : nat) (v : string) :
  firstUnknown xs col = Some (v, k) <->
  exists i, k = col + i /\ firstOffender unrecognized xs i v.
Proof.
  revert col. induction xs as [|x rest IH]; intros col; cbn [firstUnknown].
  - split; [discriminate|]. intros (i & _ & H).
    now apply firstOffender_nil in H.
  - destruct (typecheckers x) as [c|] eqn:E.
    + assert (Hx : ~ unrecognized x)
        by (rewrite <- typecheckers_recognized; congruence).
      rewrite IH. split.
      * intros (i & -> & H). exists (S i). split; [lia|].
        apply firstOffender_later; [exact Hx|]. now exists i.
      * intros (i & -> & H).
        apply firstOffender_later in H as (i' & -> & H); [|exact Hx].
        exists i'. split; [lia | exact H].
    + assert (Hx : unrecognized x) by now apply typecheckers_recognized.
      split.
      * intros [= <- <-]. exists 0. split; [lia|]. now apply firstOffender_here.
      * intros (i & -> & H).
        apply firstOffender_here in H as [-> ->]; [|exact Hx].
        now rewrite Nat.add_0_r.
Qed.

Lemma emptyColumn_rule (mk : nat -> error) (xs : list string) (e : error) :
  option_map mk (firstEmpty xs 1) = Some e <->
  exists i v, firstOffender isEmpty xs i v /\ e = mk (S i).
Proof.
  split.
  - intros H. destruct (firstEmpty xs 1) as [k|] eqn:E; [|discriminate H].
    cbn in H. injection H as <-.
    apply firstEmpty_iff in E as (i & v & -> & H). now exists i, v.
  - intros (i & v & H & ->).
    assert (E : firstEmpty xs 1 = Some (1 + i))
      by (apply firstEmpty_iff; now exists i, v).
    now rewrite E.
Qed.

Lemma unknownType_rule (xs : list string) (e : error) :
  option_map (fun vc => UnknownType (fst vc) (snd vc)) (firstUnknown xs 1) = Some e <->
  exists i v, firstOffender unrecognized xs i v /\ e = UnknownType v (S i).
Proof.
  split.
  - intros H. destruct (firstUnknown xs 1) as [[v k]|] eqn:E; [|discriminate H].
    cbn in H. injection H as <-.
    apply firstUnknown_iff in E as (i & -> & H). now exists i, v.
  - intros (i & v & H & ->).
    assert (E : firstUnknown xs 1 = Some (v, 1 + i))
      by (apply firstUnknown_iff; now exists i).
    now rewrite E.
Qed.

Lemma count_rule (xs ys : list string) (missing mismatch e : error) :
  match xs with
  | [] => Some missing
  | _ :: _ =>
      if Nat.eqb (List.length xs) (List.length ys) then None else Some mismatch
  end = Some e <->
  (xs = [] /\ e = missing) \/
  (xs <> [] /\ List.length xs <> List.length ys /\ e = mismatch).
Proof.
  destruct xs as [|x xs'].
  - split.
    + intros [= <-]. left. now split.
    + intros [[_ ->] | (H & _)]; [reflexivity | now contradiction H].
  - destruct (Nat.eqb_spec (List.length (x :: xs')) (List.length ys)) as [E|E].
    + split; [discriminate|].
      intros [[H _] | (_ & H & _)]; [discriminate H | contradiction].
    + split.
      * intros [= <-]. right. repeat split; [discriminate | exact E].
      * intros [[H _] | (_ & _ & ->)]; [discriminate H | reflexivity].
Qed.

(** Each check of the code reports an error exactly when the rule of the
    specification at the same place is broken, and reports that error. *)
Lemma specChecks_rules :
  Forall2 (fun c rule => forall t e, c t = Some e <-> rule t e)
          specChecks validationRules.
Proof.
  unfold specChecks, validationRules.
  repeat apply Forall2_cons; try apply Forall2_nil; intros t e.
  - destruct (String.eqb_spec (FileType t) "") as [E|E].
    + split; [intros [= <-]; now split | intros [_ ->]; reflexivity].
    + split; [discriminate | intros [H _]; contradiction].
  - destruct (String.eqb_spec (Project t) "") as [E|E].
    + split; [intros [= <-]; now split | intros [_ ->]; reflexivity].
    + split; [discriminate | intros [H _]; contradiction].
  - apply emptyColumn_rule.
  - destruct (Types t).
    + split; [intros [= <-]; now split | intros [_ ->]; reflexivity].
    + split; [discriminate | intros [H _]; discriminate H].
  - destruct (Comments t) as [|c cs].
    + split; [discriminate | intros [H _]; now contradiction H].
    + destruct (Nat.eqb_spec (List.length (c :: cs)) (List.length (Types t))) as [E|E].
      * split; [discriminate | intros (_ & H & _); contradiction].
      * split.
        -- intros [= <-]. repeat split; [discriminate | exact E].
        -- intros (_ & _ & ->). reflexivity.
  - apply unknownType_rule.
  - apply count_rule.
  - apply emptyColumn_rule.
  - apply count_rule.
  - destruct (Headers t) as [|h hs]; cbn [nth_error].
    + split; [intros [= <-]; split; [discriminate | reflexivity]
             | intros [_ ->]; reflexivity].
    + destruct (String.eqb_spec h "time") as [E|E].
      * split; [discriminate | intros [H _]; subst h; now contradiction H].
      * split; [intros [= <-]; split; [congruence | reflexivity]
               | intros [_ ->]; reflexivity].
  - apply emptyColumn_rule.
  - destruct (Nat.leb_spec 2 (List.length (Types t))) as [E|E].
    + split; [discriminate | intros [H _]; lia].
    + split; [intros [= <-]; now split | intros [_ ->]; reflexivity].
Qed.

(** Checks that agree with rules one by one give the verdict of the
    rules. *)
Lemma firstFailure_verdict (checks : list (Tsdata -> option error))
      (rules : list (Tsdata -> error -> Prop)) :
  Forall2 (fun c rule => forall t e, c t = Some e <-> rule t e) checks rules ->
  forall t r, firstFailure checks t = r <-> verdict rules t r.
Proof.
  induction 1 as [|c rule checks rules Hc _ IH]; intros t r;
    cbn [firstFailure verdict].
  - split; congruence.
  - destruct (c t) as [e0|] eqn:E.
    + split.
      * intros <-. left. exists e0. split; [now apply Hc | reflexivity].
      * intros [(e & He & ->) | (Hno & _)].
        -- apply Hc in He. congruence.
        -- exfalso. apply (Hno e0). now apply Hc.
    + rewrite IH. split.
      * intros H. right. split; [|exact H].
        intros e He. apply Hc in He. congruence.
      * intros [(e & He & _) | (_ & H)]; [|exact H].
        apply Hc in He. congruence.
Qed.

Lemma ValidateMetadata_verdict (t : Tsdata) (r : option error) :
  ValidateMetadata t = r <-> verdict validationRules t r.
Proof.
  rewrite ValidateMetadata_refines.
  apply firstFailure_verdict, specChecks_rules.
Qed.

(** The error of a verdict is the error of a rule that is broken, and no
    rule before it is. *)
Lemma verdict_first (rules : list (Tsdata -> error -> Prop)) (t : Tsdata) (e : error) :
  verdict rules t (Some e) ->
  exists k rule,
    nth_error rules k = Some rule /\ rule t e /\
    forall j rule', j < k -> nth_error rules j = Some rule' ->
                    forall e', ~ rule' t e'.
Proof.
  induction rules as [|rule rest IH]; cbn [verdict]; [discriminate|].
  intros [(e0 & He & [= ->]) | (Hno & H)].
  - exists 0, rule. split; [reflexivity|]. split; [exact He|].
    intros j rule' Hj. lia.
  - destruct (IH H) as (k & rule' & Hk & Hr & Hbefore).
    exists (S k), rule'. split; [exact Hk|]. split; [exact Hr|].
    intros [|j] r' Hj Hr'.
    + cbn in Hr'. injection Hr' as <-. exact Hno.
    + apply (Hbefore j r'); [lia | exact Hr'].
Qed.


(** The class of an error tells the rule that reports it. *)
Lemma rule_class (k : nat) (rule : Tsdata -> error -> Prop) (t : Tsdata) (e : error) :
  nth_error validationRules k = Some rule -> rule t e ->
  ruleOfClass (classOf e) = k /\ metadataPhase e = true.
Proof.
  unfold validationRules. intros Hk Hr.
  do 12 (destruct k as [|k];
         [cbn [nth_error] in Hk; injection Hk as <-; cbv beta in Hr;
          repeat match goal with
          | H : _ /\ _ |- _ => destruct H
          | H : _ \/ _ |- _ => destruct H
          | H : exists _, _ |- _ => destruct H
          end; subst e; split; reflexivity|]).
  destruct k; discriminate Hk.
Qed.



(** *** The metadata a header describes *)





End MetadataFacts.

Import MetadataFacts.

(** C5: [ValidateMetadata] returns what the twelve rules of the
    specification, applied in the listed order and stopping at the first
    one that is broken, report: the error of that rule, which for a rule
    on the entries of a column list carries the column of the first
    offending entry and, for an unknown type, its value; and no error
    when every rule holds.  The rule on fewer than two columns comes
    last, so that metadata with an empty [FileType] and a single column
    reports the missing file type and not the missing data columns. *)
Theorem ValidateMetadata_checks_in_order :
  List.length validationRules = 12 /\
  (forall t r, ValidateMetadata t = r <-> verdict validationRules t r) /\
  (forall t e, ValidateMetadata t = Some e ->
     exists k rule,
       nth_error validationRules k = Some rule /\ rule t e /\
       forall j rule', j < k -> nth_error validationRules j = Some rule' ->
                       forall e', ~ rule' t e') /\
  (forall t, ValidateMetadata t = Some NoDataColumns ->
             forall rule, In rule (firstn 11 validationRules) ->
                          forall e, ~ rule t e) /\
  (forall t, FileType t = "" -> ValidateMetadata t = Some MissingFileType) /\
  ValidateMetadata
    (mkTsdata [] GoTime.zero "" "project" "" [] ["time"] ["NA"] ["time"])
  = Some MissingFileType /\
  ValidateMetadata
    (mkTsdata [] GoTime.zero "fileType" "project" "" [] ["time"] ["NA"] ["time"])
  = Some NoDataColumns.
Proof.
  assert (Hfirst : forall t e, ValidateMetadata t = Some e ->
            exists k rule,
              nth_error validationRules k = Some rule /\ rule t e /\
              forall j rule', j < k -> nth_error validationRules j = Some rule' ->
                              forall e', ~ rule' t e').
  { intros t e H. now apply verdict_first, ValidateMetadata_verdict. }
  split; [reflexivity|].
  split; [exact ValidateMetadata_verdict|].
  split; [exact Hfirst|].
  split.
  { intros t H rule Hin.
    destruct (Hfirst t _ H) as (k & rule' & Hk & Hr & Hbefore).
    destruct (rule_class k rule' t _ Hk Hr) as [<- _]. cbn [classOf ruleOfClass] in *.
    apply In_nth_error in Hin as [j Hj]. rewrite nth_error_firstn in Hj.
    destruct (Nat.ltb_spec j 11) as [Hlt|Hge]; [|discriminate Hj].
    exact (Hbefore j rule Hlt Hj). }
  split.
  { intros t H. unfold ValidateMetadata. now rewrite H. }
  split; reflexivity.
Qed.


(* ------------------------------------------------------------------ *)
(** ** The type checkers *)

Module CheckerFacts.

Lemma skip_Some (v v' : string) (c : ascii) :
  GoTime.skip v c = Some v' -> v = String c v'.
Proof.
  destruct v as [|a r]; simpl; [discriminate|].
  destruct (Ascii.eqb_spec a c); [|discriminate].
  intros [= <-]. now subst.
Qed.

Lemma longYear_Some (v v' : string) (y : Z) :
  GoTime.longYear v = Some (y, v') ->
  exists a b c d, v = String a (String b (String c (String d v'))).
Proof.
  destruct v as [|a [|b [|c [|d r]]]]; simpl; try discriminate.
  destruct (_ && _); [|discriminate].
  intros [= _ <-]. now exists a, b, c, d.
Qed.

Lemma getnum_fixed_Some (v v' : string) (n : Z) :
  GoTime.getnum v true = Some (n, v') ->
  exists a b, v = String a (String b v').
Proof.
  destruct v as [|a [|b r]]; simpl; try discriminate.
  - destruct (GoTime.isDigit a); discriminate.
  - destruct (GoTime.isDigit a); [|discriminate].
    destruct (GoTime.isDigit b); [|discriminate].
    intros [= _ <-]. now exists a, b.
Qed.

(** What [time.Parse] accepts has the byte [T] between the date and the
    clock: its eleventh byte. *)
Lemma Parse_separator (s : string) (tm : GoTime.Time) :
  GoTime.Parse s = Some tm -> String.get 10 s = Some "T"%char.
Proof.
  unfold GoTime.Parse.
  destruct (GoTime.longYear s) as [[y v1]|] eqn:E1; [|discriminate].
  destruct (GoTime.skip v1 "-") as [v2|] eqn:E2; [|discriminate].
  destruct (GoTime.getnum v2 true) as [[mo v3]|] eqn:E3; [|discriminate].
  destruct (_ || _); [discriminate|].
  destruct (GoTime.skip v3 "-") as [v4|] eqn:E4; [|discriminate].
  destruct (GoTime.getnum v4 true) as [[d v5]|] eqn:E5; [|discriminate].
  destruct (GoTime.skip v5 "T") as [v6|] eqn:E6; [|discriminate].
  intros _.
  apply longYear_Some in E1 as (a1 & a2 & a3 & a4 & ->).
  apply skip_Some in E2 as ->.
  apply getnum_fixed_Some in E3 as (b1 & b2 & ->).
  apply skip_Some in E4 as ->.
  apply getnum_fixed_Some in E5 as (c1 & c2 & ->).
  apply skip_Some in E6 as ->.
  reflexivity.
Qed.

(** [checkTime] accepts what [time.Parse] accepts, and [NA]. *)
Lemma checkTime_true_iff (s : string) :
  checkTime s = true <-> (exists tm, GoTime.Parse s = Some tm) \/ s = NA.
Proof.
  unfold checkTime. destruct (GoTime.Parse s) as [tm|].
  - split; [intros _; left; now exists tm | reflexivity].
  - rewrite String.eqb_eq. split; [now right | intros [[tm H]|H]; [discriminate | exact H]].
Qed.

(** No string with a space for the date and time separator passes
    [checkTime]. *)
Lemma checkTime_space (s : string) :
  String.get 10 s = Some SP -> checkTime s = false.
Proof.
  intros H. destruct (checkTime s) eqn:E; [|reflexivity].
  apply checkTime_true_iff in E as [[tm E]| ->].
  - apply Parse_separator in E. rewrite E in H. discriminate.
  - discriminate.
Qed.

Lemma checkCategory_true_iff (s : string) : checkCategory s = true <-> s <> "".
Proof.
  unfold checkCategory.
  destruct (String.eqb_spec s ""); split; intros; try easy.
Qed.

End CheckerFacts.

(** C1, on the code: [checkTime] accepts exactly the strings that
    [time.Parse] accepts for the layout [time.RFC3339], and [NA]; it
    accepts a timestamp written with [T] between the date and the time
    and rejects the same timestamp written with a single space there, as
    it rejects every string whose eleventh byte is a space. *)
Theorem checkTime_rejects_space_separator :
  checkTime "2017-05-07T00:00:00.000Z" = true /\
  checkTime "2017-05-07 00:00:00.000Z" = false /\
  checkTime NA = true /\
  (forall s, String.get 10 s = Some SP -> checkTime s = false) /\
  (forall s, checkTime s = true <-> (exists tm, GoTime.Parse s = Some tm) \/ s = NA).
Proof.
  repeat split; try reflexivity.
  - exact CheckerFacts.checkTime_space.
  - apply CheckerFacts.checkTime_true_iff.
  - apply CheckerFacts.checkTime_true_iff.
Qed.

(* ------------------------------------------------------------------ *)
(** ** Line validation *)

Section LineFacts.

Variable parseFloat : string -> bool.

(** When every field has a checker that accepts it, the loop returns the
    trimmed fields. *)
Lemma checkFields_Ok (chk : list (option checker)) (fields : list string) :
  forall i,
    (forall k, k < List.length fields ->
       exists c, nth_error chk (i + k) = Some (Some c) /\
                 call parseFloat c (TrimSpace (nth k fields "")) = true) ->
    checkFields parseFloat chk i fields = Ok (map TrimSpace fields).
Proof.
  induction fields as [|f rest IH]; intros i H; [reflexivity|].
  cbn [checkFields map].
  destruct (H 0) as (c & Hc & Hcall); [simpl; lia|].
  rewrite Nat.add_0_r in Hc. cbn [nth] in Hcall. rewrite Hc, Hcall.
  rewrite IH; [reflexivity|].
  intros k Hk. destruct (H (S k)) as (c' & Hc' & Hcall'); [simpl; lia|].
  exists c'. split; [|exact Hcall'].
  now rewrite <- Hc', Nat.add_succ_r.
Qed.

(** The loop stops at the first field that its checker rejects, with an
    error that carries the column, counted from 1, and the trimmed
    field. *)
Lemma checkFields_Err (chk : list (option checker)) (fields : list string) :
  forall i k c,
    k < List.length fields ->
    (forall k', k' < k ->
       exists c', nth_error chk (i + k') = Some (Some c') /\
                  call parseFloat c' (TrimSpace (nth k' fields "")) = true) ->
    nth_error chk (i + k) = Some (Some c) ->
    call parseFloat c (TrimSpace (nth k fields "")) = false ->
    checkFields parseFloat chk i fields
    = Err (ColumnValidationError (S (i + k)) (TrimSpace (nth k fields ""))).
Proof.
  induction fields as [|f rest IH]; intros i k c Hk Hbefore Hc Hcall;
    [simpl in Hk; lia|].
  cbn [checkFields].
  destruct k as [|k].
  - rewrite Nat.add_0_r in *. cbn [nth] in *. now rewrite Hc, Hcall.
  - destruct (Hbefore 0) as (c0 & Hc0 & Hcall0); [lia|].
    rewrite Nat.add_0_r in Hc0. cbn [nth] in Hcall0. rewrite Hc0, Hcall0.
    rewrite (IH (S i) k c).
    + cbn [nth]. now rewrite Nat.add_succ_r.
    + simpl in Hk. lia.
    + intros k' Hk'. destruct (Hbefore (S k')) as (c' & Hc' & Hcall'); [lia|].
      exists c'. split; [|exact Hcall'].
      now rewrite <- Hc', Nat.add_succ_r.
    + now rewrite <- Hc, Nat.add_succ_r.
    + exact Hcall.
Qed.

(** An error of the loop names a column at or after the one the loop
    started from, whose checker rejected the trimmed field. *)
Lemma checkFields_Err_inv (chk : list (option checker)) (fields : list string) :
  forall i e,
    checkFields parseFloat chk i fields = Err e ->
    exists k c,
      k < List.length fields /\
      e = ColumnValidationError (S (i + k)) (TrimSpace (nth k fields "")) /\
      nth_error chk (i + k) = Some (Some c) /\
      call parseFloat c (TrimSpace (nth k fields "")) = false /\
      forall k', k' < k ->
        exists c', nth_error chk (i + k') = Some (Some c') /\
                   call parseFloat c' (TrimSpace (nth k' fields "")) = true.
Proof.
  induction fields as [|f rest IH]; intros i e H; [discriminate|].
  cbn [checkFields] in H.
  destruct (nth_error chk i) as [[c|]|] eqn:Hc; try discriminate.
  destruct (call parseFloat c (TrimSpace f)) eqn:Hcall.
  - destruct (checkFields parseFloat chk (S i) rest) as [fs|e'|] eqn:Hrest; try discriminate.
    injection H as <-.
    destruct (IH _ _ Hrest) as (k & c' & Hk & He & Hc' & Hcall' & Hbefore).
    exists (S k), c'. rewrite Nat.add_succ_r. cbn [nth].
    repeat split; try assumption; [simpl; lia|].
    intros [|k'] Hk'.
    + exists c. rewrite Nat.add_0_r. now split.
    + rewrite Nat.add_succ_r. apply Hbefore. lia.
  - injection H as <-. exists 0, c. rewrite Nat.add_0_r. cbn [nth].
    repeat split; try assumption; [simpl; lia|].
    intros k' Hk'. lia.
Qed.

(** The loop does not panic when [checkers] has an entry that is not
    [nil] for every field. *)
Lemma checkFields_no_panic (chk : list (option checker)) (fields : list string) :
  forall i,
    i + List.length fields <= List.length chk ->
    Forall (fun c => c <> None) chk ->
    checkFields parseFloat chk i fields <> Panic.
Proof.
  induction fields as [|f rest IH]; intros i Hlen Hall; [discriminate|].
  cbn [checkFields]. cbn [List.length] in Hlen.
  destruct (nth_error chk i) as [[c|]|] eqn:Hc.
  - destruct (call parseFloat c (TrimSpace f)); [|discriminate].
    specialize (IH (S i)).
    destruct (checkFields parseFloat chk (S i) rest); try discriminate.
    apply IH; [lia | assumption].
  - apply nth_error_In in Hc. rewrite Forall_forall in Hall.
    now specialize (Hall _ Hc).
  - apply nth_error_None in Hc. lia.
Qed.

(** The fields of a line that passes the count checks: a first one and
    at least one more. *)
Lemma countsOk_fields (t : Tsdata) (line : string) :
  countsOk t line ->
  exists f0 rest, Split line Delim = f0 :: rest /\ rest <> [].
Proof.
  intros [H2 _]. destruct (Split line Delim) as [|f0 [|f1 rest]];
    simpl in H2; try lia.
  exists f0, (f1 :: rest). split; [reflexivity | discriminate].
Qed.

(** [ValidateLine] on a line that passes the count checks. *)
Lemma ValidateLine_counted (t : Tsdata) (line : string) :
  countsOk t line ->
  ValidateLine parseFloat t line =
    match GoTime.Parse (firstColumn line) with
    | None => (t, Err (InvalidTimestamp (firstColumn line)))
    | Some tline =>
        match checkFields parseFloat (checkers t) 1 (tl (Split line Delim)) with
        | Ok fs => (set_lastTime t tline, Ok (mkData (firstColumn line :: fs) tline))
        | Err e => (t, Err e)
        | Panic => (t, Panic)
        end
    end.
Proof.
  intros [H2 Hn]. unfold ValidateLine, firstColumn.
  destruct (Nat.ltb_spec (List.length (Split line Delim)) 2); [lia|].
  rewrite Hn, Nat.eqb_refl. reflexivity.
Qed.

(** C6: [ValidateLine] fails with the too-few-columns error when the
    line has fewer than two tab-separated fields, and with the
    column-count-mismatch error when it has at least two but not as many
    as there are headers; the receiver is left as it was, and the outcome
    is fixed by the two counts alone, whatever the fields and the
    checkers are. *)
Theorem ValidateLine_column_counts (t : Tsdata) (line : string) :
  let n := List.length (Split line Delim) in
  (n < 2 -> ValidateLine parseFloat t line = (t, Err (TooFewColumns n))) /\
  (2 <= n -> n <> List.length (Headers t) ->
   ValidateLine parseFloat t line
   = (t, Err (ColumnCountMismatch n (List.length (Headers t))))).
Proof.
  intros n. unfold ValidateLine. fold n. split.
  - intros H. destruct (Nat.ltb_spec n 2); [reflexivity | lia].
  - intros H2 Hne. destruct (Nat.ltb_spec n 2); [lia|].
    destruct (Nat.eqb_spec n (List.length (Headers t))); [contradiction | reflexivity].
Qed.

(** C4: when the field count passes the count checks and the trimmed
    first field does not parse as a time, [ValidateLine] fails with the
    invalid-timestamp error that carries the trimmed field, and leaves
    the receiver as it was; this is so for [NA], which [checkTime]
    accepts.  [ValidateLine] takes no policy argument: the failure does
    not depend on one. *)
Theorem ValidateLine_invalid_timestamp (t : Tsdata) (line : string) :
  countsOk t line ->
  (GoTime.Parse (firstColumn line) = None ->
   ValidateLine parseFloat t line = (t, Err (InvalidTimestamp (firstColumn line)))) /\
  (firstColumn line = NA ->
   ValidateLine parseFloat t line = (t, Err (InvalidTimestamp NA))) /\
  checkTime NA = true.
Proof.
  intros Hcnt. rewrite (ValidateLine_counted _ _ Hcnt).
  split; [|split; [|reflexivity]].
  - intros H. now rewrite H.
  - intros H. now rewrite H.
Qed.

(** C7: a line that passes all checks gives a record whose fields are
    the tab-separated fields of the line, each trimmed, in their order,
    the first one being the trimmed first field as it was written, and
    whose time is the time parsed from that first field; the receiver
    remembers this time. *)
Theorem ValidateLine_record (t : Tsdata) (line : string) (tm : GoTime.Time) :
  linePasses parseFloat t line tm ->
  exists d,
    ValidateLine parseFloat t line = (set_lastTime t tm, Ok d) /\
    Fields d = map TrimSpace (Split line Delim) /\
    nth 0 (Fields d) "" = firstColumn line /\
    GoTime.Parse (nth 0 (Fields d) "") = Some (Time d) /\
    Time d = tm.
Proof.
  intros (Hcnt & Htm & Hcols).
  destruct (countsOk_fields _ _ Hcnt) as (f0 & rest & Hsplit & Hrest).
  rewrite (ValidateLine_counted _ _ Hcnt), Htm.
  unfold columnPasses in Hcols.
  unfold firstColumn in *. rewrite Hsplit in *. cbn [tl nth map] in *.
  rewrite checkFields_Ok.
  - eexists. split; [reflexivity|]. cbn [Fields Time nth]. now repeat split.
  - intros k Hk. apply (Hcols (S k)). simpl. lia.
Qed.

(** C8: [checkCategory] accepts exactly the strings that are not empty
    and [checkText] accepts every string; so a field that is empty once
    trimmed, in a column that the line reaches, makes [ValidateLine] fail
    with the column validation error of that column when its checker is
    [checkCategory], and never does when its checker is [checkText]. *)
Theorem category_rejects_empty_text_accepts :
  (forall s, checkCategory s = true <-> s <> "") /\
  (forall s, checkText s = true) /\
  (forall t line tm i,
     countsOk t line ->
     GoTime.Parse (firstColumn line) = Some tm ->
     1 <= i < List.length (Split line Delim) ->
     (forall j, 1 <= j < i -> columnPasses parseFloat t line j) ->
     TrimSpace (nth i (Split line Delim) "") = "" ->
     (nth_error (checkers t) i = Some (Some CheckCategory) ->
      ValidateLine parseFloat t line = (t, Err (ColumnValidationError (S i) ""))) /\
     (nth_error (checkers t) i = Some (Some CheckText) ->
      forall v, snd (ValidateLine parseFloat t line)
                <> Err (ColumnValidationError (S i) v))).
Proof.
  split; [exact CheckerFacts.checkCategory_true_iff|].
  split; [reflexivity|].
  intros t line tm i Hcnt Htm Hi Hbefore Hempty.
  destruct (countsOk_fields _ _ Hcnt) as (f0 & rest & Hsplit & Hrest).
  rewrite (ValidateLine_counted _ _ Hcnt), Htm.
  unfold columnPasses in Hbefore.
  rewrite Hsplit in *. cbn [tl] in *.
  destruct i as [|k]; [lia|]. cbn [nth List.length] in *.
  split.
  - intros Hc.
    rewrite (checkFields_Err (checkers t) rest 1 k CheckCategory);
      [now rewrite Hempty | lia | | exact Hc | now rewrite Hempty].
    intros k' Hk'. apply (Hbefore (S k')). lia.
  - intros Hc v.
    destruct (checkFields parseFloat (checkers t) 1 rest) as [fs|e|] eqn:Hloop;
      cbn [snd]; try discriminate.
    intros [= ->].
    apply checkFields_Err_inv in Hloop
      as (k' & c & Hk' & [= Hcol _] & Hc' & Hcall & _).
    assert (k' = k) as -> by lia.
    cbn [Nat.add] in Hc'. rewrite Hc in Hc'. injection Hc' as <-.
    discriminate Hcall.
Qed.

(** [ValidateLine] writes nothing but the remembered time. *)
Lemma ValidateLine_receiver (t : Tsdata) (line : string) :
  fst (ValidateLine parseFloat t line) = t \/
  exists tm, fst (ValidateLine parseFloat t line) = set_lastTime t tm.
Proof.
  unfold ValidateLine.
  repeat match goal with
  | |- context [fst (if ?b then _ else _)] => destruct b
  | |- context [fst (match ?x with _ => _ end)] => destruct x as [?|?|] || destruct x
  end; cbn [fst]; try (now left).
  right. eexists. reflexivity.
Qed.

(** [ValidateLine] does not read the remembered time. *)
Lemma ValidateLine_lastTime (t : Tsdata) (line : string) (tm : GoTime.Time) :
  snd (ValidateLine parseFloat (set_lastTime t tm) line)
  = snd (ValidateLine parseFloat t line).
Proof.
  unfold ValidateLine. cbn [set_lastTime Headers checkers].
  repeat match goal with
  | |- context [if ?b then _ else _] => destruct b
  | |- context [match ?x with _ => _ end] => destruct x
  end; reflexivity.
Qed.

(** C9: validating a line again, right after it was validated, gives
    the same record or the same error, hence an error of the same class;
    the outcome for a line does not depend on the line validated before
    it, nor on the time the receiver remembers from it: no order of the
    times of successive lines is enforced. *)
Theorem ValidateLine_idempotent (t : Tsdata) (line : string) :
  snd (ValidateLine parseFloat (fst (ValidateLine parseFloat t line)) line)
  = snd (ValidateLine parseFloat t line) /\
  (forall before,
     snd (ValidateLine parseFloat (fst (ValidateLine parseFloat t before)) line)
     = snd (ValidateLine parseFloat t line)) /\
  (forall tm, snd (ValidateLine parseFloat (set_lastTime t tm) line)
              = snd (ValidateLine parseFloat t line)).
Proof.
  assert (Hafter : forall before,
     snd (ValidateLine parseFloat (fst (ValidateLine parseFloat t before)) line)
     = snd (ValidateLine parseFloat t line)).
  { intros before.
    destruct (ValidateLine_receiver t before) as [-> | [tm ->]];
      [reflexivity | apply ValidateLine_lastTime]. }
  split; [apply Hafter|]. split; [exact Hafter|].
  intros tm. apply ValidateLine_lastTime.
Qed.

End LineFacts.

(* ------------------------------------------------------------------ *)
(** ** Checkers after [ParseHeader] *)

Lemma assignHeader_checkers (t : Tsdata) (ls : list string) :
  checkers (assignHeader t ls) = map typecheckers (Types (assignHeader t ls)).
Proof.
  unfold assignHeader.
  repeat match goal with |- context [if ?b then _ else _] => destruct b end;
    reflexivity.
Qed.

Lemma ParseHeader_None (t0 t : Tsdata) (header : string) :
  ParseHeader t0 header = (t, None) ->
  t = assignHeader t0 (trimLines (headerLinesOf header)) /\
  ValidateMetadata t = None.
Proof.
  unfold ParseHeader.
  destruct (negb _); [discriminate|].
  intros [= <- H]. now split.
Qed.

Section CheckersFacts.

Variable parseFloat : string -> bool.


Lemma ValidateLine_keeps (t : Tsdata) (line : string) :
  checkers (fst (ValidateLine parseFloat t line)) = checkers t /\
  Headers (fst (ValidateLine parseFloat t line)) = Headers t.
Proof.
  unfold ValidateLine.
  repeat match goal with
  | |- context [fst (if ?b then _ else _)] => destruct b
  | |- context [fst (match ?x with _ => _ end)] => destruct x
  end; split; reflexivity.
Qed.

Lemma checkersSafe_no_panic (t : Tsdata) (line : string) :
  checkersSafe t -> snd (ValidateLine parseFloat t line) <> Panic.
Proof.
  intros [Hlen Hall]. unfold ValidateLine.
  destruct (Nat.ltb_spec (List.length (Split line Delim)) 2) as [|H2]; [discriminate|].
  destruct (Nat.eqb_spec (List.length (Split line Delim)) (List.length (Headers t)))
    as [Hn|Hn]; [|discriminate].
  cbn [negb].
  destruct (GoTime.Parse _); [|discriminate].
  destruct (checkFields parseFloat (checkers t) 1 (tl (Split line Delim))) eqn:E;
    cbn [snd]; try discriminate.
  exfalso. revert E. apply checkFields_no_panic.
  - rewrite Hlen, <- Hn. destruct (Split line Delim); simpl in *; lia.
  - eapply Forall_impl; [|exact Hall]. intros c [f ->]. discriminate.
Qed.

(** C10: after a [ParseHeader] that returned no error, [checkers] is
    derived from [Types], has one entry for each header, and every entry
    is one of the six functions of the table; with such [checkers],
    [ValidateLine] never panics, on the first line or on any later one:
    it only reads [checkers] below the field count, which is the header
    count when the loop runs. *)
Theorem ParseHeader_checkers_safe (t0 t : Tsdata) (header : string) :
  ParseHeader t0 header = (t, None) ->
  checkers t = map typecheckers (Types t) /\
  checkersSafe t /\
  (forall t', checkersSafe t' ->
     forall line, snd (ValidateLine parseFloat t' line) <> Panic /\
                  checkersSafe (fst (ValidateLine parseFloat t' line))).
Proof.
  intros H. apply ParseHeader_None in H as [Ht Hvalid].
  assert (Hchk : checkers t = map typecheckers (Types t))
    by (rewrite Ht; apply assignHeader_checkers).
  apply ValidateMetadata_None_iff in Hvalid.
  destruct Hvalid as (_ & _ & _ & _ & Hty & _ & _ & Hhd & _).
  split; [exact Hchk|]. split.
  - split.
    + now rewrite Hchk, List.length_map.
    + rewrite Hchk. apply Forall_map.
      eapply Forall_impl; [|exact Hty].
      intros ty Hk. destruct (typecheckers ty) as [f|] eqn:E; [now exists f | congruence].
  - intros t' Hsafe line. split; [now apply checkersSafe_no_panic|].
    destruct (ValidateLine_keeps t' line) as [Hc Hh].
    unfold checkersSafe. now rewrite Hc, Hh.
Qed.

End CheckersFacts.

(* ------------------------------------------------------------------ *)
(** ** Rendering a header and parsing it back *)

Module RoundTrip.

Import StringFacts.

Lemma cleanField_good (f : string) :
  cleanField f = true -> f <> "" -> goodField f.
Proof.
  unfold cleanField. intros H Hne.
  apply andb_true_iff in H as [H H3]. apply andb_true_iff in H as [H1 H2].
  apply negb_true_iff in H1, H2. apply String.eqb_eq in H3.
  now repeat split.
Qed.

Lemma good_fields (fs : list string) :
  forallb cleanField fs = true -> Forall (fun f => f <> "") fs ->
  Forall goodField fs.
Proof.
  intros Hc Hne. rewrite forallb_forall in Hc. rewrite Forall_forall in *.
  intros f Hf. apply cleanField_good; auto.
Qed.

(** The six type tags are such fields. *)
Lemma known_type_good (ty : string) : typecheckers ty <> None -> goodField ty.
Proof.
  unfold typecheckers.
  repeat match goal with
  | |- context [String.eqb ty ?k] =>
      destruct (String.eqb_spec ty k) as [->|_];
      [intros _; repeat split; try reflexivity; discriminate|]
  end.
  congruence.
Qed.

Lemma NA_row_good (n : nat) : Forall goodField (repeat NA n).
Proof.
  induction n as [|n IH]; simpl; constructor; [|exact IH].
  repeat split; try reflexivity. discriminate.
Qed.

(** A line made of such fields comes back from [ParseHeader] as the
    fields it was made of. *)
Lemma joined_line (fs : list string) :
  fs <> [] -> Forall goodField fs ->
  contains (Join fs Delim) LF = false /\
  Join fs Delim <> "" /\
  TrimRight (Join fs Delim) lineCutset = Join fs Delim /\
  splitTrim (Join fs Delim) = fs.
Proof.
  intros Hne Hall.
  assert (Hnonempty : Join fs Delim <> "").
  { apply Join_not_empty; [exact Hne|].
    eapply Forall_impl; [|exact Hall]. now intros f (_ & _ & _ & H). }
  split; [|split; [exact Hnonempty | split]].
  - apply contains_Join; [reflexivity|].
    eapply Forall_impl; [|exact Hall]. now intros f (_ & H & _).
  - clear Hnonempty. induction fs as [|e rest IH]; [congruence|].
    inversion Hall as [|? ? He Hrest]; subst.
    destruct He as (_ & _ & Htrim & Hnz).
    destruct rest as [|e' rest'].
    + simpl. now apply TrimRight_of_trimmed.
    + rewrite Join_cons by discriminate.
      assert (Hnz' : Join (e' :: rest') Delim <> "").
      { apply Join_not_empty; [discriminate|].
        eapply Forall_impl; [|exact Hrest]. now intros f (_ & _ & _ & H). }
      assert (Htail : TrimRight (String Delim (Join (e' :: rest') Delim)) lineCutset
                      = String Delim (Join (e' :: rest') Delim)).
      { cbn [TrimRight]. rewrite IH; [|discriminate | exact Hrest].
        destruct (Join (e' :: rest') Delim); [congruence | reflexivity]. }
      rewrite TrimRight_append; rewrite Htail; [reflexivity | discriminate].
  - unfold splitTrim. rewrite Split_Join.
    + clear Hne Hnonempty. induction Hall as [|f fs' (_ & _ & Hf & _) _ IH];
        [reflexivity|]. simpl. now rewrite Hf, IH.
    + exact Hne.
    + eapply Forall_impl; [|exact Hall]. now intros f (H & _).
Qed.

Lemma cleanScalar_line (s : string) :
  cleanScalar s = true ->
  contains s LF = false /\ TrimRight s lineCutset = s /\ firstField s = s.
Proof.
  unfold cleanScalar. intros H.
  apply andb_true_iff in H as [H H3]. apply andb_true_iff in H as [H1 H2].
  apply negb_true_iff in H1, H2. apply String.eqb_eq in H3.
  repeat split; try assumption.
  unfold firstField, Delim. now rewrite Split_no_sep.
Qed.

(** The text [Header] builds is its seven lines joined by newlines. *)
Lemma Header_lines (m : Tsdata) :
  Header m =
  Join [FileType m; Project m; FileDescription m;
        Join (reparsedComments m) Delim;
        Join (Types m) Delim; Join (Units m) Delim; Join (Headers m) Delim] LF.
Proof.
  unfold Header, reparsedComments, nas, nl.
  destruct (Comments m) as [|c cs]; cbn [List.length Nat.eqb Join];
    rewrite !append_assoc; cbn [append]; reflexivity.
Qed.

Lemma Join_last_not_empty (ls : list string) (sep : ascii) :
  ls <> [] -> last ls "" <> "" -> Join ls sep <> "".
Proof.
  induction ls as [|e rest IH]; intros Hne Hlast; [congruence|].
  destruct rest as [|e' rest']; [exact Hlast|].
  rewrite Join_cons by discriminate. destruct e; discriminate.
Qed.

Lemma TrimSuffix_LF_cons (s : string) :
  s <> "" -> TrimSuffix (String LF s) nl = String LF (TrimSuffix s nl).
Proof.
  intros Hs. destruct s as [|a r]; [congruence|].
  reflexivity.
Qed.

(** [TrimSuffix] finds no newline to strip from lines joined by newlines
    when the last line is not empty. *)
Lemma TrimSuffix_Join (ls : list string) :
  ls <> [] -> Forall (fun l => contains l LF = false) ls -> last ls "" <> "" ->
  TrimSuffix (Join ls LF) nl = Join ls LF.
Proof.
  induction ls as [|e rest IH]; intros Hne Hall Hlast; [congruence|].
  inversion Hall as [|? ? He Hrest]; subst.
  destruct rest as [|e' rest'].
  - simpl. now apply TrimSuffix_no_LF.
  - rewrite Join_cons by discriminate.
    rewrite TrimSuffix_append by discriminate.
    f_equal.
    assert (Hnz : Join (e' :: rest') LF <> "")
      by (apply Join_last_not_empty; [discriminate | exact Hlast]).
    rewrite TrimSuffix_LF_cons by exact Hnz.
    rewrite IH; [reflexivity | discriminate | exact Hrest | exact Hlast].
Qed.

End RoundTrip.

Import RoundTrip.

(** C2, as amended: for metadata that passes validation and whose fields
    hold no delimiter, no newline and no white space that [ParseHeader]
    trims, parsing the rendered header succeeds, whatever the receiver
    held before, and gives the same file type, project, description,
    types, units and headers; the comments come back as they were, or as
    one [NA] for each column when there were none. *)
Theorem Header_ParseHeader_round_trip (t0 m : Tsdata) :
  ValidateMetadata m = None -> cleanMetadata m = true -> roundTrips t0 m.
Proof.
  intros Hv Hc.
  apply ValidateMetadata_None_iff in Hv.
  destruct Hv as (Hft & Hpr & Hcs & Hcn & Hty & Hun & Hus & Hhn & Hh0 & Hhs & H2).
  unfold cleanMetadata in Hc.
  apply andb_true_iff in Hc as [Hc CHs]. apply andb_true_iff in Hc as [Hc CUs].
  apply andb_true_iff in Hc as [Hc CCs]. apply andb_true_iff in Hc as [Hc CFd].
  apply andb_true_iff in Hc as [CFt CPr].
  (* the column lines *)
  assert (Tne : Types m <> []) by (destruct (Types m); [simpl in H2; lia | discriminate]).
  assert (Une : Units m <> [])
    by (destruct (Units m), (Types m); simpl in *; try lia; discriminate).
  assert (Hne : Headers m <> [])
    by (destruct (Headers m), (Types m); simpl in *; try lia; discriminate).
  assert (Cne : reparsedComments m <> []).
  { unfold reparsedComments. destruct (Comments m); [|discriminate].
    rewrite Hhn. destruct (List.length (Types m)); [lia | discriminate]. }
  assert (Cgood : Forall goodField (reparsedComments m)).
  { unfold reparsedComments. destruct (Comments m); [apply NA_row_good|].
    apply good_fields; [exact CCs | exact Hcs]. }
  assert (Tgood : Forall goodField (Types m))
    by (eapply Forall_impl; [|exact Hty]; exact known_type_good).
  pose proof (good_fields _ CUs Hus) as Ugood.
  pose proof (good_fields _ CHs Hhs) as Hgood.
  destruct (joined_line _ Cne Cgood) as (C1 & C2 & C3 & C4).
  destruct (joined_line _ Tne Tgood) as (T1 & T2 & T3 & T4).
  destruct (joined_line _ Une Ugood) as (U1 & U2 & U3 & U4).
  destruct (joined_line _ Hne Hgood) as (H1 & H2' & H3 & H4).
  destruct (cleanScalar_line _ CFt) as (F1 & F3 & F4).
  destruct (cleanScalar_line _ CPr) as (P1 & P3 & P4).
  destruct (cleanScalar_line _ CFd) as (D1 & D3 & D4).
  (* the lines ParseHeader works on *)
  assert (Hlines : trimLines (headerLinesOf (Header m)) =
                   [FileType m; Project m; FileDescription m;
                    Join (reparsedComments m) Delim;
                    Join (Types m) Delim; Join (Units m) Delim;
                    Join (Headers m) Delim]).
  { unfold headerLinesOf. rewrite Header_lines.
    rewrite TrimSuffix_Join;
      [|discriminate | repeat constructor; assumption | exact H2'].
    rewrite StringFacts.Split_Join;
      [|discriminate | repeat constructor; assumption].
    unfold trimLines. cbn [map]. now rewrite F3, P3, D3, C3, T3, U3, H3. }
  assert (Hcount : List.length (headerLinesOf (Header m)) = HeaderSize).
  { apply (f_equal (@List.length _)) in Hlines.
    unfold trimLines in Hlines. now rewrite List.length_map in Hlines. }
  exists (mkTsdata (map typecheckers (Types m)) (lastTime t0)
                   (FileType m) (Project m) (FileDescription m)
                   (reparsedComments m) (Types m) (Units m) (Headers m)).
  split; [|now repeat split].
  unfold ParseHeader. rewrite Hcount, Nat.eqb_refl. cbn [negb].
  rewrite Hlines.
  assert (Hassign :
    assignHeader t0 [FileType m; Project m; FileDescription m;
                     Join (reparsedComments m) Delim;
                     Join (Types m) Delim; Join (Units m) Delim;
                     Join (Headers m) Delim]
    = mkTsdata (map typecheckers (Types m)) (lastTime t0)
               (FileType m) (Project m) (FileDescription m)
               (reparsedComments m) (Types m) (Units m) (Headers m)).
  { unfold assignHeader. cbn [nth].
    rewrite F4, P4, D4, C4, T4, U4, H4.
    apply String.eqb_neq in C2, T2, U2, H2'. rewrite C2, T2, U2, H2'.
    reflexivity. }
  rewrite Hassign. f_equal.
  apply ValidateMetadata_None_iff. unfold MetadataValid.
  cbn [FileType Project Comments Types Units Headers].
  repeat split; try assumption.
  - eapply Forall_impl; [|exact Cgood]. now intros f (_ & _ & _ & H).
  - intros _. unfold reparsedComments. destruct (Comments m).
    + now rewrite List.repeat_length.
    + apply Hcn. discriminate.
Qed.

(** C2, as stated, fails: the metadata [untrimmedUnit] passes validation
    but does not come back from its rendered header. *)
Lemma round_trip_counterexample :
  ValidateMetadata untrimmedUnit = None /\
  ~ roundTrips emptyTsdata untrimmedUnit.
Proof.
  split; [reflexivity|].
  intros (t & Hparse & _ & _ & _ & _ & _ & Hunits & _).
  vm_compute in Hparse. injection Hparse as <-.
  discriminate Hunits.
Qed.

(* ------------------------------------------------------------------ *)
(** ** The theorems at the examples of the specification *)

(** The README metadata comes back from its header. *)
Lemma Header_ParseHeader_round_trip_readme :
  ValidateMetadata readmeMetadata = None /\
  cleanMetadata readmeMetadata = true /\
  roundTrips emptyTsdata readmeMetadata.
Proof.
  split; [reflexivity|]. split; [reflexivity|].
  apply (Header_ParseHeader_round_trip emptyTsdata readmeMetadata); reflexivity.
Defined.



(** A type that is no tag of the specification is reported with its
    value and its column. *)
Lemma ValidateMetadata_unknown_type :
  ValidateMetadata (twoColumns "bogus") = Some (UnknownType "bogus" 2) /\
  verdict validationRules (twoColumns "bogus") (Some (UnknownType "bogus" 2)).
Proof.
  assert (H : ValidateMetadata (twoColumns "bogus") = Some (UnknownType "bogus" 2))
    by reflexivity.
  split; [exact H|].
  exact (proj1 (proj1 (proj2 ValidateMetadata_checks_in_order) _ _) H).
Defined.

(** Example 2: a line with a time and a float. *)
Lemma ValidateLine_record_example :
  linePasses decimalNumeral (twoColumns "float")
             (lineOf ["2017-05-06T19:52:57.601Z"; "6.0"]) exampleTime /\
  exists d,
    ValidateLine decimalNumeral (twoColumns "float")
                 (lineOf ["2017-05-06T19:52:57.601Z"; "6.0"])
    = (set_lastTime (twoColumns "float") exampleTime, Ok d) /\
    Fields d = ["2017-05-06T19:52:57.601Z"; "6.0"] /\
    nth 0 (Fields d) "" = "2017-05-06T19:52:57.601Z" /\
    GoTime.Parse (nth 0 (Fields d) "") = Some (Time d) /\
    Time d = exampleTime.
Proof.
  assert (H : linePasses decimalNumeral (twoColumns "float")
                (lineOf ["2017-05-06T19:52:57.601Z"; "6.0"]) exampleTime).
  { split; [split; [vm_compute; lia | reflexivity]|].
    split; [reflexivity|].
    intros j Hj. assert (j = 1) as -> by (vm_compute in Hj; lia).
    exists CheckFloat. split; reflexivity. }
  split; [exact H|].
  exact (ValidateLine_record decimalNumeral _ _ _ H).
Defined.

(** Example 4: [NA] in the first column. *)
Lemma ValidateLine_NA_first_column :
  countsOk (twoColumns "float") (lineOf ["NA"; "6.0"]) /\
  ValidateLine decimalNumeral (twoColumns "float") (lineOf ["NA"; "6.0"])
  = (twoColumns "float", Err (InvalidTimestamp "NA")).
Proof.
  assert (H : countsOk (twoColumns "float") (lineOf ["NA"; "6.0"]))
    by (split; [vm_compute; lia | reflexivity]).
  split; [exact H|].
  apply (proj1 (ValidateLine_invalid_timestamp decimalNumeral _ _ H)).
  reflexivity.
Defined.

(** A line with the time alone, and a line with a column too many. *)
Lemma ValidateLine_column_counts_example :
  ValidateLine decimalNumeral (twoColumns "float") "2017-05-06T19:52:57.601Z"
  = (twoColumns "float", Err (TooFewColumns 1)) /\
  ValidateLine decimalNumeral (twoColumns "float")
               (lineOf ["2017-05-06T19:52:57.601Z"; "6.0"; "7.0"])
  = (twoColumns "float", Err (ColumnCountMismatch 3 2)).
Proof.
  split.
  - apply (proj1 (ValidateLine_column_counts decimalNumeral (twoColumns "float")
                    "2017-05-06T19:52:57.601Z")).
    vm_compute. lia.
  - apply (proj2 (ValidateLine_column_counts decimalNumeral (twoColumns "float")
                    (lineOf ["2017-05-06T19:52:57.601Z"; "6.0"; "7.0"]))).
    + vm_compute. lia.
    + vm_compute. lia.
Defined.

(** Example 6: an empty field in a category column, and in a text
    column. *)
Lemma empty_category_field :
  ValidateLine decimalNumeral (twoColumns "category")
               (lineOf ["2017-05-06T19:52:57.601Z"; ""])
  = (twoColumns "category", Err (ColumnValidationError 2 "")) /\
  snd (ValidateLine decimalNumeral (twoColumns "text")
                    (lineOf ["2017-05-06T19:52:57.601Z"; ""]))
  <> Err (ColumnValidationError 2 "").
Proof.
  split.
  - refine (proj1 (proj2 (proj2 (category_rejects_empty_text_accepts decimalNumeral))
                     (twoColumns "category")
                     (lineOf ["2017-05-06T19:52:57.601Z"; ""]) exampleTime 1
                     _ _ _ _ _) _).
    + split; [vm_compute; lia | reflexivity].
    + reflexivity.
    + vm_compute. lia.
    + intros j Hj. lia.
    + reflexivity.
    + reflexivity.
  - refine (proj2 (proj2 (proj2 (category_rejects_empty_text_accepts decimalNumeral))
                     (twoColumns "text")
                     (lineOf ["2017-05-06T19:52:57.601Z"; ""]) exampleTime 1
                     _ _ _ _ _) _ "").
    + split; [vm_compute; lia | reflexivity].
    + reflexivity.
    + vm_compute. lia.
    + intros j Hj. lia.
    + reflexivity.
    + reflexivity.
Defined.

(** The checkers after the header of the README metadata was parsed. *)
Lemma ParseHeader_checkers_safe_readme :
  ParseHeader emptyTsdata (Header readmeMetadata) = (readmeMetadata, None) /\
  checkers readmeMetadata = map typecheckers (Types readmeMetadata) /\
  checkersSafe readmeMetadata /\
  snd (ValidateLine decimalNumeral readmeMetadata "") <> Panic.
Proof.
  assert (H : ParseHeader emptyTsdata (Header readmeMetadata) = (readmeMetadata, None))
    by reflexivity.
  split; [exact H|].
  destruct (ParseHeader_checkers_safe decimalNumeral _ _ _ H) as (H1 & H2 & H3).
  split; [exact H1|]. split; [exact H2|].
  exact (proj1 (H3 readmeMetadata H2 "")).
Defined.

(* ------------------------------------------------------------------ *)
(** ** The other examples of the specification *)

Section Examples.

Variable parseFloat : string -> bool.

(** Example 3: [NA] in a float column. *)
Example float_column_accepts_NA :
  ValidateLine parseFloat (twoColumns "float")
               (lineOf ["2017-05-06T19:52:57.601Z"; "NA"])
  = (set_lastTime (twoColumns "float") exampleTime,
     Ok (mkData ["2017-05-06T19:52:57.601Z"; "NA"] exampleTime)).
Proof.
  unfold ValidateLine. cbn -[GoTime.Parse TrimSpace].
  change (TrimSpace "2017-05-06T19:52:57.601Z") with "2017-05-06T19:52:57.601Z".
  change (TrimSpace "NA") with "NA".
  change (GoTime.Parse "2017-05-06T19:52:57.601Z") with (Some exampleTime).
  unfold checkFloat. destruct (parseFloat "NA"); reflexivity.
Qed.

(** Example 5: a boolean column. *)
Example boolean_column :
  ValidateLine parseFloat (twoColumns "boolean")
               (lineOf ["2017-05-06T19:52:57.601Z"; "TaRUE"])
  = (twoColumns "boolean", Err (ColumnValidationError 2 "TaRUE")) /\
  checkBoolean "TRUE" = true /\ checkBoolean "FALSE" = true /\
  checkBoolean "NA" = true.
Proof. repeat split; reflexivity. Qed.

(** White space around the fields of a line is removed. *)
Example fields_are_trimmed :
  ValidateLine parseFloat (twoColumns "text")
               (lineOf ["  2017-05-06T19:52:57.601Z "; " foo " ++ String CR ""])
  = (set_lastTime (twoColumns "text") exampleTime,
     Ok (mkData ["2017-05-06T19:52:57.601Z"; "foo"] exampleTime)).
Proof. reflexivity. Qed.

(** A first column written with a space instead of [T] is refused. *)
Example first_column_with_space :
  ValidateLine parseFloat (twoColumns "text")
               (lineOf ["2017-05-06 19:52:57.601Z"; "foo"])
  = (twoColumns "text", Err (InvalidTimestamp "2017-05-06 19:52:57.601Z")).
Proof. reflexivity. Qed.

End Examples.

(* ------------------------------------------------------------------ *)
(** * Further properties *)

(** ** More facts about the string functions *)

Module TrimFacts.

Import StringFacts.

Lemma list_ascii_of_string_app (a b : string) :
  list_ascii_of_string (a ++ b) = (list_ascii_of_string a ++ list_ascii_of_string b)%list.
Proof. induction a as [|x a IH]; simpl; [reflexivity | now rewrite IH]. Qed.

Lemma rev_app (a b : string) : rev (a ++ b) = rev b ++ rev a.
Proof.
  unfold rev.
  now rewrite list_ascii_of_string_app, List.rev_app_distr, string_of_list_ascii_app.
Qed.

Lemma append_same_length (a b : string) :
  String.length (a ++ b) = String.length b -> a = "".
Proof.
  rewrite append_length. destruct a; [reflexivity | simpl; lia].
Qed.

(** What [trimLeftSpace] returns is the end of its argument. *)
Lemma trimLeftSpace_suffix (n : nat) :
  forall s, String.length s <= n -> exists p, s = p ++ trimLeftSpace s.
Proof.
  induction n as [|n IH]; intros s Hs.
  - destruct s; [now exists "" | simpl in Hs; lia].
  - destruct s as [|a r1]; [now exists ""|].
    cbn [trimLeftSpace]. cbn [String.length] in Hs.
    destruct (asciiSpace a).
    { destruct (IH r1) as [p Hp]; [lia|]. exists (String a p). simpl. now rewrite <- Hp. }
    destruct r1 as [|b r2]; [now exists ""|].
    cbn [String.length] in Hs.
    destruct (space2 a b).
    { destruct (IH r2) as [p Hp]; [lia|].
      exists (String a (String b p)). simpl. now rewrite <- Hp. }
    destruct r2 as [|c r3]; [now exists ""|].
    cbn [String.length] in Hs.
    destruct (space3 a b c); [|now exists ""].
    destruct (IH r3) as [p Hp]; [lia|].
    exists (String a (String b (String c p))). simpl. now rewrite <- Hp.
Qed.

Lemma trimLeftSpaceRev_suffix (n : nat) :
  forall s, String.length s <= n -> exists p, s = p ++ trimLeftSpaceRev s.
Proof.
  induction n as [|n IH]; intros s Hs.
  - destruct s; [now exists "" | simpl in Hs; lia].
  - destruct s as [|a r1]; [now exists ""|].
    cbn [trimLeftSpaceRev]. cbn [String.length] in Hs.
    destruct (asciiSpace a).
    { destruct (IH r1) as [p Hp]; [lia|]. exists (String a p). simpl. now rewrite <- Hp. }
    destruct r1 as [|b r2]; [now exists ""|].
    cbn [String.length] in Hs.
    destruct (space2 b a).
    { destruct (IH r2) as [p Hp]; [lia|].
      exists (String a (String b p)). simpl. now rewrite <- Hp. }
    destruct r2 as [|c r3]; [now exists ""|].
    cbn [String.length] in Hs.
    destruct (space3 c b a); [|now exists ""].
    destruct (IH r3) as [p Hp]; [lia|].
    exists (String a (String b (String c p))). simpl. now rewrite <- Hp.
Qed.

(** What the two scans return is left as it is by another scan. *)
Lemma trimLeftSpace_idempotent (n : nat) :
  forall s, String.length s <= n -> trimLeftSpace (trimLeftSpace s) = trimLeftSpace s.
Proof.
  induction n as [|n IH]; intros s Hs.
  - destruct s; [reflexivity | simpl in Hs; lia].
  - destruct s as [|a r1]; [reflexivity|].
    cbn [String.length] in Hs.
    destruct (asciiSpace a) eqn:Ea.
    { cbn [trimLeftSpace]. rewrite Ea. apply IH. lia. }
    destruct r1 as [|b r2].
    { cbn [trimLeftSpace]. rewrite Ea. cbn [trimLeftSpace]. now rewrite Ea. }
    cbn [String.length] in Hs.
    destruct (space2 a b) eqn:E2.
    { cbn [trimLeftSpace]. rewrite Ea, E2. apply IH. lia. }
    destruct r2 as [|c r3].
    { cbn [trimLeftSpace]. rewrite Ea, E2. cbn [trimLeftSpace]. now rewrite Ea, E2. }
    cbn [String.length] in Hs.
    destruct (space3 a b c) eqn:E3.
    { cbn [trimLeftSpace]. rewrite Ea, E2, E3. apply IH. lia. }
    cbn [trimLeftSpace]. rewrite Ea, E2, E3. cbn [trimLeftSpace]. now rewrite Ea, E2, E3.
Qed.

Lemma trimLeftSpaceRev_idempotent (n : nat) :
  forall s, String.length s <= n ->
            trimLeftSpaceRev (trimLeftSpaceRev s) = trimLeftSpaceRev s.
Proof.
  induction n as [|n IH]; intros s Hs.
  - destruct s; [reflexivity | simpl in Hs; lia].
  - destruct s as [|a r1]; [reflexivity|].
    cbn [String.length] in Hs.
    destruct (asciiSpace a) eqn:Ea.
    { cbn [trimLeftSpaceRev]. rewrite Ea. apply IH. lia. }
    destruct r1 as [|b r2].
    { cbn [trimLeftSpaceRev]. rewrite Ea. cbn [trimLeftSpaceRev]. now rewrite Ea. }
    cbn [String.length] in Hs.
    destruct (space2 b a) eqn:E2.
    { cbn [trimLeftSpaceRev]. rewrite Ea, E2. apply IH. lia. }
    destruct r2 as [|c r3].
    { cbn [trimLeftSpaceRev]. rewrite Ea, E2. cbn [trimLeftSpaceRev]. now rewrite Ea, E2. }
    cbn [String.length] in Hs.
    destruct (space3 c b a) eqn:E3.
    { cbn [trimLeftSpaceRev]. rewrite Ea, E2, E3. apply IH. lia. }
    cbn [trimLeftSpaceRev]. rewrite Ea, E2, E3. cbn [trimLeftSpaceRev].
    now rewrite Ea, E2, E3.
Qed.

(** A string that starts with no white space keeps this when bytes are
    cut from its end. *)
Lemma trimLeftSpace_prefix (p q : string) :
  trimLeftSpace (p ++ q) = p ++ q -> trimLeftSpace p = p.
Proof.
  intros H.
  assert (HL : String.length (trimLeftSpace (p ++ q)) = String.length (p ++ q))
    by now rewrite H.
  clear H.
  destruct p as [|a p1]; [reflexivity|].
  cbn [append trimLeftSpace] in *.
  destruct (asciiSpace a).
  { pose proof (trimLeftSpace_le _ (p1 ++ q) (le_n _)). cbn [String.length] in HL. lia. }
  destruct p1 as [|b p2]; [reflexivity|].
  cbn [append] in *.
  destruct (space2 a b).
  { pose proof (trimLeftSpace_le _ (p2 ++ q) (le_n _)). cbn [String.length] in HL. lia. }
  destruct p2 as [|c p3]; [reflexivity|].
  cbn [append] in *.
  destruct (space3 a b c); [|reflexivity].
  pose proof (trimLeftSpace_le _ (p3 ++ q) (le_n _)). cbn [String.length] in HL. lia.
Qed.

(** What [TrimSpace] returns is a piece of its argument: the argument is
    this piece with something before and something after. *)
Lemma TrimSpace_infix (s : string) :
  exists p q, s = p ++ TrimSpace s ++ q /\ trimLeftSpace s = TrimSpace s ++ q.
Proof.
  destruct (trimLeftSpace_suffix _ s (le_n _)) as [p Hp].
  destruct (trimLeftSpaceRev_suffix _ (rev (trimLeftSpace s)) (le_n _)) as [q Hq].
  exists p, (rev q).
  assert (Hx : trimLeftSpace s = TrimSpace s ++ rev q).
  { unfold TrimSpace, trimRightSpace. rewrite <- rev_app, <- Hq.
    now rewrite rev_involutive. }
  split; [|exact Hx]. now rewrite <- Hx.
Qed.

(** [TrimSpace] finds nothing more to trim in what it returns. *)
Lemma TrimSpace_idempotent (s : string) : TrimSpace (TrimSpace s) = TrimSpace s.
Proof.
  destruct (TrimSpace_infix s) as (p & q & _ & Hx).
  assert (Hleft : trimLeftSpace (TrimSpace s) = TrimSpace s).
  { apply (trimLeftSpace_prefix _ q). rewrite <- Hx.
    apply (trimLeftSpace_idempotent _ s (le_n _)). }
  unfold TrimSpace at 1. rewrite Hleft.
  unfold trimRightSpace, TrimSpace at 1, trimRightSpace.
  rewrite rev_involutive.
  now rewrite (trimLeftSpaceRev_idempotent _ _ (le_n _)).
Qed.

(** [TrimSpace] brings in no byte. *)
Lemma TrimSpace_contains (s : string) (c : ascii) :
  contains s c = false -> contains (TrimSpace s) c = false.
Proof.
  destruct (TrimSpace_infix s) as (p & q & Hs & _).
  intros H. rewrite Hs in H. rewrite !contains_append in H.
  apply orb_false_iff in H as [_ H]. now apply orb_false_iff in H as [H _].
Qed.

(** The fields [Split] returns hold no separator. *)
Lemma Split_fields_no_sep (s : string) (sep : ascii) :
  Forall (fun f => contains f sep = false) (Split s sep).
Proof.
  induction s as [|c r IH]; simpl; [now repeat constructor|].
  destruct (Ascii.eqb c sep) eqn:E; [now constructor|].
  destruct (Split r sep) as [|f fs]; [now repeat constructor; simpl; rewrite E|].
  inversion IH as [|? ? Hf Hfs]; subst.
  constructor; [simpl; now rewrite E, Hf | exact Hfs].
Qed.

(** Joining the fields [Split] returns gives the string back. *)
Lemma Join_Split (s : string) (sep : ascii) : Join (Split s sep) sep = s.
Proof.
  induction s as [|c r IH]; [reflexivity|].
  cbn [Split]. destruct (Ascii.eqb_spec c sep) as [->|Hc].
  - pose proof (Split_not_nil r sep).
    rewrite Join_cons by assumption. simpl. now rewrite IH.
  - destruct (Split r sep) as [|f fs] eqn:E; [now destruct (Split_not_nil r sep)|].
    destruct fs as [|f' fs'].
    + simpl in *. now rewrite IH.
    + rewrite Join_cons in IH by discriminate.
      rewrite Join_cons by discriminate. cbn [append]. now f_equal.
Qed.

End TrimFacts.

(* ------------------------------------------------------------------ *)
(** ** The table of type checkers *)

Section CheckersAccept.

Variable parseFloat : string -> bool.

(** X2: every checker of the table accepts the missing-data marker
    [NA], whatever [strconv.ParseFloat] does with it. *)
Theorem every_checker_accepts_NA (c : checker) : call parseFloat c NA = true.
Proof.
  destruct c; try reflexivity.
  cbn [call]. unfold checkFloat. now destruct (parseFloat NA).
Qed.

(** X3: of the six checkers only [checkText] accepts the empty string,
    given that [strconv.ParseFloat] returns an error for it. *)
Theorem only_checkText_accepts_empty (c : checker) :
  parseFloat "" = false ->
  (call parseFloat c "" = true <-> c = CheckText).
Proof.
  intros Hpf. destruct c; cbn [call]; unfold checkFloat; rewrite ?Hpf;
    split; intros H; try reflexivity; try discriminate H.
Qed.

End CheckersAccept.

Module IntegerFacts.

Import GoStrconv.

Lemma digits_allDigits (s : string) :
  forall acc z, digits s acc = Some z -> allDigits s = true.
Proof.
  induction s as [|a r IH]; intros acc z H; [reflexivity|].
  simpl in *. destruct (GoTime.isDigit a); [|discriminate].
  now rewrite (IH _ _ H).
Qed.

Lemma digit_bound (a : ascii) : GoTime.isDigit a = true -> (0 <= GoTime.digit a <= 9)%Z.
Proof.
  unfold GoTime.isDigit, GoTime.digit. intros H.
  apply andb_true_iff in H as [H1 H2].
  apply Nat.leb_le in H1, H2. lia.
Qed.

(** The digits are read as a number in base ten. *)
Lemma digits_value (s : string) :
  forall acc, allDigits s = true -> (0 <= acc)%Z ->
    exists v, digits s acc = Some (acc * 10 ^ Z.of_nat (String.length s) + v)%Z /\
              (0 <= v < 10 ^ Z.of_nat (String.length s))%Z.
Proof.
  induction s as [|a r IH]; intros acc Hd Hacc.
  - exists 0%Z. simpl. split; [f_equal; lia | lia].
  - simpl in Hd. apply andb_true_iff in Hd as [Ha Hr].
    cbn [digits String.length]. rewrite Ha.
    pose proof (digit_bound a Ha) as Hb.
    destruct (IH (acc * 10 + GoTime.digit a)%Z Hr) as (v & Hv & Hrange); [lia|].
    rewrite Nat2Z.inj_succ, Z.pow_succ_r by lia.
    set (P := (10 ^ Z.of_nat (String.length r))%Z) in *.
    exists (GoTime.digit a * P + v)%Z. split; [rewrite Hv; f_equal; lia | nia].
Qed.

Lemma unsigned_Some (ds : string) (z : Z) :
  unsigned ds = Some z -> ds <> "" /\ allDigits ds = true.
Proof.
  destruct ds as [|a r]; [discriminate|].
  intros H. split; [discriminate|]. exact (digits_allDigits _ _ _ H).
Qed.

Lemma unsigned_short (ds : string) :
  ds <> "" -> allDigits ds = true -> String.length ds <= 18 ->
  exists z, unsigned ds = Some z /\ (0 <= z < 2 ^ 63)%Z.
Proof.
  intros Hne Hd Hlen.
  destruct (digits_value ds 0%Z Hd) as (v & Hv & Hrange); [lia|].
  exists v. split.
  - destruct ds; [congruence|]. unfold unsigned. rewrite Hv. f_equal; lia.
  - assert (10 ^ Z.of_nat (String.length ds) <= 10 ^ 18)%Z
      by (apply Z.pow_le_mono_r; lia).
    assert (10 ^ 18 < 2 ^ 63)%Z by reflexivity. lia.
Qed.

Lemma allDigits_no_sign (ds : string) (c : ascii) :
  allDigits (String c ds) = true -> Ascii.eqb c "+" = false /\ Ascii.eqb c "-" = false.
Proof.
  simpl. intros H. apply andb_true_iff in H as [H _].
  split; destruct (Ascii.eqb_spec c "+"), (Ascii.eqb_spec c "-"); subst;
    try reflexivity; discriminate H.
Qed.

End IntegerFacts.

(** X4: what [checkInteger] accepts, besides [NA], is a decimal numeral:
    an optional sign followed by digits and nothing else, so no
    fraction, exponent, space or digit separator; and it accepts every
    such numeral of at most eighteen digits. *)
Theorem checkInteger_numerals :
  (forall s, checkInteger s = true -> s = NA \/ signedNumeral s) /\
  (forall sign ds,
     sign = "" \/ sign = "+" \/ sign = "-" ->
     ds <> "" -> allDigits ds = true -> String.length ds <= 18 ->
     checkInteger (sign ++ ds) = true).
Proof.
  split.
  - intros s. unfold checkInteger.
    destruct (GoStrconv.ParseInt s) as [z|] eqn:E;
      [intros _; right | rewrite String.eqb_eq; now left].
    unfold GoStrconv.ParseInt in E. destruct s as [|c r]; [discriminate|].
    destruct (Ascii.eqb_spec c "+") as [->|Hp].
    { destruct (GoStrconv.unsigned r) as [un|] eqn:U; [|discriminate].
      apply IntegerFacts.unsigned_Some in U as [U1 U2].
      exists "+", r. repeat split; auto. }
    destruct (Ascii.eqb_spec c "-") as [->|Hm].
    { destruct (GoStrconv.unsigned r) as [un|] eqn:U; [|discriminate].
      apply IntegerFacts.unsigned_Some in U as [U1 U2].
      exists "-", r. repeat split; auto. }
    destruct (GoStrconv.unsigned (String c r)) as [un|] eqn:U; [|discriminate].
    apply IntegerFacts.unsigned_Some in U as [U1 U2].
    exists "", (String c r). repeat split; auto.
  - intros sign ds Hsign Hne Hd Hlen.
    destruct (IntegerFacts.unsigned_short ds Hne Hd Hlen) as (z & Hz & Hrange).
    unfold checkInteger.
    assert (Hparse : exists v, GoStrconv.ParseInt (sign ++ ds) = Some v).
    { unfold GoStrconv.ParseInt.
      destruct Hsign as [-> | [-> | ->]]; cbn [append].
      - destruct ds as [|c r]; [congruence|].
        destruct (IntegerFacts.allDigits_no_sign r c Hd) as [-> ->].
        rewrite Hz. destruct (Z.leb_spec (2 ^ 63) z); [lia | now exists z].
      - rewrite Ascii.eqb_refl, Hz.
        destruct (Z.leb_spec (2 ^ 63) z); [lia | now exists z].
      - change (Ascii.eqb "-" "+") with false. rewrite Ascii.eqb_refl, Hz.
        destruct (Z.ltb_spec (2 ^ 63) z); [lia | now exists (- z)%Z]. }
    destruct Hparse as [v ->]. reflexivity.
Qed.

(* ------------------------------------------------------------------ *)
(** ** The header text *)

Module HeaderFacts.

Import StringFacts TrimFacts RoundTrip.

Lemma TrimRight_prefix (s cut : string) : exists q, s = TrimRight s cut ++ q.
Proof.
  induction s as [|c r [q IH]]; [now exists ""|].
  cbn [TrimRight]. destruct (TrimRight r cut) as [|x y] eqn:E.
  - destruct (contains cut c).
    + now exists (String c r).
    + exists q. cbn [append]. f_equal. exact IH.
  - exists q. cbn [append]. f_equal. exact IH.
Qed.

Lemma TrimRight_idempotent (s cut : string) :
  TrimRight (TrimRight s cut) cut = TrimRight s cut.
Proof.
  induction s as [|c r IH]; [reflexivity|].
  cbn [TrimRight]. destruct (TrimRight r cut) as [|x y] eqn:E.
  - destruct (contains cut c) eqn:Ec; [reflexivity|].
    simpl. now rewrite Ec.
  - cbn [TrimRight]. cbn [TrimRight] in IH. now rewrite IH.
Qed.

Lemma TrimRight_contains (s cut : string) (c : ascii) :
  contains s c = false -> contains (TrimRight s cut) c = false.
Proof.
  destruct (TrimRight_prefix s cut) as [q Hq].
  intros H. rewrite Hq, contains_append in H.
  now apply orb_false_iff in H as [H _].
Qed.

(** The bytes [TrimRight] drops: appending them changes nothing. *)
Lemma TrimRight_trailing (s w : string) :
  trailingSpace w = true ->
  TrimRight (s ++ w) lineCutset = TrimRight s lineCutset.
Proof.
  intros Hw.
  assert (Hnil : TrimRight w lineCutset = "").
  { induction w as [|a r IH]; [reflexivity|].
    cbn [trailingSpace] in Hw. apply andb_true_iff in Hw as [Ha Hr].
    cbn [TrimRight]. now rewrite (IH Hr), Ha. }
  induction s as [|c r IH]; [exact Hnil|].
  cbn [append TrimRight]. now rewrite IH.
Qed.

(** The fields of a joined line hold no byte the line does not hold. *)
Lemma Join_contains_inv (fs : list string) (sep c : ascii) :
  contains (Join fs sep) c = false ->
  Forall (fun f => contains f c = false) fs.
Proof.
  induction fs as [|e rest IH]; intros H; [constructor|].
  destruct rest as [|e' rest'].
  - now repeat constructor.
  - rewrite Join_cons in H by discriminate.
    rewrite contains_append in H. cbn [contains] in H.
    apply orb_false_iff in H as [He H]. apply orb_false_iff in H as [_ H].
    constructor; [exact He | now apply IH].
Qed.

Lemma Split_contains (s : string) (sep c : ascii) :
  contains s c = false -> Forall (fun f => contains f c = false) (Split s sep).
Proof.
  intros H. apply (Join_contains_inv _ sep). now rewrite Join_Split.
Qed.

(** The fields [ParseHeader] reads from a column line are clean. *)
Lemma splitTrim_clean (line : string) :
  contains line LF = false -> forallb cleanField (splitTrim line) = true.
Proof.
  intros HLF. unfold splitTrim, Delim. apply forallb_forall. intros f Hf.
  apply in_map_iff in Hf as (g & <- & Hg).
  pose proof (Split_fields_no_sep line TAB) as Htab.
  pose proof (Split_contains line TAB LF HLF) as Hlf.
  rewrite Forall_forall in Htab, Hlf.
  unfold cleanField.
  rewrite (TrimSpace_contains _ _ (Htab _ Hg)), (TrimSpace_contains _ _ (Hlf _ Hg)).
  rewrite TrimSpace_idempotent. now rewrite String.eqb_refl.
Qed.

(** The first field of a header line holds no delimiter and no newline. *)
Lemma firstField_clean (line : string) :
  contains line LF = false ->
  contains (firstField line) TAB = false /\ contains (firstField line) LF = false.
Proof.
  intros HLF. unfold firstField, Delim.
  pose proof (Split_fields_no_sep line TAB) as Htab.
  pose proof (Split_contains line TAB LF HLF) as Hlf.
  destruct (Split line TAB) as [|f fs]; [now split|].
  inversion Htab; inversion Hlf; subst. now split.
Qed.

(** The lines [ParseHeader] works on hold no newline. *)
Lemma trimLines_no_LF (header : string) :
  Forall (fun l => contains l LF = false) (trimLines (headerLinesOf header)).
Proof.
  unfold trimLines, headerLinesOf. apply Forall_map.
  eapply Forall_impl; [|apply Split_fields_no_sep].
  intros l Hl. now apply TrimRight_contains.
Qed.

Lemma nth_Forall {A : Type} (P : A -> Prop) (l : list A) (d : A) (i : nat) :
  Forall P l -> P d -> P (nth i l d).
Proof.
  intros Hl Hd. revert i. induction Hl as [|x l Hx _ IH]; intros [|i]; simpl; auto.
Qed.

Lemma nth_trimLines (i : nat) (lines : list string) :
  nth i (trimLines lines) "" = TrimRight (nth i lines "") lineCutset.
Proof. exact (map_nth (fun l => TrimRight l lineCutset) lines "" i). Qed.

Lemma TrimSuffix_strip (a : string) : TrimSuffix (a ++ nl) nl = a.
Proof.
  induction a as [|c a IH]; [reflexivity|].
  assert (Hne : String.eqb (String c (a ++ nl)) nl = false).
  { apply String.eqb_neq. unfold nl at 2. intros [= _ E]. destruct a; discriminate. }
  cbn [append TrimSuffix]. now rewrite Hne, IH.
Qed.

(** The lines of a header text, when no field holds a newline. *)
Lemma headerLines_no_LF (t : Tsdata) :
  noNewlines t = true -> Forall (fun l => contains l LF = false) (headerLines t).
Proof.
  unfold noNewlines. intros H.
  apply andb_true_iff in H as [H Hh]. apply andb_true_iff in H as [H Hu].
  apply andb_true_iff in H as [H Hty]. apply andb_true_iff in H as [H Hc].
  apply andb_true_iff in H as [H Hd]. apply andb_true_iff in H as [Hf Hp].
  apply negb_true_iff in Hf, Hp, Hd.
  assert (Hlist : forall fs, forallb (fun f => negb (contains f LF)) fs = true ->
                             contains (Join fs Delim) LF = false).
  { intros fs Hfs. apply contains_Join; [reflexivity|].
    rewrite forallb_forall in Hfs. apply Forall_forall. intros f Hin.
    now apply negb_true_iff, Hfs. }
  unfold headerLines. repeat constructor; auto.
  unfold reparsedComments. destruct (Comments t); [|now apply Hlist].
  apply contains_Join; [reflexivity|].
  eapply Forall_impl; [|apply NA_row_good]. now intros f (_ & H' & _).
Qed.

Lemma Header_headerLines (t : Tsdata) : Header t = Join (headerLines t) LF.
Proof. apply Header_lines. Qed.

End HeaderFacts.

(** X5: the row of [NA] that [nas] builds for one column or more reads
    back, through the split and trim of [ParseHeader], as that many [NA];
    for no column it is the empty string, which [strings.Split] reads as
    one empty field. *)
Theorem nas_reads_back :
  (forall n, splitTrim (nas (S n)) = repeat NA (S n)) /\
  nas 0 = "" /\ Split (nas 0) Delim = [""].
Proof.
  split; [|split; reflexivity].
  intros n.
  destruct (RoundTrip.joined_line (repeat NA (S n))) as (_ & _ & _ & H);
    [discriminate | apply RoundTrip.NA_row_good | exact H].
Qed.

(** X6: when no field holds a newline, the text of [Header] is made of
    exactly seven lines, those of the metadata, with no newline after
    the last; when besides there are no headers at all, the text ends
    with a newline and [ParseHeader] refuses it as a header of six
    lines. *)
Theorem Header_seven_lines (t : Tsdata) :
  noNewlines t = true ->
  Split (Header t) LF = headerLines t /\
  (Headers t = [] ->
   forall t0, ParseHeader t0 (Header t) = (t0, Some (HeaderShapeError 7 6))).
Proof.
  intros Hno. pose proof (HeaderFacts.headerLines_no_LF t Hno) as Hlines.
  rewrite HeaderFacts.Header_headerLines. split.
  - apply StringFacts.Split_Join; [discriminate | exact Hlines].
  - intros Hh t0. unfold ParseHeader, headerLinesOf.
    unfold headerLines in *. rewrite Hh in *. cbn [Join] in Hlines |- *.
    set (l0 := FileType t) in *. set (l1 := Project t) in *.
    set (l2 := FileDescription t) in *.
    set (l3 := Join (reparsedComments t) Delim) in *.
    set (l4 := Join (Types t) Delim) in *. set (l5 := Join (Units t) Delim) in *.
    assert (Htext : l0 ++ String LF (l1 ++ String LF (l2 ++ String LF
                      (l3 ++ String LF (l4 ++ String LF (l5 ++ String LF "")))))
                    = Join [l0; l1; l2; l3; l4; l5] LF ++ nl).
    { cbn [Join]. unfold nl. rewrite !StringFacts.append_assoc. cbn [append].
      repeat (rewrite ?StringFacts.append_assoc; cbn [append]). reflexivity. }
    rewrite Htext, HeaderFacts.TrimSuffix_strip.
    rewrite StringFacts.Split_Join;
      [reflexivity | discriminate |].
    inversion Hlines as [|? ? H0 Hl1]; subst.
    inversion Hl1 as [|? ? H1 Hl2]; subst.
    inversion Hl2 as [|? ? H2 Hl3]; subst.
    inversion Hl3 as [|? ? H3 Hl4]; subst.
    inversion Hl4 as [|? ? H4 Hl5]; subst.
    inversion Hl5 as [|? ? H5 _]; subst.
    now repeat constructor.
Qed.

(* ------------------------------------------------------------------ *)
(** ** Parsing what was rendered, rendering what was parsed *)

Module ParseFacts.

Import StringFacts TrimFacts RoundTrip HeaderFacts.

Lemma ParseHeader_Header_reparsed (t0 m : Tsdata) :
  ValidateMetadata m = None -> cleanMetadata m = true ->
  ParseHeader t0 (Header m) = (reparsed t0 m, None).
Proof.
  intros Hv Hc.
  apply MetadataFacts.ValidateMetadata_None_iff in Hv.
  destruct Hv as (Hft & Hpr & Hcs & Hcn & Hty & Hun & Hus & Hhn & Hh0 & Hhs & H2).
  unfold cleanMetadata in Hc.
  apply andb_true_iff in Hc as [Hc CHs]. apply andb_true_iff in Hc as [Hc CUs].
  apply andb_true_iff in Hc as [Hc CCs]. apply andb_true_iff in Hc as [Hc CFd].
  apply andb_true_iff in Hc as [CFt CPr].
  assert (Tne : Types m <> []) by (destruct (Types m); [simpl in H2; lia | discriminate]).
  assert (Une : Units m <> [])
    by (destruct (Units m), (Types m); simpl in *; try lia; discriminate).
  assert (Hne : Headers m <> [])
    by (destruct (Headers m), (Types m); simpl in *; try lia; discriminate).
  assert (Cne : reparsedComments m <> []).
  { unfold reparsedComments. destruct (Comments m); [|discriminate].
    rewrite Hhn. destruct (List.length (Types m)); [lia | discriminate]. }
  assert (Cgood : Forall goodField (reparsedComments m)).
  { unfold reparsedComments. destruct (Comments m); [apply NA_row_good|].
    apply good_fields; [exact CCs | exact Hcs]. }
  assert (Tgood : Forall goodField (Types m))
    by (eapply Forall_impl; [|exact Hty]; exact known_type_good).
  pose proof (good_fields _ CUs Hus) as Ugood.
  pose proof (good_fields _ CHs Hhs) as Hgood.
  destruct (joined_line _ Cne Cgood) as (C1 & C2 & C3 & C4).
  destruct (joined_line _ Tne Tgood) as (T1 & T2 & T3 & T4).
  destruct (joined_line _ Une Ugood) as (U1 & U2 & U3 & U4).
  destruct (joined_line _ Hne Hgood) as (H1 & H2' & H3 & H4).
  destruct (cleanScalar_line _ CFt) as (F1 & F3 & F4).
  destruct (cleanScalar_line _ CPr) as (P1 & P3 & P4).
  destruct (cleanScalar_line _ CFd) as (D1 & D3 & D4).
  assert (Hlines : trimLines (headerLinesOf (Header m)) = headerLines m).
  { unfold headerLinesOf. rewrite Header_headerLines. unfold headerLines.
    rewrite TrimSuffix_Join;
      [|discriminate | repeat constructor; assumption | exact H2'].
    rewrite Split_Join; [|discriminate | repeat constructor; assumption].
    unfold trimLines. cbn [map]. now rewrite F3, P3, D3, C3, T3, U3, H3. }
  assert (Hcount : List.length (headerLinesOf (Header m)) = HeaderSize).
  { apply (f_equal (@List.length _)) in Hlines.
    unfold trimLines in Hlines. now rewrite List.length_map in Hlines. }
  unfold ParseHeader. rewrite Hcount, Nat.eqb_refl. cbn [negb].
  rewrite Hlines.
  assert (Hassign : assignHeader t0 (headerLines m) = reparsed t0 m).
  { unfold assignHeader, headerLines. cbn [nth].
    rewrite F4, P4, D4, C4, T4, U4, H4.
    apply String.eqb_neq in C2, T2, U2, H2'. rewrite C2, T2, U2, H2'.
    reflexivity. }
  rewrite Hassign. f_equal.
  apply MetadataFacts.ValidateMetadata_None_iff. unfold MetadataValid, reparsed.
  cbn [FileType Project Comments Types Units Headers].
  repeat split; try assumption.
  - eapply Forall_impl; [|exact Cgood]. now intros f (_ & _ & _ & H).
  - intros _. unfold reparsedComments. destruct (Comments m).
    + now rewrite List.repeat_length.
    + apply Hcn. discriminate.
Qed.

(** The comments that came back are not empty, so they come back again
    as they are. *)
Lemma reparsedComments_reparsed (t0 m : Tsdata) :
  Headers m <> [] -> reparsedComments (reparsed t0 m) = reparsedComments m.
Proof.
  intros Hne. unfold reparsedComments at 1. unfold reparsed.
  cbn [Comments Headers]. unfold reparsedComments.
  destruct (Comments m); [|reflexivity].
  destruct (Headers m); [congruence | reflexivity].
Qed.

(** [ParseHeader] assigns clean entries to the column fields, and first
    fields without delimiter or newline to the others. *)
Lemma assignHeader_clean (t0 : Tsdata) (ls : list string) :
  Forall (fun l => contains l LF = false) ls ->
  columnsClean t0 ->
  let t := assignHeader t0 ls in
  columnsClean t /\
  (contains (FileType t) TAB = false /\ contains (FileType t) LF = false) /\
  (contains (Project t) TAB = false /\ contains (Project t) LF = false) /\
  (contains (FileDescription t) TAB = false /\ contains (FileDescription t) LF = false).
Proof.
  intros Hls (Hc & Hty & Hu & Hh).
  assert (Hline : forall i, contains (nth i ls "") LF = false)
    by (intros i; now apply nth_Forall).
  unfold assignHeader, columnsClean.
  repeat match goal with
  | |- context [if ?b then _ else _] => destruct b
  end;
  cbn [Comments Types Units Headers FileType Project FileDescription
       set_checkers set_Headers set_Units set_Types set_Comments
       set_FileDescription set_Project set_FileType];
  repeat split;
  try assumption; try (now apply splitTrim_clean); now apply firstField_clean.
Qed.

End ParseFacts.

(** X7: for metadata that is valid and clean, the metadata that comes
    back from the rendered header renders to the same header text, and
    parsing that text again, into any receiver, succeeds and gives the
    same metadata fields: after one pass the round trip is exact. *)
Theorem Header_ParseHeader_fixed_point (t0 m : Tsdata) :
  ValidateMetadata m = None -> cleanMetadata m = true ->
  let t := fst (ParseHeader t0 (Header m)) in
  Header t = Header m /\
  forall t1, snd (ParseHeader t1 (Header t)) = None /\
             sameMetadata (fst (ParseHeader t1 (Header t))) t.
Proof.
  intros Hv Hc t. subst t.
  rewrite (ParseFacts.ParseHeader_Header_reparsed t0 m Hv Hc). cbn [fst].
  assert (Hne : Headers m <> []).
  { apply MetadataFacts.ValidateMetadata_None_iff in Hv.
    destruct Hv as (_ & _ & _ & _ & _ & _ & _ & Hhn & _ & _ & H2).
    destruct (Headers m), (Types m); simpl in *; try lia; discriminate. }
  assert (Hsame : Header (reparsed t0 m) = Header m).
  { rewrite !HeaderFacts.Header_headerLines. unfold headerLines.
    now rewrite (ParseFacts.reparsedComments_reparsed t0 m Hne). }
  split; [exact Hsame|].
  intros t1. rewrite Hsame, (ParseFacts.ParseHeader_Header_reparsed t1 m Hv Hc).
  cbn [fst snd]. split; [reflexivity|].
  unfold sameMetadata, reparsed.
  cbn [FileType Project FileDescription Comments Types Units Headers].
  now repeat split.
Qed.

(** X8: whatever the header text, the entries [ParseHeader] leaves in
    the comments, types, units and headers of a fresh receiver hold no
    delimiter, no newline and no white space at either end, and its
    file type, project and description hold no delimiter and no
    newline. *)
Theorem ParseHeader_fields_clean (header : string) :
  let t := fst (ParseHeader emptyTsdata header) in
  (forallb cleanField (Comments t) = true /\ forallb cleanField (Types t) = true /\
   forallb cleanField (Units t) = true /\ forallb cleanField (Headers t) = true) /\
  (contains (FileType t) TAB = false /\ contains (FileType t) LF = false) /\
  (contains (Project t) TAB = false /\ contains (Project t) LF = false) /\
  (contains (FileDescription t) TAB = false /\ contains (FileDescription t) LF = false).
Proof.
  unfold ParseHeader.
  destruct (negb _); cbn [fst]; cbv zeta.
  - now repeat split.
  - apply ParseFacts.assignHeader_clean.
    + apply HeaderFacts.trimLines_no_LF.
    + now repeat split.
Qed.

(** X9: a header that [ParseHeader] accepts into a fresh receiver, and
    whose first three lines hold no tab, gives metadata that survives
    rendering and parsing: the header of the parsed metadata parses, into
    any receiver, to the same file type, project, description, types,
    units and headers, and to the same comments, or to one [NA] for each
    column when the comment line was empty. *)
Theorem ParseHeader_then_round_trip (header : string) (t : Tsdata) :
  ParseHeader emptyTsdata header = (t, None) ->
  (forall i, i < 3 -> contains (nth i (headerLinesOf header) "") TAB = false) ->
  forall t1, roundTrips t1 t.
Proof.
  intros Hparse Hscalars t1.
  destruct (ParseHeader_None _ _ _ Hparse) as [Ht Hvalid].
  set (ls := trimLines (headerLinesOf header)) in *.
  assert (HLF : Forall (fun l => contains l LF = false) ls)
    by apply HeaderFacts.trimLines_no_LF.
  assert (Hclean0 : columnsClean emptyTsdata) by now repeat split.
  pose proof (ParseFacts.assignHeader_clean emptyTsdata ls HLF Hclean0) as Hclean.
  cbv zeta in Hclean. rewrite <- Ht in Hclean.
  destruct Hclean as ((Hc & _ & Hu & Hh) & (F1 & F2) & (P1 & P2) & (D1 & D2)).
  assert (Hscalar : forall i, i < 3 ->
            firstField (nth i ls "") = nth i ls "" /\
            TrimRight (nth i ls "") lineCutset = nth i ls "").
  { intros i Hi. unfold ls. rewrite !HeaderFacts.nth_trimLines.
    split; [|apply HeaderFacts.TrimRight_idempotent].
    unfold firstField, Delim. rewrite StringFacts.Split_no_sep; [reflexivity|].
    apply HeaderFacts.TrimRight_contains. now apply Hscalars. }
  assert (HF : FileType t = nth 0 ls "" /\ Project t = nth 1 ls ""
               /\ FileDescription t = nth 2 ls "").
  { rewrite Ht. unfold assignHeader.
    repeat match goal with |- context [if ?b then _ else _] => destruct b end;
      cbn [FileType Project FileDescription set_checkers set_Headers set_Units
           set_Types set_Comments set_FileDescription set_Project set_FileType];
      rewrite (proj1 (Hscalar 0 ltac:(lia))), (proj1 (Hscalar 1 ltac:(lia))),
              (proj1 (Hscalar 2 ltac:(lia))); now repeat split. }
  destruct HF as (HF0 & HF1 & HF2).
  assert (Hcm : cleanMetadata t = true).
  { unfold cleanMetadata, cleanScalar.
    rewrite F1, F2, P1, P2, D1, D2, Hc, Hu, Hh. cbn [negb andb].
    rewrite HF0, HF1, HF2.
    rewrite (proj2 (Hscalar 0 ltac:(lia))), (proj2 (Hscalar 1 ltac:(lia))),
            (proj2 (Hscalar 2 ltac:(lia))).
    now rewrite !String.eqb_refl. }
  exists (reparsed t1 t).
  split; [now apply ParseFacts.ParseHeader_Header_reparsed|].
  unfold reparsed.
  cbn [FileType Project FileDescription Comments Types Units Headers].
  now repeat split.
Qed.

(* ------------------------------------------------------------------ *)
(** ** More on line validation *)

Section LineMore.

Variable parseFloat : string -> bool.

(** The loop returns the trimmed fields only when every field has a
    checker that accepts it. *)
Lemma checkFields_Ok_inv (chk : list (option checker)) (fields : list string) :
  forall i fs,
    checkFields parseFloat chk i fields = Ok fs ->
    fs = map TrimSpace fields /\
    forall k, k < List.length fields ->
      exists c, nth_error chk (i + k) = Some (Some c) /\
                call parseFloat c (TrimSpace (nth k fields "")) = true.
Proof.
  induction fields as [|f rest IH]; intros i fs H.
  - injection H as <-. split; [reflexivity | simpl; lia].
  - cbn [checkFields] in H.
    destruct (nth_error chk i) as [[c|]|] eqn:Hc; try discriminate.
    destruct (call parseFloat c (TrimSpace f)) eqn:Hcall; [|discriminate].
    destruct (checkFields parseFloat chk (S i) rest) as [fs'|e|] eqn:Hrest;
      try discriminate.
    injection H as <-. destruct (IH _ _ Hrest) as [-> Hall].
    split; [reflexivity|].
    intros [|k] Hk.
    + exists c. rewrite Nat.add_0_r. now split.
    + rewrite Nat.add_succ_r. apply Hall. simpl in Hk. lia.
Qed.

(** A line that passes all the checks gives the record of its trimmed
    fields. *)
Lemma ValidateLine_passes (t : Tsdata) (line : string) (tm : GoTime.Time) :
  linePasses parseFloat t line tm ->
  ValidateLine parseFloat t line
  = (set_lastTime t tm, Ok (mkData (map TrimSpace (Split line Delim)) tm)).
Proof.
  intros (Hcnt & Htm & Hcols).
  destruct (countsOk_fields _ _ Hcnt) as (f0 & rest & Hsplit & Hrest).
  rewrite (ValidateLine_counted _ _ _ Hcnt), Htm.
  unfold columnPasses in Hcols. unfold firstColumn.
  rewrite Hsplit in *. cbn [tl nth map] in *.
  rewrite checkFields_Ok; [reflexivity|].
  intros k Hk. apply (Hcols (S k)). simpl. lia.
Qed.

(** A record is only given for a line that passes all the checks. *)
Lemma ValidateLine_Ok_inv (t t' : Tsdata) (line : string) (d : Data) :
  ValidateLine parseFloat t line = (t', Ok d) ->
  linePasses parseFloat t line (Time d) /\
  Fields d = map TrimSpace (Split line Delim) /\
  t' = set_lastTime t (Time d).
Proof.
  unfold ValidateLine.
  destruct (Nat.ltb_spec (List.length (Split line Delim)) 2) as [|H2]; [discriminate|].
  destruct (Nat.eqb_spec (List.length (Split line Delim)) (List.length (Headers t)))
    as [Hn|]; [|discriminate].
  cbn [negb].
  destruct (GoTime.Parse (TrimSpace (nth 0 (Split line Delim) ""))) as [tm|] eqn:Htm;
    [|discriminate].
  destruct (checkFields parseFloat (checkers t) 1 (tl (Split line Delim)))
    as [fs|e|] eqn:Hloop; try discriminate.
  intros [= <- <-]. cbn [Time Fields].
  apply checkFields_Ok_inv in Hloop as [-> Hall].
  destruct (Split line Delim) as [|f0 rest] eqn:Hsplit; [simpl in H2; lia|].
  cbn [tl nth map] in *.
  split; [|now split].
  split; [split; [rewrite Hsplit; exact H2 | rewrite Hsplit; exact Hn]|].
  split; [unfold firstColumn; now rewrite Hsplit|].
  intros j Hj. unfold columnPasses. rewrite Hsplit in *.
  destruct j as [|k]; [lia|]. cbn [nth]. apply (Hall k). simpl in Hj. lia.
Qed.

(** X10: [ValidateLine] returns a record exactly for the lines that pass
    all the checks: two fields or more, as many as there are headers, a
    first field that parses as a time once trimmed, and every other field
    accepted, once trimmed, by the checker of its column; the record
    holds the trimmed fields and that time. *)
Theorem ValidateLine_Ok_iff (t : Tsdata) (line : string) (d : Data) :
  snd (ValidateLine parseFloat t line) = Ok d <->
  linePasses parseFloat t line (Time d) /\
  Fields d = map TrimSpace (Split line Delim).
Proof.
  split.
  - intros H. destruct (ValidateLine parseFloat t line) as [t' r] eqn:E.
    cbn [snd] in H. subst r.
    apply ValidateLine_Ok_inv in E as (H1 & H2 & _). now split.
  - intros [Hpass Hfields]. rewrite (ValidateLine_passes _ _ _ Hpass). cbn [snd].
    destruct d as [fs tm]. cbn [Fields Time] in *. now subst.
Qed.

(** X11: [ValidateLine] changes the receiver only when it returns a
    record, and then only the remembered time, which becomes the time of
    the record; an error it returns is one of the four line errors, never
    an error of the metadata phase. *)
Theorem ValidateLine_receiver_and_errors (t : Tsdata) (line : string) :
  match snd (ValidateLine parseFloat t line) with
  | Ok d => fst (ValidateLine parseFloat t line) = set_lastTime t (Time d)
  | Err e => fst (ValidateLine parseFloat t line) = t /\ metadataPhase e = false
  | Panic => fst (ValidateLine parseFloat t line) = t
  end.
Proof.
  unfold ValidateLine.
  destruct (Nat.ltb _ 2); [now split|].
  destruct (negb _); [now split|].
  destruct (GoTime.Parse _) as [tm|]; [|now split].
  destruct (checkFields parseFloat (checkers t) 1 (tl (Split line Delim)))
    as [fs|e|] eqn:Hloop; cbn [fst snd Time]; try reflexivity.
  split; [reflexivity|].
  apply checkFields_Err_inv in Hloop as (k & c & _ & -> & _). reflexivity.
Qed.

(** X12: the fields of a record are as many as the headers, each without
    delimiter and without white space at either end; joined again by the
    delimiter they make a line that [ValidateLine] accepts with the very
    same record. *)
Theorem ValidateLine_normal_form (t t' : Tsdata) (line : string) (d : Data) :
  ValidateLine parseFloat t line = (t', Ok d) ->
  List.length (Fields d) = List.length (Headers t) /\
  Forall (fun f => TrimSpace f = f /\ contains f TAB = false) (Fields d) /\
  ValidateLine parseFloat t (Join (Fields d) Delim) = (t', Ok d).
Proof.
  intros H. apply ValidateLine_Ok_inv in H as (Hpass & Hfields & ->).
  destruct Hpass as ((H2 & Hn) & Htm & Hcols).
  destruct d as [fs tm]. cbn [Fields Time] in *. subst fs.
  set (raw := Split line Delim) in *.
  assert (Hclean : Forall (fun f => TrimSpace f = f /\ contains f TAB = false)
                          (map TrimSpace raw)).
  { apply Forall_map. eapply Forall_impl; [|apply (TrimFacts.Split_fields_no_sep line TAB)].
    intros f Hf. split; [apply TrimFacts.TrimSpace_idempotent|].
    now apply TrimFacts.TrimSpace_contains. }
  assert (Hsplit : Split (Join (map TrimSpace raw) Delim) Delim = map TrimSpace raw).
  { apply StringFacts.Split_Join.
    - destruct raw; [simpl in H2; lia | discriminate].
    - eapply Forall_impl; [|exact Hclean]. now intros f [_ Hf]. }
  assert (Hnth : forall j, TrimSpace (nth j (map TrimSpace raw) "")
                           = TrimSpace (nth j raw "")).
  { intros j. change "" with (TrimSpace "") at 1.
    now rewrite map_nth, TrimFacts.TrimSpace_idempotent. }
  assert (Htwice : map TrimSpace (map TrimSpace raw) = map TrimSpace raw).
  { rewrite map_map. apply map_ext. intros f. apply TrimFacts.TrimSpace_idempotent. }
  split; [now rewrite List.length_map|]. split; [exact Hclean|].
  rewrite (ValidateLine_passes _ _ tm); [now rewrite Hsplit, Htwice|].
  split; [split; rewrite Hsplit, List.length_map; assumption|].
  split.
  - unfold firstColumn in *. now rewrite Hsplit, Hnth.
  - intros j Hj. rewrite Hsplit, List.length_map in Hj.
    destruct (Hcols j Hj) as (c & Hc & Hcall).
    exists c. split; [exact Hc|]. now rewrite Hsplit, Hnth.
Qed.

(** X13: [ValidateMetadata] does not look at [checkers]; metadata built
    without them passes validation all the same, and [ValidateLine] then
    panics, at the first data column, on every line whose field count
    and time are right. *)
Theorem ValidateLine_panics_without_checkers (t : Tsdata) :
  (forall chk, ValidateMetadata (set_checkers t chk) = ValidateMetadata t) /\
  (forall line tm,
     countsOk t line -> GoTime.Parse (firstColumn line) = Some tm ->
     ValidateLine parseFloat (set_checkers t []) line = (set_checkers t [], Panic)).
Proof.
  split; [reflexivity|].
  intros line tm Hcnt Htm.
  assert (Hcnt' : countsOk (set_checkers t []) line) by exact Hcnt.
  destruct (countsOk_fields _ _ Hcnt) as (f0 & rest & Hsplit & Hrest).
  rewrite (ValidateLine_counted _ _ _ Hcnt'), Htm, Hsplit. cbn [tl].
  destruct rest as [|f1 rest']; [congruence | reflexivity].
Qed.

End LineMore.

(* ------------------------------------------------------------------ *)
(** ** More on header parsing *)

Module HeaderMore.

Import StringFacts TrimFacts RoundTrip HeaderFacts.

Lemma trailingSpace_no_LF (w : string) :
  trailingSpace w = true -> contains w LF = false.
Proof.
  induction w as [|a r IH]; [reflexivity|].
  cbn [trailingSpace contains]. intros H. apply andb_true_iff in H as [Ha Hr].
  rewrite (IH Hr), orb_false_r.
  destruct (Ascii.eqb_spec a LF) as [->|]; [discriminate Ha | reflexivity].
Qed.

(** The lines of a text made of lines without newline, the last of which
    is not empty. *)
Lemma headerLinesOf_Join (lines : list string) :
  lines <> [] ->
  Forall (fun l => contains l LF = false) lines ->
  last lines "" <> "" ->
  headerLinesOf (Join lines LF) = lines.
Proof.
  intros Hne Hall Hlast. unfold headerLinesOf.
  rewrite TrimSuffix_Join by assumption. now apply Split_Join.
Qed.

Lemma trimLines_cons (x : string) (xs : list string) :
  trimLines (x :: xs) = TrimRight x lineCutset :: trimLines xs.
Proof. reflexivity. Qed.

Lemma padded_facts (lines padded : list string) :
  Forall2 (fun l p => exists w, p = l ++ w /\ trailingSpace w = true) lines padded ->
  Forall (fun l => contains l LF = false) lines ->
  last lines "" <> "" ->
  trimLines padded = trimLines lines /\
  Forall (fun l => contains l LF = false) padded /\
  last padded "" <> "" /\
  List.length padded = List.length lines.
Proof.
  intros Hpad. induction Hpad as [|l p lines' padded' (w & -> & Hw) Hrest IH];
    intros Hall Hlast; [now repeat split|].
  inversion Hall as [|? ? Hl Hall']; subst.
  assert (Hhead : contains (l ++ w) LF = false)
    by (rewrite contains_append, Hl; now apply trailingSpace_no_LF).
  destruct lines' as [|l' lines''].
  - inversion Hrest; subst. cbn [trimLines map last List.length] in *.
    rewrite TrimRight_trailing by assumption.
    repeat split; try reflexivity; [now repeat constructor|].
    destruct l; [congruence | discriminate].
  - destruct IH as (IH1 & IH2 & IH3 & IH4); [assumption | exact Hlast|].
    inversion Hrest as [|? p' ? padded'' ? ?]; subst.
    rewrite !(trimLines_cons _ (_ :: _)), TrimRight_trailing by assumption.
    rewrite IH1. repeat split.
    + now constructor.
    + exact IH3.
    + cbn [List.length] in *. now rewrite IH4.
Qed.

Lemma assignHeader_again (t : Tsdata) (ls : list string) :
  assignHeader (assignHeader t ls) ls = assignHeader t ls.
Proof.
  unfold assignHeader.
  repeat match goal with |- context [if ?b then _ else _] => destruct b end;
    reflexivity.
Qed.

Lemma ValidateMetadata_same (a b : Tsdata) :
  sameMetadata a b -> ValidateMetadata a = ValidateMetadata b.
Proof.
  destruct a, b. unfold sameMetadata.
  cbn [FileType Project FileDescription Comments Types Units Headers].
  intros (-> & -> & _ & -> & -> & -> & ->). reflexivity.
Qed.

(** With the four column lines not empty, [ParseHeader] assigns every
    field it validates. *)
Lemma assignHeader_receiver (t1 t2 : Tsdata) (ls : list string) :
  (forall i, 3 <= i < 7 -> nth i ls "" <> "") ->
  sameMetadata (assignHeader t1 ls) (assignHeader t2 ls) /\
  checkers (assignHeader t1 ls) = checkers (assignHeader t2 ls).
Proof.
  intros Hne. unfold assignHeader.
  assert (H3 := Hne 3 ltac:(lia)). assert (H4 := Hne 4 ltac:(lia)).
  assert (H5 := Hne 5 ltac:(lia)). assert (H6 := Hne 6 ltac:(lia)).
  apply String.eqb_neq in H3, H4, H5, H6. rewrite H3, H4, H5, H6.
  split; [now repeat split | reflexivity].
Qed.

End HeaderMore.

(** X14: white space at the end of header lines does not matter: a
    header whose lines end with further spaces, tabs or carriage returns
    (as in a file with CRLF line ends) is parsed as the header without
    them, given that the lines hold no newline and the last is not
    empty. *)
Theorem ParseHeader_trailing_space (t : Tsdata) (lines padded : list string) :
  Forall2 (fun l p => exists w, p = l ++ w /\ trailingSpace w = true) lines padded ->
  Forall (fun l => contains l LF = false) lines ->
  last lines "" <> "" ->
  ParseHeader t (Join padded LF) = ParseHeader t (Join lines LF).
Proof.
  intros Hpad Hall Hlast.
  destruct (HeaderMore.padded_facts _ _ Hpad Hall Hlast) as (Htrim & Hall' & Hlast' & Hlen).
  assert (Hne : lines <> []) by (destruct lines; [simpl in Hlast; congruence | discriminate]).
  assert (Hne' : padded <> [])
    by (destruct padded; [simpl in Hlast'; congruence | discriminate]).
  unfold ParseHeader.
  rewrite (HeaderMore.headerLinesOf_Join lines Hne Hall Hlast).
  rewrite (HeaderMore.headerLinesOf_Join padded Hne' Hall' Hlast').
  now rewrite Hlen, Htrim.
Qed.

(** X15: parsing the same header again into the receiver of the first
    parse changes nothing: the receiver and the error are those of the
    first parse. *)
Theorem ParseHeader_twice (t : Tsdata) (header : string) :
  ParseHeader (fst (ParseHeader t header)) header = ParseHeader t header.
Proof.
  unfold ParseHeader.
  destruct (negb _) eqn:E; cbn [fst]; rewrite ?E; [reflexivity|].
  now rewrite HeaderMore.assignHeader_again.
Qed.

(** X16: when the header has seven lines and its four column lines are
    not empty once trimmed, what [ParseHeader] returns does not depend
    on what the receiver held: the error, the metadata fields and the
    checkers are the same for any two receivers. *)
Theorem ParseHeader_receiver_independent (t1 t2 : Tsdata) (header : string) :
  List.length (headerLinesOf header) = 7 ->
  (forall i, 3 <= i < 7 -> nth i (trimLines (headerLinesOf header)) "" <> "") ->
  snd (ParseHeader t1 header) = snd (ParseHeader t2 header) /\
  sameMetadata (fst (ParseHeader t1 header)) (fst (ParseHeader t2 header)) /\
  checkers (fst (ParseHeader t1 header)) = checkers (fst (ParseHeader t2 header)).
Proof.
  intros Hcount Hne. unfold ParseHeader. rewrite Hcount. cbn [HeaderSize Nat.eqb negb fst snd].
  destruct (HeaderMore.assignHeader_receiver t1 t2 _ Hne) as [Hsame Hchk].
  split; [now apply HeaderMore.ValidateMetadata_same | now split].
Qed.

(** X21: [ValidateMetadata] returns no error exactly for the metadata
    that keeps the invariants: a file type and a project that are not
    empty; comments that are none or as many as the types, none of them
    empty; types that are keys of the table; as many units and headers as
    types, none of them empty; [time] as first header; and two columns
    or more. *)
Theorem ValidateMetadata_accepts_iff (t : Tsdata) :
  ValidateMetadata t = None <-> MetadataValid t.
Proof. apply MetadataFacts.ValidateMetadata_None_iff. Qed.

(* ------------------------------------------------------------------ *)
(** ** The command line tool *)

Module ScanFacts.

Import StringFacts HeaderFacts.

Lemma nth_nil (i : nat) : nth i (@nil string) "" = "".
Proof. now destruct i. Qed.

Lemma repeat_empty (k start : nat) :
  repeat EmptyString k = map (fun i => nth i (@nil string) "") (seq start k).
Proof.
  revert start. induction k as [|k IH]; intros start; [reflexivity|].
  cbn [repeat seq map]. now rewrite nth_nil, <- IH.
Qed.

(** [readHeader] returns an error exactly when the scanner fails before
    it has delivered the lines asked for. *)
Lemma scanHeaderLines_inl (n : nat) (atEnd : option ioError) (err : ioError) :
  forall tokens,
    scanHeaderLines n tokens atEnd = inl err <->
    List.length tokens < n /\ atEnd = Some err.
Proof.
  induction n as [|n IH]; intros tokens; cbn [scanHeaderLines].
  - split; [discriminate | intros [H _]; lia].
  - destruct tokens as [|[line e] rest].
    + destruct atEnd as [e0|].
      * split; [intros [= ->]; split; [cbn; lia | reflexivity]
               | intros [_ [= ->]]; reflexivity].
      * split; [discriminate | intros [_ H]; discriminate H].
    + specialize (IH rest). cbn [List.length].
      destruct (scanHeaderLines n rest atEnd) as [e1|[hs toks]].
      * split.
        -- intros [= ->]. destruct (proj1 IH eq_refl) as [Hlen Hend].
           split; [lia | exact Hend].
        -- intros [Hlen Hend]. apply IH. split; [lia | exact Hend].
      * split; [discriminate|]. intros [Hlen Hend].
        assert (H : @inr ioError _ (hs, toks) = inl err)
          by (apply IH; split; [lia | exact Hend]).
        discriminate H.
Qed.

(** The lines [readHeader] joins: the first of the scanner, and empty
    strings once it has run out; the scanner is left after them. *)
Lemma scanHeaderLines_inr (n : nat) (atEnd : option ioError) :
  forall tokens headerLines tokens',
    scanHeaderLines n tokens atEnd = inr (headerLines, tokens') ->
    headerLines = map (fun i => nth i (map fst tokens) "") (seq 0 n) /\
    tokens' = skipn n tokens.
Proof.
  induction n as [|n IH]; intros tokens headerLines tokens'; cbn [scanHeaderLines].
  - intros [= <- <-]. now split.
  - destruct tokens as [|[line e] rest].
    + destruct atEnd; [discriminate|]. intros [= <- <-].
      split; [exact (repeat_empty (S n) 0) | reflexivity].
    + destruct (scanHeaderLines n rest atEnd) as [e1|[hs toks]] eqn:E;
        [discriminate|].
      intros [= <- <-]. destruct (IH rest hs toks E) as [-> ->].
      split; [|reflexivity].
      cbn [seq map nth fst]. now rewrite <- seq_shift, map_map.
Qed.

Lemma readHeader_inl (scanner : Scanner) (err : ioError) :
  readHeader scanner = inl err <->
  List.length (tokens scanner) < 7 /\ atEnd scanner = Some err.
Proof.
  unfold readHeader, HeaderSize.
  rewrite <- (scanHeaderLines_inl 7 (atEnd scanner) err (tokens scanner)).
  destruct (scanHeaderLines 7 (tokens scanner) (atEnd scanner)) as [e|[hs toks]].
  - split; intros [= ->]; reflexivity.
  - split; discriminate.
Qed.

Lemma readHeader_inr (scanner rest : Scanner) (header : string) :
  readHeader scanner = inr (header, rest) ->
  header = Join (map (fun i => nth i (linesOf scanner) "") (seq 0 7)) LF /\
  rest = mkScanner (skipn 7 (tokens scanner)) (atEnd scanner).
Proof.
  unfold readHeader, HeaderSize, linesOf.
  destruct (scanHeaderLines 7 (tokens scanner) (atEnd scanner)) as [e|[hs toks]] eqn:E;
    [discriminate|].
  intros [= <- <-]. now destruct (scanHeaderLines_inr 7 _ _ _ _ E) as [-> ->].
Qed.

Lemma nth_no_LF (scanner : list string) (i : nat) :
  Forall (fun l => contains l LF = false) scanner ->
  contains (nth i scanner "") LF = false.
Proof. intros H. now apply nth_Forall. Qed.

Lemma Forall_skipn {A : Type} (P : A -> Prop) (n : nat) :
  forall l, Forall P l -> Forall P (skipn n l).
Proof.
  induction n as [|n IH]; intros l H; [exact H|].
  destruct H as [|x l Hx H]; [constructor|]. now apply IH.
Qed.

End ScanFacts.

(** X17: [readHeader] returns the error of the scanner exactly when the
    scanner fails before it has delivered seven lines.  Otherwise it
    takes seven lines from the scanner, fewer when the input ends, and
    joins seven entries, the missing ones empty.  When the seventh line
    is missing or empty, [ParseHeader] is handed a text that ends with a
    newline and reports a header of six lines; otherwise it works on the
    first seven lines as they were scanned and never reports a wrong line
    count. *)
Theorem readHeader_ParseHeader (t : Tsdata) (scanner : Scanner) :
  Forall (fun l => contains l LF = false) (linesOf scanner) ->
  (forall err, readHeader scanner = inl err <->
               List.length (linesOf scanner) < 7 /\ atEnd scanner = Some err) /\
  (7 <= List.length (linesOf scanner) \/ atEnd scanner = None ->
   exists header,
     readHeader scanner
     = inr (header, mkScanner (skipn 7 (tokens scanner)) (atEnd scanner)) /\
     (nth 6 (linesOf scanner) "" = "" ->
      ParseHeader t header = (t, Some (HeaderShapeError 7 6))) /\
     (nth 6 (linesOf scanner) "" <> "" ->
      Split (TrimSuffix header nl) LF = firstn 7 (linesOf scanner) /\
      forall e, snd (ParseHeader t header) = Some e ->
                classOf e <> KHeaderShapeError)).
Proof.
  intros Hall. split.
  { intros err. unfold linesOf. rewrite List.length_map.
    apply ScanFacts.readHeader_inl. }
  intros Hok.
  destruct (readHeader scanner) as [err|[header rest]] eqn:E.
  { apply ScanFacts.readHeader_inl in E as [Hlen Hend].
    unfold linesOf in Hok. rewrite List.length_map in Hok.
    destruct Hok as [Hok|Hok]; [lia | congruence]. }
  destruct (ScanFacts.readHeader_inr _ _ _ E) as [-> ->].
  eexists. split; [reflexivity|].
  set (lines := linesOf scanner) in *. cbn [seq map].
  pose proof (fun i => ScanFacts.nth_no_LF lines i Hall) as Hline.
  split.
  - intros H6. rewrite H6. unfold ParseHeader, headerLinesOf.
    set (l0 := nth 0 lines ""). set (l1 := nth 1 lines "").
    set (l2 := nth 2 lines ""). set (l3 := nth 3 lines "").
    set (l4 := nth 4 lines ""). set (l5 := nth 5 lines "").
    assert (Htext : Join [l0; l1; l2; l3; l4; l5; ""] LF
                    = Join [l0; l1; l2; l3; l4; l5] LF ++ nl).
    { cbn [Join]. unfold nl.
      repeat (rewrite ?StringFacts.append_assoc; cbn [append]). reflexivity. }
    rewrite Htext, HeaderFacts.TrimSuffix_strip.
    rewrite StringFacts.Split_Join; [reflexivity | discriminate|].
    repeat constructor; apply Hline.
  - intros H6.
    assert (Hlines : headerLinesOf
                       (Join [nth 0 lines ""; nth 1 lines ""; nth 2 lines "";
                              nth 3 lines ""; nth 4 lines ""; nth 5 lines "";
                              nth 6 lines ""] LF) = firstn 7 lines).
    { rewrite HeaderMore.headerLinesOf_Join;
        [| discriminate | repeat constructor; apply Hline | exact H6].
      destruct lines as [|a0 [|a1 [|a2 [|a3 [|a4 [|a5 [|a6 rest]]]]]]];
        try (now destruct H6); reflexivity. }
    split; [exact Hlines|].
    intros e. unfold ParseHeader. rewrite Hlines.
    assert (Hlen : List.length (firstn 7 lines) = 7).
    { destruct lines as [|a0 [|a1 [|a2 [|a3 [|a4 [|a5 [|a6 rest]]]]]]];
        try (now destruct H6); reflexivity. }
    rewrite Hlen. cbn [HeaderSize Nat.eqb negb snd].
    intros He. now apply MetadataFacts.ValidateMetadata_phase in He.
Qed.

Section CommandFacts.

Variable parseFloat : string -> bool.

Lemma differsInTime_refl (ts : Tsdata) : differsInTime ts ts.
Proof. exists (lastTime ts). now destruct ts. Qed.

(** [ValidateLine] gives the same outcome whatever time is remembered,
    and leaves a receiver that differs in this time only. *)
Lemma ValidateLine_differsInTime (ts' ts : Tsdata) (line : string) :
  differsInTime ts' ts ->
  snd (ValidateLine parseFloat ts' line) = snd (ValidateLine parseFloat ts line) /\
  differsInTime (fst (ValidateLine parseFloat ts' line)) ts.
Proof.
  intros [tm ->]. split; [apply ValidateLine_lastTime|].
  destruct (ValidateLine_receiver parseFloat (set_lastTime ts tm) line) as [-> | [tm' ->]].
  - now exists tm.
  - now exists tm'.
Qed.

Lemma ParseHeader_checkersSafe (t0 t : Tsdata) (header : string) :
  ParseHeader t0 header = (t, None) -> checkersSafe t.
Proof.
  intros H. apply ParseHeader_None in H as [Ht Hvalid].
  assert (Hchk : checkers t = map typecheckers (Types t))
    by (rewrite Ht; apply assignHeader_checkers).
  apply MetadataFacts.ValidateMetadata_None_iff in Hvalid.
  destruct Hvalid as (_ & _ & _ & _ & Hty & _ & _ & Hhd & _).
  split.
  - now rewrite Hchk, List.length_map.
  - rewrite Hchk. apply Forall_map.
    eapply Forall_impl; [|exact Hty].
    intros ty Hk. destruct (typecheckers ty) as [f|] eqn:E; [now exists f | congruence].
Qed.

(** With safe checkers a line is accepted or refused with an error. *)
Lemma safe_outcome (ts : Tsdata) (line : string) :
  checkersSafe ts ->
  (exists d, snd (ValidateLine parseFloat ts line) = Ok d /\ accepts parseFloat ts line = true) \/
  (exists e, snd (ValidateLine parseFloat ts line) = Err e /\ accepts parseFloat ts line = false).
Proof.
  intros Hsafe. pose proof (checkersSafe_no_panic parseFloat ts line Hsafe) as Hnp.
  unfold accepts. destruct (snd (ValidateLine parseFloat ts line)) as [d|e|].
  - left. now exists d.
  - right. now exists e.
  - congruence.
Qed.

(** The loop of [validate], in both modes. *)
Lemma validateLoop_spec (ts : Tsdata) (atEnd : option ioError)
      (tokens : list (string * option ioError)) :
  checkersSafe ts ->
  forall ts' i sawError log stringent,
    differsInTime ts' ts ->
    validateLoop parseFloat ts' i sawError log stringent tokens atEnd
    = Some (sawError || negb (forallb (accepts parseFloat ts) (map fst tokens)),
            (log ++ (if stringent
                     then firstn 1 (failureLog parseFloat ts i (map fst tokens))
                     else failureLog parseFloat ts i (map fst tokens)))%list,
            if stringent then errAtStop parseFloat ts tokens atEnd else atEnd).
Proof.
  intros Hsafe. induction tokens as [|[line err] rest IH];
    intros ts' i sawError log stringent Hdiff.
  - cbn [validateLoop map forallb failureLog negb firstn errAtStop].
    rewrite orb_false_r. now destruct stringent; rewrite app_nil_r.
  - cbn [validateLoop map fst forallb failureLog errAtStop].
    destruct (ValidateLine_differsInTime ts' ts line Hdiff) as [Hsnd Hfst].
    destruct (ValidateLine parseFloat ts' line) as [ts'' r] eqn:E.
    cbn [fst snd] in Hsnd, Hfst.
    destruct (safe_outcome ts line Hsafe) as [(d & Hd & Ha) | (e & He & Ha)];
      rewrite Ha.
    + rewrite Hd in *. subst r. cbn [andb]. apply IH. exact Hfst.
    + rewrite He in *. subst r. cbn [andb negb]. rewrite orb_true_r.
      destruct stringent.
      * reflexivity.
      * rewrite (IH ts'' (S i) true _ false Hfst). cbn [orb].
        now rewrite <- app_assoc.
Qed.

(** The loop of [csv] never panics. *)
Lemma csvLoop_total (w : World) (ts : Tsdata)
      (tokens : list (string * option ioError)) :
  checkersSafe ts ->
  forall ts' k log out,
    differsInTime ts' ts ->
    exists r, csvLoop parseFloat w ts' k log out tokens = Some r.
Proof.
  intros Hsafe. induction tokens as [|[line err] rest IH];
    intros ts' k log out Hdiff.
  - eexists. reflexivity.
  - cbn [csvLoop].
    destruct (ValidateLine_differsInTime ts' ts line Hdiff) as [Hsnd Hfst].
    destruct (ValidateLine parseFloat ts' line) as [ts'' r] eqn:E.
    cbn [fst snd] in Hsnd, Hfst.
    destruct (safe_outcome ts line Hsafe) as [(d & Hd & Ha) | (e & He & Ha)].
    + rewrite Hd in Hsnd. subst r.
      destruct (writeString w k); [eexists; reflexivity|]. now apply IH.
    + rewrite He in Hsnd. subst r. now apply IH.
Qed.

(** The loop of [csv] when no write fails. *)
Lemma csvLoop_spec (w : World) (ts : Tsdata)
      (tokens : list (string * option ioError)) :
  checkersSafe ts ->
  (forall k, writeString w k = None) ->
  forall ts' k log out,
    differsInTime ts' ts ->
    csvLoop parseFloat w ts' k log out tokens
    = Some (None,
            (log ++ map logError (refusals parseFloat ts (map fst tokens)))%list,
            (out ++ rowsOf parseFloat ts (map fst tokens))%list).
Proof.
  intros Hsafe Hw. unfold rowsOf. induction tokens as [|[line err] rest IH];
    intros ts' k log out Hdiff.
  - cbn [csvLoop refusals filter map]. now rewrite !app_nil_r.
  - cbn [csvLoop map fst refusals filter].
    destruct (ValidateLine_differsInTime ts' ts line Hdiff) as [Hsnd Hfst].
    destruct (ValidateLine parseFloat ts' line) as [ts'' r] eqn:E.
    cbn [fst snd] in Hsnd, Hfst.
    destruct (safe_outcome ts line Hsafe) as [(d & Hd & Ha) | (e & He & Ha)];
      rewrite Ha.
    + rewrite Hd in *. subst r. rewrite Hw.
      rewrite (IH ts'' _ _ _ Hfst). cbn [map].
      assert (Hfields : Fields d = map TrimSpace (Split line Delim)).
      { destruct (ValidateLine parseFloat ts line) as [t1 r1] eqn:E1.
        cbn [snd] in Hd. subst r1.
        now apply ValidateLine_Ok_inv in E1 as (_ & H & _). }
      now rewrite Hfields, <- app_assoc.
    + rewrite He in *. subst r.
      rewrite (IH ts'' _ _ _ Hfst). cbn [map]. now rewrite <- app_assoc.
Qed.

Lemma refusals_count (ts : Tsdata) (scanner : list string) :
  checkersSafe ts ->
  List.length (refusals parseFloat ts scanner)
  + List.length (filter (accepts parseFloat ts) scanner)
  = List.length scanner.
Proof.
  intros Hsafe. induction scanner as [|line rest IH]; [reflexivity|].
  cbn [refusals filter].
  destruct (safe_outcome ts line Hsafe) as [(d & -> & ->) | (e & -> & ->)];
    cbn [List.length]; lia.
Qed.

(** A scanner that reports no error reports none where the loop stops. *)
Lemma errAtStop_quiet (ts : Tsdata) (tokens : list (string * option ioError)) :
  Forall (fun tok => snd tok = None) tokens ->
  errAtStop parseFloat ts tokens None = None.
Proof.
  induction 1 as [|[line err] rest Herr _ IH]; [reflexivity|].
  cbn [errAtStop]. cbn [snd] in Herr. subst err.
  now destruct (accepts parseFloat ts line).
Qed.

(** X18: when the scanner reports no error, [validate] returns the same
    error with and without [stringent], and does not panic; the
    stringent run logs the first entry of the log of the other run and
    stops. *)
Theorem validate_stringent_agrees (w : World) (infile : string) :
  (forall scanner, openInput w infile = inr scanner -> noScanError scanner) ->
  exists err log,
    validate parseFloat w infile false = Returned err log [] /\
    validate parseFloat w infile true = Returned err (firstn 1 log) [].
Proof.
  intros Hquiet. unfold validate.
  destruct (openInput w infile) as [err|scanner]; [now exists (Some (IOError err)), []|].
  destruct (Hquiet scanner eq_refl) as [Hend Htok].
  destruct (readHeader scanner) as [err|[header rest]] eqn:Eh;
    [now exists (Some (IOError err)), []|].
  destruct (ScanFacts.readHeader_inr _ _ _ Eh) as [_ ->]. cbn [tokens atEnd].
  destruct (ParseHeader emptyTsdata header) as [ts [e|]] eqn:E.
  - now exists (Some (HeaderError e)), [].
  - pose proof (ParseHeader_checkersSafe _ _ _ E) as Hsafe.
    rewrite !(validateLoop_spec ts _ _ Hsafe) by apply differsInTime_refl.
    rewrite Hend, errAtStop_quiet by now apply ScanFacts.Forall_skipn.
    cbn [orb app]. eexists _, _. split; reflexivity.
Qed.

(** X19: [validate] passes on the error of opening the input, of
    reading the header and of [ParseHeader].  When the header parses it
    does not panic; it returns the error the scanner reports when the
    loop ends: at the end of the input, or, with [stringent], after the
    first line refused.  When the scanner reports none, it returns no
    error exactly when [ValidateLine] accepts every data line, and the
    failed-validation error otherwise.  Without [stringent] the log
    holds one entry, with the line number counted from the top of the
    file, for each line refused; with [stringent], the first of them. *)
Theorem validate_verdict (w : World) (infile : string) (stringent : bool) :
  match openInput w infile with
  | inl err =>
      validate parseFloat w infile stringent = Returned (Some (IOError err)) [] []
  | inr scanner =>
      match readHeader scanner with
      | inl err =>
          validate parseFloat w infile stringent
          = Returned (Some (IOError err)) [] []
      | inr (header, rest) =>
          match ParseHeader emptyTsdata header with
          | (_, Some e) =>
              validate parseFloat w infile stringent
              = Returned (Some (HeaderError e)) [] []
          | (ts, None) =>
              let data := linesOf rest in
              let log := failureLog parseFloat ts 7 data in
              let scanErr :=
                if stringent
                then errAtStop parseFloat ts (tokens rest) (atEnd rest)
                else atEnd rest in
              validate parseFloat w infile stringent
              = Returned
                  (match scanErr with
                   | Some err => Some (IOError err)
                   | None =>
                       if forallb (accepts parseFloat ts) data
                       then None else Some (FailedValidation infile)
                   end)
                  (if stringent then firstn 1 log else log) []
          end
      end
  end.
Proof.
  unfold validate.
  destruct (openInput w infile) as [err|scanner]; [reflexivity|].
  destruct (readHeader scanner) as [err|[header rest]]; [reflexivity|].
  destruct (ParseHeader emptyTsdata header) as [ts [e|]] eqn:E; [reflexivity|].
  pose proof (ParseHeader_checkersSafe _ _ _ E) as Hsafe.
  rewrite (validateLoop_spec ts _ _ Hsafe) by apply differsInTime_refl.
  cbn [orb app HeaderSize]. unfold linesOf.
  destruct (if stringent then _ else _) as [err|]; [reflexivity|].
  now destruct (forallb _ _).
Qed.

(** X20: [csv] never panics, and never returns the failed-validation
    error.  When the input opens, the header is read and parses, the
    output is created, no write fails and the scanner reports no error
    at the end of the input (and standard output, when it is the output,
    closes), [csv] returns no error; it hands to the writer the headers
    joined by commas, then, in the order of the file, one row for each
    data line that [ValidateLine] accepts, made of the trimmed fields of
    the line joined by commas; every other line gives one entry in the
    log, so that each data line is either written or logged. *)
Theorem csv_rows (w : World) (infile outfile : string) :
  (exists err log out,
     csv parseFloat w infile outfile = Returned err log out /\
     forall f, err <> Some (FailedValidation f)) /\
  (forall scanner rest header ts,
     openInput w infile = inr scanner ->
     readHeader scanner = inr (header, rest) ->
     ParseHeader emptyTsdata header = (ts, None) ->
     (outfile <> "-" -> create w outfile = None) ->
     (forall k, writeString w k = None) ->
     atEnd rest = None ->
     (outfile = "-" -> closeStdout w = None) ->
     let data := linesOf rest in
     exists log,
       csv parseFloat w infile outfile
       = Returned None log (csvRow (Headers ts) :: rowsOf parseFloat ts data) /\
       log = map logError (refusals parseFloat ts data) /\
       List.length log + List.length (filter (accepts parseFloat ts) data)
       = List.length data).
Proof.
  split.
  - unfold csv.
    destruct (openInput w infile) as [err|scanner];
      [eexists _, _, _; split; [reflexivity | discriminate]|].
    destruct (readHeader scanner) as [err|[header rest]];
      [eexists _, _, _; split; [reflexivity | discriminate]|].
    destruct (ParseHeader emptyTsdata header) as [ts [e|]] eqn:E;
      [eexists _, _, _; split; [reflexivity | discriminate]|].
    pose proof (ParseHeader_checkersSafe _ _ _ E) as Hsafe.
    destruct (if String.eqb outfile "-" then None else create w outfile);
      [eexists _, _, _; split; [reflexivity | discriminate]|].
    destruct (writeString w 0);
      [eexists _, _, _; split; [reflexivity | discriminate]|].
    destruct (csvLoop_total w ts (tokens rest) Hsafe ts 1 [] [csvRow (Headers ts)]
                            (differsInTime_refl ts)) as [[[werr log] out] ->].
    destruct werr; [eexists _, _, _; split; [reflexivity | discriminate]|].
    destruct (atEnd rest); [eexists _, _, _; split; [reflexivity | discriminate]|].
    destruct (String.eqb outfile "-");
      [destruct (closeStdout w)|];
      eexists _, _, _; (split; [reflexivity | discriminate]).
  - intros scanner rest header ts Hopen Hread E Hcreate Hw Hend Hclose data.
    subst data. unfold csv. rewrite Hopen, Hread, E.
    pose proof (ParseHeader_checkersSafe _ _ _ E) as Hsafe.
    assert (Hc : (if String.eqb outfile "-" then None else create w outfile) = None).
    { destruct (String.eqb_spec outfile "-"); [reflexivity | now apply Hcreate]. }
    rewrite Hc, Hw.
    rewrite (csvLoop_spec w ts _ Hsafe Hw) by apply differsInTime_refl.
    rewrite Hend. cbn [app].
    assert (Hout : (if String.eqb outfile "-"
                    then match closeStdout w with
                         | Some err =>
                             Returned (Some (IOError err))
                               (map logError (refusals parseFloat ts (map fst (tokens rest))))
                               (csvRow (Headers ts)
                                :: rowsOf parseFloat ts (map fst (tokens rest)))
                         | None =>
                             Returned None
                               (map logError (refusals parseFloat ts (map fst (tokens rest))))
                               (csvRow (Headers ts)
                                :: rowsOf parseFloat ts (map fst (tokens rest)))
                         end
                    else Returned None
                           (map logError (refusals parseFloat ts (map fst (tokens rest))))
                           (csvRow (Headers ts)
                            :: rowsOf parseFloat ts (map fst (tokens rest))))
                   = Returned None
                       (map logError (refusals parseFloat ts (map fst (tokens rest))))
                       (csvRow (Headers ts)
                        :: rowsOf parseFloat ts (map fst (tokens rest)))).
    { destruct (String.eqb_spec outfile "-") as [Ho|Ho]; [|reflexivity].
      now rewrite (Hclose Ho). }
    rewrite Hout. unfold linesOf.
    eexists. split; [reflexivity|]. split; [reflexivity|].
    rewrite List.length_map. now apply refusals_count.
Qed.

End CommandFacts.

(* ------------------------------------------------------------------ *)
(** ** The further properties at examples *)

(** The empty string and the checkers, with the stand-in for
    [strconv.ParseFloat]. *)
Lemma only_checkText_accepts_empty_example :
  decimalNumeral "" = false /\
  (call decimalNumeral CheckFloat "" = true <-> CheckFloat = CheckText).
Proof.
  split; [reflexivity|].
  apply (only_checkText_accepts_empty decimalNumeral CheckFloat). reflexivity.
Defined.

(** A negative numeral of three digits is an integer. *)
Lemma checkInteger_minus_100 : checkInteger "-100" = true.
Proof.
  apply (proj2 checkInteger_numerals "-" "100").
  - right. right. reflexivity.
  - discriminate.
  - reflexivity.
  - vm_compute. lia.
Defined.

(** The header of the README metadata has its seven lines. *)
Lemma Header_seven_lines_readme :
  noNewlines readmeMetadata = true /\
  Split (Header readmeMetadata) LF = headerLines readmeMetadata.
Proof.
  split; [reflexivity|].
  apply (proj1 (Header_seven_lines readmeMetadata eq_refl)).
Defined.

(** Metadata without comments: the metadata that comes back, with [NA]
    comments, has the same header. *)
Lemma Header_ParseHeader_fixed_point_example :
  ValidateMetadata (set_Comments (twoColumns "float") []) = None /\
  cleanMetadata (set_Comments (twoColumns "float") []) = true /\
  Header (fst (ParseHeader emptyTsdata
                           (Header (set_Comments (twoColumns "float") []))))
  = Header (set_Comments (twoColumns "float") []).
Proof.
  split; [reflexivity|]. split; [reflexivity|].
  apply (proj1 (Header_ParseHeader_fixed_point
                  emptyTsdata (set_Comments (twoColumns "float") [])
                  eq_refl eq_refl)).
Defined.

(** The header of the README comes back as the README metadata. *)
Lemma ParseHeader_then_round_trip_readme :
  ParseHeader emptyTsdata (Header readmeMetadata) = (readmeMetadata, None) /\
  roundTrips (twoColumns "text") readmeMetadata.
Proof.
  assert (H : ParseHeader emptyTsdata (Header readmeMetadata) = (readmeMetadata, None))
    by reflexivity.
  split; [exact H|].
  apply (ParseHeader_then_round_trip (Header readmeMetadata) readmeMetadata H).
  intros i Hi.
  destruct i as [|[|[|i]]]; [reflexivity | reflexivity | reflexivity | lia].
Defined.

(** A line with white space around its fields, and the line of its
    record. *)
Lemma ValidateLine_normal_form_example :
  ValidateLine decimalNumeral (twoColumns "text")
               (lineOf ["  2017-05-06T19:52:57.601Z "; " foo "])
  = (set_lastTime (twoColumns "text") exampleTime,
     Ok (mkData ["2017-05-06T19:52:57.601Z"; "foo"] exampleTime)) /\
  ValidateLine decimalNumeral (twoColumns "text")
               (lineOf ["2017-05-06T19:52:57.601Z"; "foo"])
  = (set_lastTime (twoColumns "text") exampleTime,
     Ok (mkData ["2017-05-06T19:52:57.601Z"; "foo"] exampleTime)).
Proof.
  assert (H : ValidateLine decimalNumeral (twoColumns "text")
                (lineOf ["  2017-05-06T19:52:57.601Z "; " foo "])
              = (set_lastTime (twoColumns "text") exampleTime,
                 Ok (mkData ["2017-05-06T19:52:57.601Z"; "foo"] exampleTime)))
    by reflexivity.
  split; [exact H|].
  exact (proj2 (proj2 (ValidateLine_normal_form decimalNumeral _ _ _ _ H))).
Defined.

(** The metadata of the examples, built without checkers. *)
Lemma ValidateLine_panics_example :
  ValidateMetadata (set_checkers (twoColumns "float") []) = None /\
  ValidateLine decimalNumeral (set_checkers (twoColumns "float") [])
               (lineOf ["2017-05-06T19:52:57.601Z"; "6.0"])
  = (set_checkers (twoColumns "float") [], Panic).
Proof.
  split; [reflexivity|].
  apply (proj2 (ValidateLine_panics_without_checkers decimalNumeral (twoColumns "float"))
               (lineOf ["2017-05-06T19:52:57.601Z"; "6.0"]) exampleTime).
  - split; [vm_compute; lia | reflexivity].
  - reflexivity.
Defined.

(** A header with CRLF line ends. *)
Lemma ParseHeader_CRLF_example :
  ParseHeader emptyTsdata (Join exampleCRLF LF)
  = ParseHeader emptyTsdata (Join (headerLines (twoColumns "float")) LF).
Proof.
  apply (ParseHeader_trailing_space emptyTsdata
           (headerLines (twoColumns "float")) exampleCRLF).
  - unfold exampleCRLF, headerLines. cbn [map].
    repeat (constructor; [exists (String CR EmptyString); split; reflexivity|]).
    constructor.
  - repeat constructor.
  - vm_compute. discriminate.
Defined.

(** The README header parsed into two receivers. *)
Lemma ParseHeader_receiver_independent_example :
  snd (ParseHeader emptyTsdata (Header readmeMetadata))
  = snd (ParseHeader (twoColumns "text") (Header readmeMetadata)) /\
  sameMetadata (fst (ParseHeader emptyTsdata (Header readmeMetadata)))
               (fst (ParseHeader (twoColumns "text") (Header readmeMetadata))) /\
  checkers (fst (ParseHeader emptyTsdata (Header readmeMetadata)))
  = checkers (fst (ParseHeader (twoColumns "text") (Header readmeMetadata))).
Proof.
  apply (ParseHeader_receiver_independent emptyTsdata (twoColumns "text")
           (Header readmeMetadata)).
  - reflexivity.
  - intros i Hi.
    do 7 (destruct i as [|i]; [try lia; vm_compute; discriminate|]). lia.
Defined.

(** The file of the examples: its header is read and parsed. *)
Lemma readHeader_ParseHeader_example :
  Forall (fun l => contains l LF = false) (linesOf (scannerOf exampleFile None)) /\
  exists header,
    readHeader (scannerOf exampleFile None)
    = inr (header, scannerOf (skipn 7 exampleFile) None) /\
    Split (TrimSuffix header nl) LF = firstn 7 exampleFile.
Proof.
  assert (H : Forall (fun l => contains l LF = false)
                     (linesOf (scannerOf exampleFile None)))
    by (repeat constructor).
  split; [exact H|].
  destruct (proj2 (readHeader_ParseHeader emptyTsdata (scannerOf exampleFile None) H)
                  (or_intror eq_refl))
    as (header & Hread & _ & Hlines).
  exists header. split; [exact Hread|].
  apply Hlines. vm_compute. discriminate.
Defined.

(** The file of the examples on standard input, validated in both
    modes. *)
Lemma validate_stringent_agrees_example :
  noScanError (scannerOf exampleFile None) /\
  exists err log,
    validate decimalNumeral (quietWorld exampleFile) "-" false = Returned err log [] /\
    validate decimalNumeral (quietWorld exampleFile) "-" true
    = Returned err (firstn 1 log) [].
Proof.
  assert (H : noScanError (scannerOf exampleFile None))
    by (split; [reflexivity | repeat constructor]).
  split; [exact H|].
  apply (validate_stringent_agrees decimalNumeral (quietWorld exampleFile) "-").
  intros scanner Hopen. injection Hopen as <-. exact H.
Defined.

(** The file of the examples as CSV: the headers, the first data line,
    and a log entry for the second. *)
Lemma csv_rows_example :
  exists log,
    csv decimalNumeral (quietWorld exampleFile) "-" "-"
    = Returned None log
        (csvRow (Headers (twoColumns "float"))
         :: rowsOf decimalNumeral (twoColumns "float")
                   (linesOf (scannerOf (skipn 7 exampleFile) None))) /\
    log = map logError (refusals decimalNumeral (twoColumns "float")
                                 (linesOf (scannerOf (skipn 7 exampleFile) None))) /\
    List.length log
    + List.length (filter (accepts decimalNumeral (twoColumns "float"))
                          (linesOf (scannerOf (skipn 7 exampleFile) None)))
    = List.length (linesOf (scannerOf (skipn 7 exampleFile) None)).
Proof.
  apply (proj2 (csv_rows decimalNumeral (quietWorld exampleFile) "-" "-")
               (scannerOf exampleFile None) (scannerOf (skipn 7 exampleFile) None)
               (Join (headerLines (twoColumns "float")) LF) (twoColumns "float"));
    reflexivity.
Defined.

(** What the two commands do with the file of the examples. *)
Example commands_on_exampleFile :
  validate decimalNumeral (quietWorld exampleFile) "-" false
  = Returned (Some (FailedValidation "-"))
             ["line 9, column 2, bad value '6a.0'" ++ nl] [] /\
  csv decimalNumeral (quietWorld exampleFile) "in.tsdata" "out.csv"
  = Returned None
             ["column 2, bad value '6a.0'" ++ nl]
             ["time,col1" ++ nl; "2017-05-06T19:52:57.601Z,6.0" ++ nl].
Proof. split; reflexivity. Qed.

(** The same file followed by a line that is too long for the scanner:
    the stringent run stops at the line refused, before the scanner
    fails, and reports the failed validation; the other run reports the
    error of the scanner.  [csv] reports it too, after it has handed the
    rows to the writer.  A header cut short by the error is not read,
    and a file that does not open is reported as such. *)
Example commands_on_scanner_error :
  validate decimalNumeral (tooLongWorld exampleFile) "-" true
  = Returned (Some (FailedValidation "-"))
             ["line 9, column 2, bad value '6a.0'" ++ nl] [] /\
  validate decimalNumeral (tooLongWorld exampleFile) "-" false
  = Returned (Some (IOError tooLong))
             ["line 9, column 2, bad value '6a.0'" ++ nl] [] /\
  csv decimalNumeral (tooLongWorld exampleFile) "-" "-"
  = Returned (Some (IOError tooLong))
             ["column 2, bad value '6a.0'" ++ nl]
             ["time,col1" ++ nl; "2017-05-06T19:52:57.601Z,6.0" ++ nl] /\
  readHeader (scannerOf (firstn 3 exampleFile) (Some tooLong)) = inl tooLong /\
  validate decimalNumeral (tooLongWorld exampleFile) "in.tsdata" false
  = Returned (Some (IOError "open: no such file")) [] [].
Proof. repeat split; reflexivity. Qed.
